(** * tel: query session and row identity

    A shallow embedding of the latest revision of the [tel] sources
    (package [config], package [db], the TUI model and [cmd/tel/main.go])
    together with the properties of the query-session subsystem.

    Conventions.
    - A Go [string] is a Rocq [string]: a sequence of bytes.
    - A Go [int] is a [Z]; slice indices are [nat].
    - A Go [map[string]T] is a [gmap string T]; a nil map reads as the
      empty one, as in Go.
    - A function returning [(T, error)] returns a [Result T]; functions
      that touch the local store, the backend or the random source are
      computations [IO T] over an explicit [World]. *)

From Stdlib Require Import ZArith Ascii String List Lia.
From stdpp Require Import base gmap strings list.

Local Open Scope Z_scope.

(** ** The part of Go's [strings], [unicode] and [fmt] the program uses *)

Module GoStrings.

Definition chars (s : string) : list ascii := list_ascii_of_string s.
Definition str (l : list ascii) : string := string_of_list_ascii l.

Definition byte (n : nat) : ascii := ascii_of_nat n.
Definition code (c : ascii) : nat := nat_of_ascii c.

(** [utf8.RuneSelf]: bytes below it are single-byte runes. *)
Definition RuneSelf : nat := 128.

(** The table [asciiSpace] of package [strings]:
    ['\t'], ['\n'], ['\v'], ['\f'], ['\r'], [' ']. *)
Definition asciiSpace (c : ascii) : bool :=
  let n := code c in
  ((9 <=? n)%nat && (n <=? 13)%nat) || (n =? 32)%nat.

(** UTF-8 encodings of the runes above [RuneSelf] for which
    [unicode.IsSpace] holds: U+0085, U+00A0, U+1680, U+2000..U+200A,
    U+2028, U+2029, U+202F, U+205F, U+3000. *)
Definition unicodeSpaces : list (list ascii) :=
  map (map byte)
    ([ [194; 133]; [194; 160]; [225; 154; 128] ]
     ++ map (fun k => [226; 128; k]) (seq 128 11)
     ++ [ [226; 128; 168]; [226; 128; 169]; [226; 128; 175];
          [226; 129; 159]; [227; 128; 128] ])%nat.

(** Encodings of all the runes for which [unicode.IsSpace] holds. *)
Definition spaceRunes : list (list ascii) :=
  map (fun n => [byte n]) [9; 10; 11; 12; 13; 32]%nat ++ unicodeSpaces.

(** [stripPrefix p l]: the rest of [l] after [p], when [l] starts with [p]. *)
Fixpoint stripPrefix (p l : list ascii) : option (list ascii) :=
  match p, l with
  | [], _ => Some l
  | _ :: _, [] => None
  | a :: p', b :: l' => if Ascii.eqb a b then stripPrefix p' l' else None
  end.

Fixpoint stripAny (table : list (list ascii)) (l : list ascii)
  : option (list ascii) :=
  match table with
  | [] => None
  | p :: table' =>
      match stripPrefix p l with
      | Some r => Some r
      | None => stripAny table' l
      end
  end.

(** One step of [TrimLeftFunc(s, unicode.IsSpace)]: the rune decoded at
    the head of [l] is white space exactly when [l] starts with its
    encoding; the step drops it. *)
Definition dropSpaceRune : list ascii -> option (list ascii) :=
  stripAny spaceRunes.

(** One step of [TrimRightFunc(s, unicode.IsSpace)], on the reversed
    string: the last rune is white space exactly when the string ends
    with its encoding. *)
Definition dropSpaceRuneRev : list ascii -> option (list ascii) :=
  stripAny (map (@rev ascii) spaceRunes).

Fixpoint trimWith (step : list ascii -> option (list ascii))
    (fuel : nat) (l : list ascii) : list ascii :=
  match fuel with
  | O => l
  | S fuel' =>
      match step l with
      | Some l' => trimWith step fuel' l'
      | None => l
      end
  end.

Definition trimLeft (l : list ascii) : list ascii :=
  trimWith dropSpaceRune (length l) l.

Definition trimRight (l : list ascii) : list ascii :=
  rev (trimWith dropSpaceRuneRev (length l) (rev l)).

(** [strings.TrimSpace]: leading and trailing white space removed. *)
Definition TrimSpace (s : string) : string :=
  str (trimRight (trimLeft (chars s))).

(** [strings.TrimPrefix]: [s] without the prefix when it starts with
    it, [s] otherwise. *)
Definition TrimPrefix (s prefix : string) : string :=
  match stripPrefix (chars prefix) (chars s) with
  | Some r => str r
  | None => s
  end.

(** [strings.Join]. *)
Fixpoint Join (elems : list string) (sep : string) : string :=
  match elems with
  | [] => ""
  | [e] => e
  | e :: rest => e +:+ sep +:+ Join rest sep
  end.

(** The ASCII fast path of [strings.ToUpper]. *)
Definition upperByte (c : ascii) : ascii :=
  let n := code c in
  if ((97 <=? n)%nat && (n <=? 122)%nat)%bool then byte (n - 32) else c.

Definition isASCII (s : string) : bool :=
  forallb (fun c => (code c <? RuneSelf)%nat) (chars s).

(** [strings.ToUpper]: byte-wise on an ASCII string, and
    [strings.Map(unicode.ToUpper, s)] (the argument [mapUpper], which
    consults the Unicode case tables) otherwise. *)
Definition ToUpper (mapUpper : string -> string) (s : string) : string :=
  if isASCII s then str (map upperByte (chars s)) else mapUpper s.

(** Lower-case hexadecimal, as [fmt.Sprintf("%x", bytes)] and SQLite's
    [lower(hex(blob))] render bytes. *)
Definition hexDigit (n : nat) : ascii :=
  if (n <? 10)%nat then byte (48 + n) else byte (87 + n).

Definition hexByte (c : ascii) : list ascii :=
  [hexDigit (code c / 16); hexDigit (code c mod 16)]%nat.

Definition hexLower (bytes : list ascii) : string :=
  str (concat (map hexByte bytes)).

Definition isLowerHex (c : ascii) : bool :=
  let n := code c in
  ((48 <=? n)%nat && (n <=? 57)%nat) || ((97 <=? n)%nat && (n <=? 102)%nat).

(** The byte slice [s[lo:hi]]. *)
Definition slice (s : string) (lo hi : nat) : string :=
  substring lo (hi - lo) s.

(** The loop of [strings.ReplaceAll] for a non-empty [old]: the
    occurrences of [old] are replaced from left to right, without
    overlap; [skip] counts the bytes of the occurrence just replaced
    that are still to be passed over. *)
Fixpoint replaceFrom (old new : list ascii) (skip : nat) (l : list ascii)
  : list ascii :=
  match l with
  | [] => []
  | c :: l' =>
      match skip with
      | S skip' => replaceFrom old new skip' l'
      | O =>
          match stripPrefix old l with
          | Some _ => new ++ replaceFrom old new (length old - 1) l'
          | None => c :: replaceFrom old new 0 l'
          end
      end
  end.

(** [strings.ReplaceAll(s, old, new)], [old] not empty (the program
    passes a colon followed by a key). *)
Definition ReplaceAll (s old new : string) : string :=
  str (replaceFrom (chars old) (chars new) 0 (chars s)).

End GoStrings.

Import GoStrings.

(** ** [crypto/sha256] *)

Module sha256.

Local Open Scope N_scope.

(** 32-bit words as numbers below [2^32]. *)
Definition mask32 : N := 0xFFFFFFFF.
Definition add32 (a b : N) : N := N.land (a + b) mask32.
Definition rotr (n x : N) : N :=
  N.lor (N.shiftr x n) (N.land (N.shiftl x (32 - n)) mask32).
Definition shr (n x : N) : N := N.shiftr x n.
Definition not32 (x : N) : N := N.lxor x mask32.

Definition Ch (x y z : N) : N := N.lxor (N.land x y) (N.land (not32 x) z).
Definition Maj (x y z : N) : N :=
  N.lxor (N.land x y) (N.lxor (N.land x z) (N.land y z)).
Definition bigSigma0 (x : N) : N :=
  N.lxor (rotr 2 x) (N.lxor (rotr 13 x) (rotr 22 x)).
Definition bigSigma1 (x : N) : N :=
  N.lxor (rotr 6 x) (N.lxor (rotr 11 x) (rotr 25 x)).
Definition sigma0 (x : N) : N :=
  N.lxor (rotr 7 x) (N.lxor (rotr 18 x) (shr 3 x)).
Definition sigma1 (x : N) : N :=
  N.lxor (rotr 17 x) (N.lxor (rotr 19 x) (shr 10 x)).

(** The first [n] primes, by trial division. *)
Definition isPrime (p : nat) : bool :=
  forallb (fun d => negb (Nat.eqb (Nat.modulo p d) 0)) (seq 2 (p - 2)).

Definition firstPrimes (n : nat) : list N :=
  map N.of_nat (firstn n (List.filter isPrime (seq 2 310))).

(** The integer cube root of [x], bit by bit from bit [bits - 1] down. *)
Fixpoint cubeRoot (bits : nat) (x acc : N) : N :=
  match bits with
  | O => acc
  | S b =>
      let cand := acc + N.shiftl 1 (N.of_nat b) in
      if cand * cand * cand <=? x then cubeRoot b x cand
      else cubeRoot b x acc
  end.

(** The round constants: the first 32 bits of the fractional parts of
    the cube roots of the first 64 primes. *)
Definition K : list N :=
  map (fun p => N.land (cubeRoot 36 (N.shiftl p 96) 0) mask32)
      (firstPrimes 64).

(** The initial hash value: the first 32 bits of the fractional parts
    of the square roots of the first 8 primes. *)
Definition init : list N :=
  map (fun p => N.land (N.sqrt (N.shiftl p 64)) mask32) (firstPrimes 8).

Definition word (l : list N) (i : nat) : N := nth i l 0.

(** One round on the working variables [a .. h]. *)
Definition round (k w : N) (v : list N) : list N :=
  let t1 := add32 (add32 (add32 (word v 7) (bigSigma1 (word v 4)))
                         (add32 (Ch (word v 4) (word v 5) (word v 6)) k)) w in
  let t2 := add32 (bigSigma0 (word v 0))
                  (Maj (word v 0) (word v 1) (word v 2)) in
  [ add32 t1 t2; word v 0; word v 1; word v 2;
    add32 (word v 3) t1; word v 4; word v 5; word v 6 ].

(** The rounds, [win] holding the sixteen words of the message schedule
    from the current one on. *)
Fixpoint rounds (ks : list N) (win : list N) (v : list N) : list N :=
  match ks with
  | [] => v
  | k :: ks' =>
      let next := add32 (add32 (sigma1 (word win 14)) (word win 9))
                        (add32 (sigma0 (word win 1)) (word win 0)) in
      rounds ks' (tl win ++ [next]) (round k (word win 0) v)
  end.

Definition block (h : list N) (ws : list N) : list N :=
  let v := rounds K ws h in
  map (fun i => add32 (word h i) (word v i)) (seq 0 8).

Fixpoint blocks (n : nat) (h : list N) (ws : list N) : list N :=
  match n with
  | O => h
  | S n' => blocks n' (block h (firstn 16 ws)) (skipn 16 ws)
  end.

Definition bigEndian (width : nat) (x : N) : list N :=
  map (fun i => N.land (N.shiftr x (8 * N.of_nat (width - 1 - i))) 0xFF)
      (seq 0 width).

Fixpoint words (bytes : list N) (n : nat) : list N :=
  match n with
  | O => []
  | S n' =>
      match bytes with
      | b0 :: b1 :: b2 :: b3 :: rest =>
          (N.shiftl b0 24 + N.shiftl b1 16 + N.shiftl b2 8 + b3)
          :: words rest n'
      | _ => []
      end
  end.

Definition pad (msg : list N) : list N :=
  let len := length msg in
  let zeros := Nat.modulo (64 - Nat.modulo (len + 9) 64) 64 in
  msg ++ [0x80] ++ repeat 0 zeros ++ bigEndian 8 (8 * N.of_nat len).

(** [sha256.Sum256([]byte(data))]: the 32 bytes of the digest. *)
Definition Sum256 (data : string) : list ascii :=
  let padded := pad (map N_of_ascii (list_ascii_of_string data)) in
  let n := Nat.div (length padded) 64 in
  let h := blocks n init (words padded (Nat.mul 16 n)) in
  map ascii_of_N (concat (map (bigEndian 4) h)).

End sha256.

Arguments sha256.Sum256 : simpl never.

(** ** Errors and results *)

(** A Go [error]: [sql.ErrNoRows], or any other error with its message. *)
Inductive error : Type :=
| ErrNoRows
| ErrorString (msg : string).

(** [err.Error()] *)
Definition Error (e : error) : string :=
  match e with
  | ErrNoRows => "sql: no rows in result set"
  | ErrorString msg => msg
  end.

Inductive Result (A : Type) : Type :=
| Ok (a : A)
| Err (e : error).
Arguments Ok {A} a.
Arguments Err {A} e.

(** ** The [bubbles] widgets, as far as the program drives them *)

Module table.

Record Column : Type := { Title : string; Width : Z }.

Abbreviation Row := (list string).

Record Model : Type := {
  cols : list Column;
  rows : list Row;
  cursor : Z;
  focus : bool
}.

Definition Focused (m : Model) : bool := focus m.
Definition Focus (m : Model) : Model :=
  {| cols := cols m; rows := rows m; cursor := cursor m; focus := true |}.
Definition Blur (m : Model) : Model :=
  {| cols := cols m; rows := rows m; cursor := cursor m; focus := false |}.

Definition Rows (m : Model) : list Row := rows m.
Definition Columns (m : Model) : list Column := cols m.

(** [SelectedRow]: nil when the cursor is out of range. *)
Definition SelectedRow (m : Model) : Row :=
  if (cursor m <? 0) || (Z.of_nat (length (rows m)) <=? cursor m) then []
  else default [] (rows m !! Z.to_nat (cursor m)).

Definition SetRows (r : list Row) (m : Model) : Model :=
  {| cols := cols m; rows := r;
     cursor := if Z.of_nat (length r) - 1 <? cursor m
               then Z.of_nat (length r) - 1 else cursor m;
     focus := focus m |}.

Definition SetColumns (c : list Column) (m : Model) : Model :=
  {| cols := c; rows := rows m; cursor := cursor m; focus := focus m |}.

Definition clamp (v low high : Z) : Z := Z.min (Z.max v low) high.

Definition SetCursor (n : Z) (m : Model) : Model :=
  {| cols := cols m; rows := rows m;
     cursor := clamp n 0 (Z.of_nat (length (rows m)) - 1);
     focus := focus m |}.

(** [New(WithColumns(c), WithRows(r), WithFocused(focused),
    WithHeight(h))]: the cursor starts on the first row. The height
    sizes the viewport, which is not part of this model. *)
Definition New (c : list Column) (r : list Row) (focused : bool) : Model :=
  {| cols := c; rows := r; cursor := 0; focus := focused |}.

End table.

Module textinput.

Record Model : Type := { value : string; focus : bool }.

Definition Value (m : Model) : string := value m.
Definition Focused (m : Model) : bool := focus m.
Definition Focus (m : Model) : Model := {| value := value m; focus := true |}.
Definition Blur (m : Model) : Model := {| value := value m; focus := false |}.

(** [New()]: empty and not focused. *)
Definition New : Model := {| value := ""; focus := false |}.

End textinput.

(** ** [bubbletea] messages and commands *)

Module tea.

Inductive Msg : Type :=
| KeyMsg (key : string)
| OtherMsg (tag : nat).

(** A command handed back to the runtime; [None] is the nil command. *)
#[warnings="-register-all"]
Inductive Command : Type :=
| Quit
| Printf (text : string)
| Batched (cmds : list Command)
| Widget (tag : nat).

Definition Cmd : Type := option Command.

(** [tea.Batch]: nil commands dropped; nil for none left, the command
    itself for one, a batch otherwise. *)
Definition Batch (cmds : list Cmd) : Cmd :=
  match omap id cmds with
  | [] => None
  | [c] => Some c
  | cs => Some (Batched cs)
  end.

End tea.

(** ** The local store [~/.tel/tel.db] *)

(** [queries(id, id_item, name UNIQUE, query, config, height DEFAULT 10)] *)
Record QueriesRow : Type := {
  q_id : Z; q_id_item : Z; q_name : string; q_query : string;
  q_config : option string; q_height : option Z
}.

(** [items(id AUTOINCREMENT, id_db, name)] *)
Record ItemsRow : Type := { it_id : Z; it_id_db : Z; it_name : string }.

(** A value as SQLite keeps it in a column: an integer, a real (its
    IEEE 754 binary64 bits) or a text. *)
Inductive SqlValue : Type :=
| SqlInteger (n : Z)
| SqlReal (bits : Z)
| SqlText (s : string).

#[global] Instance SqlValue_eq_dec : EqDecision SqlValue.
Proof. solve_decision. Defined.

(** [config(id_item INTEGER, uid TEXT, var STRING, val TEXT,
    PRIMARY KEY (id_item, uid, var))]. The type name [STRING] gives the
    column [var] NUMERIC affinity: a text written to it that looks like
    a number is kept as that number. *)
Record ConfigRow : Type := {
  c_id_item : Z; c_uid : string; c_var : SqlValue; c_val : string
}.

(** [instance(uid, id_query, hash, filter, PRIMARY KEY (uid, id_query))] *)
Record InstanceRow : Type := {
  i_uid : string; i_id_query : Z; i_hash : string; i_filter : string
}.

(** A table is the list of its rows in insertion order, or [None] when
    it was never created ([Init] discards the outcome of its DDL). The
    columns of text and integer type hold the value the program binds
    to them and scans from them; the column [var] of [config], which the
    program writes and never reads, holds the value SQLite makes of the
    text bound to it. *)
Definition Table (A : Type) : Type := option (list A).

Record Store : Type := {
  items : Table ItemsRow;
  items_seq : Z;
  config : Table ConfigRow;
  queries : Table QueriesRow;
  instance : Table InstanceRow
}.

(** ** The backend database *)

(** A value handed over by the driver into an [interface{}]. *)
Inductive Value : Type :=
| VNil
| VBytes (b : string)
| VString (s : string)
| VOther (rendered : string).  (* any other type, with its [%v] text *)

Record ResultSet : Type := {
  rs_columns : list string;
  rs_rows : list (list Value)
}.

(** ** The world the program runs in *)

Record World : Type := {
  sqliteDB : Store;
  (** what the connected backend answers to a query text *)
  backend : string -> Result ResultSet;
  (** the query texts sent to the backend so far, oldest first *)
  executed : list string;
  (** SQLite's random source, and how many bytes were drawn from it *)
  entropy : nat -> ascii;
  drawn : nat
}.

Definition IO (A : Type) : Type := World -> Result A * World.

Definition ret {A} (a : A) : IO A := fun w => (Ok a, w).
Definition fail {A} (e : error) : IO A := fun w => (Err e, w).
Definition bind {A B} (m : IO A) (k : A -> IO B) : IO B :=
  fun w => match m w with
           | (Ok a, w') => k a w'
           | (Err e, w') => (Err e, w')
           end.

Notation "x <- m ;; k" := (bind m (fun x => k))
  (at level 100, m at next level, right associativity).
Notation "m ;;; k" := (bind m (fun _ => k))
  (at level 100, right associativity).

Definition setStore (s : Store) (w : World) : World :=
  {| sqliteDB := s; backend := backend w; executed := executed w;
     entropy := entropy w; drawn := drawn w |}.

(** ** Package [config] *)

Record QueryConfig : Type := {
  Widths : gmap string Z;
  Aliases : gmap string string;
  Height : Z
}.

(** Keys of the two tables the program writes with [INSERT OR REPLACE]. *)
Definition instanceKey (r : InstanceRow) : string * Z :=
  (i_uid r, i_id_query r).

Definition configKey (r : ConfigRow) : Z * string * SqlValue :=
  (c_id_item r, c_uid r, c_var r).

(** [INSERT OR REPLACE INTO t ...] on a table with primary key [key]:
    the rows in conflict with the new one are deleted, then the new row
    is inserted. *)
Definition insertOrReplace {A K} `{EqDecision K} (key : A -> K)
    (new : A) (t : list A) : list A :=
  filter (fun r => key r <> key new) t ++ [new].

Definition noSuchTable {A} (name : string) : IO A :=
  fail (ErrorString ("no such table: " +:+ name)).

(** ** The machine [tel] is started on *)

(** [dbs(id AUTOINCREMENT, driver STRING NOT NULL, name STRING UNIQUE,
    connect TEXT, comment TEXT)]: the databases the user has registered.
    The program reads this table of the local store and never writes
    it. The name, which the program compares and never scans, is the
    value SQLite keeps in a column declared [STRING]; the driver, which
    the program scans and never compares, is the text [Scan] makes of
    the value kept. *)
Record DbsRow : Type := {
  d_id : Z; d_driver : string; d_name : option SqlValue;
  d_connect : option string; d_comment : option string
}.

Record Host : Type := {
  world : World;
  (** the table [dbs] of the local store *)
  dbs : Table DbsRow;
  (** what [GetDBPath] returns: the path of the local store under the
      home directory, or the error of [user.Current] or [os.MkdirAll] *)
  dbPath : Result string;
  (** the args file at a path: the error of [os.Open], or the keys of
      the decoded object with the [%v] text of their values, in the
      order the [range] loop visits them; no entry when the text does
      not decode, since [main] drops the error of [Decode] *)
  argsFile : string -> Result (list (string * string));
  (** the database behind a driver and a connection string, as it
      answers once [db.Connect] has opened and pinged it and, for
      duckdb, run [~/.duckdbrc]; or the error [db.Connect] returns *)
  databases : string -> string -> Result (string -> Result ResultSet)
}.

Definition setWorld (w : World) (h : Host) : Host :=
  {| world := w; dbs := dbs h; dbPath := dbPath h; argsFile := argsFile h;
     databases := databases h |}.

Definition setBackend (answers : string -> Result ResultSet) (w : World)
  : World :=
  {| sqliteDB := sqliteDB w; backend := answers; executed := executed w;
     entropy := entropy w; drawn := drawn w |}.

(** Computations of the startup, over the host. *)
Definition Boot (A : Type) : Type := Host -> Result A * Host.

Definition lift {A} (m : IO A) : Boot A :=
  fun h => let (r, w) := m (world h) in (r, setWorld w h).

Definition raise {A} (e : error) : Boot A := fun h => (Err e, h).

Definition andThen {A B} (m : Boot A) (k : A -> Boot B) : Boot B :=
  fun h => match m h with
           | (Ok a, h') => k a h'
           | (Err e, h') => (Err e, h')
           end.

Notation "x <~ m ;; k" := (andThen m (fun x => k))
  (at level 100, m at next level, right associativity).
Notation "m ;;~ k" := (andThen m (fun _ => k))
  (at level 100, right associativity).

(** The command line: the flags [-item], [-sql], [-db], [-filter],
    [-args] and [-uid]. *)
Record Flags : Type := {
  f_item : string; f_sql : string; f_db : string;
  f_filter : string; f_args : string; f_uid : string
}.

(** [CREATE TABLE IF NOT EXISTS] *)
Definition createIfNotExists {A} (t : Table A) : Table A :=
  match t with
  | Some rows => Some rows
  | None => Some []
  end.

(** [Scan] of a text column into a [string]: a null does not convert. *)
Definition scanString (column : string) (v : option string) : Result string :=
  match v with
  | Some text => Ok text
  | None =>
      Err (ErrorString
             ("sql: Scan error on column index 0, name "
              +:+ String (byte 34) (column +:+ String (byte 34)
                    ": converting NULL to string is unsupported")))
  end.

(** [SELECT column FROM dbs WHERE p], the first row scanned. *)
Definition selectDbs {A} (p : DbsRow -> bool) (column : DbsRow -> Result A)
  : Boot A :=
  fun h =>
  match dbs h with
  | None => (Err (ErrorString "no such table: dbs"), h)
  | Some t =>
      match find p t with
      | None => (Err ErrNoRows, h)
      | Some r => (column r, h)
      end
  end.

Section Program.

(** Library functions the program calls and this development does not
    look into. *)

(** [json.Unmarshal] of a text into a zero [QueryConfig]. *)
Variable json_Unmarshal : string -> Result QueryConfig.

(** [strings.Map(unicode.ToUpper, s)], the path [strings.ToUpper] takes
    on a string with a byte outside ASCII. *)
Variable unicode_MapUpper : string -> string.

(** The widgets' own [Update]: navigation keys, typing. *)
Variable table_Update : table.Model -> tea.Msg -> table.Model * tea.Cmd.
Variable textinput_Update :
  textinput.Model -> tea.Msg -> textinput.Model * tea.Cmd.

(** SQLite's NUMERIC affinity, applied to a text that is written to a
    column declared [STRING] or compared with one: a text that is an
    integer or real literal, white space around it allowed, is kept as
    that number (as an integer when the number is one that fits 64
    bits); any other text is kept as it is. So [007] and [7] are both
    kept as the integer 7. *)
Variable sqlite_numeric : string -> SqlValue.

(** [SetValue] of the text input, which cleans the text up and cuts it
    at the character limit. *)
Variable textinput_SetValue : string -> textinput.Model -> textinput.Model.

(** [SELECT config, COALESCE(height, 10) FROM queries WHERE name = ?] *)
Definition GetQueryConfig (sqlName : string)
  : IO (gmap string Z * gmap string string * Z) :=
  fun w =>
  match queries (sqliteDB w) with
  | None => noSuchTable "queries" w
  | Some t =>
      match find (fun r => bool_decide (q_name r = sqlName)) t with
      | None => fail ErrNoRows w
      | Some r =>
          let configJSON := q_config r in
          let tableHeight := default 10 (q_height r) in
          match configJSON with
          | None => ret (∅, ∅, tableHeight) w
          | Some text =>
              if bool_decide (text = "") then ret (∅, ∅, tableHeight) w
              else
                match json_Unmarshal text with
                | Err e => fail e w
                | Ok cfg =>
                    let height :=
                      if Height cfg =? 0 then tableHeight else Height cfg in
                    ret (Widths cfg, Aliases cfg, height) w
                end
          end
      end
  end.

(** [SELECT id FROM queries WHERE name = ?] *)
Definition GetQueryID (sqlName : string) : IO Z :=
  fun w =>
  match queries (sqliteDB w) with
  | None => noSuchTable "queries" w
  | Some t =>
      match find (fun r => bool_decide (q_name r = sqlName)) t with
      | None => fail ErrNoRows w
      | Some r => ret (q_id r) w
      end
  end.

(** [SELECT id FROM items WHERE name = ?] *)
Definition GetItemID (itemName : string) : IO Z :=
  fun w =>
  match items (sqliteDB w) with
  | None => noSuchTable "items" w
  | Some t =>
      match find (fun r => bool_decide (it_name r = itemName)) t with
      | None => fail ErrNoRows w
      | Some r => ret (it_id r) w
      end
  end.

(** The id an [AUTOINCREMENT] insert receives: one more than the largest
    id the table holds or ever held. *)
Definition nextItemID (s : Store) (t : list ItemsRow) : Z :=
  1 + foldr Z.max (Z.max 0 (items_seq s)) (map it_id t).

Definition InsertItemIfNotExists (item : string) (idDB : Z) : IO unit :=
  fun w =>
  let s := sqliteDB w in
  match items s with
  | None => noSuchTable "items" w
  | Some t =>
      let count :=
        length (filter (fun r => it_name r = item) t) in
      if (count =? 0)%nat then
        let id := nextItemID s t in
        ret tt (setStore
          {| items := Some (t ++ [{| it_id := id; it_id_db := idDB;
                                     it_name := item |}]);
             items_seq := id; config := config s;
             queries := queries s; instance := instance s |} w)
      else ret tt w
  end.

(** [INSERT OR REPLACE INTO config (id_item, uid, var, val) VALUES ...]
    of a row as the table keeps it. *)
Definition execUpsertConfig (new : ConfigRow) : IO unit :=
  fun w =>
  let s := sqliteDB w in
  match config s with
  | None => noSuchTable "config" w
  | Some t =>
      ret tt (setStore
        {| items := items s; items_seq := items_seq s;
           config := Some (insertOrReplace configKey new t);
           queries := queries s; instance := instance s |} w)
  end.

(** [INSERT OR REPLACE INTO instance (uid, id_query, hash, filter) ...] *)
Definition execUpsertInstance (new : InstanceRow) : IO unit :=
  fun w =>
  let s := sqliteDB w in
  match instance s with
  | None => noSuchTable "instance" w
  | Some t =>
      ret tt (setStore
        {| items := items s; items_seq := items_seq s;
           config := config s; queries := queries s;
           instance := Some (insertOrReplace instanceKey new t) |} w)
  end.

(** [SELECT lower(hex(randomblob(16)))]: sixteen fresh bytes of the
    random source, in lower-case hexadecimal. *)
Definition drawBytes (n : nat) (w : World) : World :=
  {| sqliteDB := sqliteDB w; backend := backend w; executed := executed w;
     entropy := entropy w; drawn := (drawn w + n)%nat |}.

Definition randomblobHex (n : nat) : IO string :=
  fun w =>
  let blob := map (entropy w) (seq (drawn w) n) in
  (Ok (hexLower blob), drawBytes n w).

Definition generateUUID : IO string :=
  hex <- randomblobHex 16 ;;
  ret (slice hex 0 8 +:+ "-" +:+ slice hex 8 12 +:+ "-" +:+
       slice hex 12 16 +:+ "-" +:+ slice hex 16 20 +:+ "-" +:+
       slice hex 20 32).

Definition SaveInstance (idQuery : Z) (hash providedUID filter : string)
  : IO string :=
  uid <- (if bool_decide (providedUID = "") then generateUUID
          else ret providedUID) ;;
  execUpsertInstance {| i_uid := uid; i_id_query := idQuery;
                        i_hash := hash; i_filter := filter |} ;;;
  ret uid.

Definition selectInstance (uid : string) (idQuery : Z) (t : list InstanceRow)
  : option InstanceRow :=
  find (fun r => bool_decide (i_uid r = uid /\ i_id_query r = idQuery)) t.

(** [SELECT hash FROM instance WHERE uid = ? AND id_query = ?] *)
Definition GetHashByUID (uid : string) (idQuery : Z) : IO string :=
  fun w =>
  match instance (sqliteDB w) with
  | None => noSuchTable "instance" w
  | Some t =>
      match selectInstance uid idQuery t with
      | None => fail ErrNoRows w
      | Some r => ret (i_hash r) w
      end
  end.

(** [SELECT filter FROM instance WHERE uid = ? AND id_query = ?] *)
Definition GetFilterByUID (uid : string) (idQuery : Z) : IO string :=
  fun w =>
  match instance (sqliteDB w) with
  | None => noSuchTable "instance" w
  | Some t =>
      match selectInstance uid idQuery t with
      | None => fail ErrNoRows w
      | Some r => ret (i_filter r) w
      end
  end.

(** The loop of [SaveConfigFromTable] (and of [InsertConfig]) from
    index [i] on, [rest] being [cols[i:]]. *)
Fixpoint saveColumns (idItem : Z) (uid : string) (row : list string)
    (aliases : gmap string string) (i : nat) (rest : list table.Column)
  : IO unit :=
  match rest with
  | [] => ret tt
  | col :: rest' =>
      (if (i <? length row)%nat then
         let colTitle := ToUpper unicode_MapUpper (table.Title col) in
         match aliases !! colTitle with
         | Some alias =>
             let varValue := default "" (row !! i) in
             execUpsertConfig {| c_id_item := idItem; c_uid := uid;
                                 c_var := sqlite_numeric alias;
                                 c_val := varValue |}
         | None => ret tt
         end
       else ret tt) ;;;
      saveColumns idItem uid row aliases (S i) rest'
  end.

Definition SaveConfigFromTable (itemName : string) (idDB : Z) (uid : string)
    (row : list string) (cols : list table.Column)
    (aliases : gmap string string) : IO unit :=
  InsertItemIfNotExists itemName idDB ;;;
  idItem <- GetItemID itemName ;;
  saveColumns idItem uid row aliases O cols.

(** ** Package [db] *)

Definition render (v : Value) : string :=
  match v with
  | VNil => ""
  | VBytes b => b
  | VString s => s
  | VOther rendered => rendered
  end.

(** The backend receives a query text. *)
Definition logQuery (sqlQuery : string) (w : World) : World :=
  {| sqliteDB := sqliteDB w; backend := backend w;
     executed := executed w ++ [sqlQuery];
     entropy := entropy w; drawn := drawn w |}.

Definition GetContent (sqlQuery : string)
  : IO (list table.Row * list table.Column) :=
  fun w =>
  let w' := logQuery sqlQuery w in
  match backend w sqlQuery with
  | Err e => (Err e, w')
  | Ok rs =>
      let cols := rs_columns rs in
      let result :=
        map (fun values => map render (resize (length cols) VNil values))
            (rs_rows rs) in
      let tableCols :=
        map (fun col =>
               {| table.Title := ToUpper unicode_MapUpper col;
                  table.Width := 20 |}) cols in
      (Ok (result, tableCols), w')
  end.

(** ** The TUI model *)

Record Model : Type := {
  table : table.Model;
  textInput : textinput.Model;
  itemName : string;
  sqlName : string;
  sqlQuery : string;
  idDB : Z;
  idQuery : Z;
  height : Z;
  aliases : gmap string string;
  initialFilter : string;
  uid : string;
  filter_ : string;  (* the field [filter]; the name is taken by lists *)
  view : string
}.

Definition NewModel (t : table.Model) (ti : textinput.Model)
    (itemName sqlName sqlQuery : string) (idDB idQuery height : Z)
    (aliases : gmap string string) (initialFilter uid view : string) : Model :=
  {| table := t; textInput := ti; itemName := itemName; sqlName := sqlName;
     sqlQuery := sqlQuery; idDB := idDB; idQuery := idQuery;
     height := height; aliases := aliases; initialFilter := initialFilter;
     uid := uid; filter_ := initialFilter; view := view |}.

Definition GetTable (m : Model) : table.Model := table m.

Definition SetTable (t : table.Model) (m : Model) : Model :=
  {| table := t; textInput := textInput m; itemName := itemName m;
     sqlName := sqlName m; sqlQuery := sqlQuery m; idDB := idDB m;
     idQuery := idQuery m; height := height m; aliases := aliases m;
     initialFilter := initialFilter m; uid := uid m; filter_ := filter_ m;
     view := view m |}.

Definition setTextInput (ti : textinput.Model) (m : Model) : Model :=
  {| table := table m; textInput := ti; itemName := itemName m;
     sqlName := sqlName m; sqlQuery := sqlQuery m; idDB := idDB m;
     idQuery := idQuery m; height := height m; aliases := aliases m;
     initialFilter := initialFilter m; uid := uid m; filter_ := filter_ m;
     view := view m |}.

Definition setFilter (f : string) (m : Model) : Model :=
  {| table := table m; textInput := textInput m; itemName := itemName m;
     sqlName := sqlName m; sqlQuery := sqlQuery m; idDB := idDB m;
     idQuery := idQuery m; height := height m; aliases := aliases m;
     initialFilter := initialFilter m; uid := uid m; filter_ := f;
     view := view m |}.

(** The loop of [ToVerticalView] from index [i] on, [rest] being
    [cols[i:]]: one two-cell row per column. *)
Fixpoint verticalRows (row : table.Row) (i : nat) (rest : list table.Column)
  : list table.Row :=
  match rest with
  | [] => []
  | col :: rest' =>
      let colTitle := table.Title col in
      let value := if (i <? length row)%nat then default "" (row !! i)
                   else "" in
      [colTitle; value] :: verticalRows row (S i) rest'
  end.

Definition ToVerticalView (rows : list table.Row) (cols : list table.Column)
  : list table.Row * list table.Column :=
  match rows with
  | [] => (rows, cols)
  | row :: _ =>
      (verticalRows row O cols,
       [ {| table.Title := "column"; table.Width := 30 |};
         {| table.Title := "val"; table.Width := 50 |} ])
  end.

(** The loop of [SelectRowByHash] from index [i] on: the index of the
    first row whose digest is [targetHash]. *)
Fixpoint findRowByHash (targetHash : string) (i : nat)
    (rest : list table.Row) : option nat :=
  match rest with
  | [] => None
  | row :: rest' =>
      let hash := hexLower (sha256.Sum256 (Join row "|")) in
      if bool_decide (hash = targetHash) then Some i
      else findRowByHash targetHash (S i) rest'
  end.

Definition SelectRowByHash (targetHash : string) (m : Model) : Model :=
  let rows := table.Rows (table m) in
  match findRowByHash targetHash O rows with
  | Some i => SetTable (table.SetCursor (Z.of_nat i) (table m)) m
  | None => m
  end.

Definition FilterContent (m : Model) (filter : string)
  : IO (list table.Row * list table.Column) :=
  let filter := TrimSpace filter in
  let filter := TrimPrefix filter "WHERE" in
  let filter := TrimSpace filter in
  fun w =>
  let (config, w) := GetQueryConfig (sqlName m) w in
  let (widths, aliases) :=
    match config with
    | Ok (widths, aliases, _) => (widths, aliases)
    | Err _ => (∅, ∅)
    end in
  (content <-
     (if bool_decide (filter = "") then GetContent (sqlQuery m)
      else
        let wrappedQuery := "SELECT * FROM (" +:+ sqlQuery m +:+ ")" in
        let filteredQuery := wrappedQuery +:+ " WHERE " +:+ filter in
        GetContent filteredQuery) ;;
   let (rows, cols) := content : list table.Row * list table.Column in
   let originalToAlias : gmap string string :=
     list_to_map (map_to_list aliases) in
   let cols :=
     map (fun col =>
            let colTitle := ToUpper unicode_MapUpper (table.Title col) in
            let originalName :=
              match originalToAlias !! colTitle with
              | Some alias => alias
              | None => colTitle
              end in
            {| table.Title := table.Title col;
               table.Width := match widths !! originalName with
                              | Some width => width
                              | None => 20
                              end |}) cols in
   ret (if bool_decide (view m = "c") then ToVerticalView rows cols
        else (rows, cols))) w.

Definition newline : string := String (byte 10) "".

(** [Update] on a key or any other message. Lines written with the
    [log] package go to the log file and are left out. *)
Definition Update (m : Model) (msg : tea.Msg) : World -> Model * tea.Cmd * World :=
  fun w =>
  let widgets (m : Model) : Model * tea.Cmd * World :=
    let (t, _) := table_Update (table m) msg in
    let m := SetTable t m in
    let (ti, cmd) := textinput_Update (textInput m) msg in
    let m := setTextInput ti m in
    let m := if textinput.Focused (textInput m)
             then setFilter (textinput.Value (textInput m)) m else m in
    (m, cmd, w) in
  match msg with
  | tea.KeyMsg "tab" =>
      if table.Focused (table m) then
        widgets (setTextInput (textinput.Focus (textInput m))
                   (SetTable (table.Blur (table m)) m))
      else
        widgets (SetTable (table.Focus (table m))
                   (setTextInput (textinput.Blur (textInput m)) m))
  | tea.KeyMsg "esc" =>
      if table.Focused (table m) then
        widgets (SetTable (table.Blur (table m)) m)
      else widgets (SetTable (table.Focus (table m)) m)
  | tea.KeyMsg "ctrl+c" => (m, Some tea.Quit, w)
  | tea.KeyMsg "enter" =>
      if textinput.Focused (textInput m) then
        let filter := textinput.Value (textInput m) in
        match FilterContent m filter w with
        | (Err err, w) =>
            (m, tea.Batch [Some (tea.Printf
                  (newline +:+ "Error filtering: " +:+ Error err
                   +:+ newline))], w)
        | (Ok (rows, cols), w) =>
            let m := SetTable (table.SetColumns cols
                                 (table.SetRows rows (table m))) m in
            let row := table.SelectedRow (table m) in
            let hash := hexLower (sha256.Sum256 (Join row "|")) in
            let (_, w) := SaveInstance (idQuery m) hash (uid m) filter w in
            (m, tea.Batch [], w)
        end
      else
        let row := table.SelectedRow (table m) in
        let hash := hexLower (sha256.Sum256 (Join row "|")) in
        let cols := table.Columns (table m) in
        match SaveConfigFromTable (itemName m) (idDB m) (uid m) row cols
                (aliases m) w with
        | (Err err, w) =>
            (m, tea.Batch [Some (tea.Printf
                  (newline +:+ "Error saving to config: " +:+ Error err
                   +:+ newline))], w)
        | (Ok _, w) =>
            let (_, w) := SaveInstance (idQuery m) hash (uid m)
                            (textinput.Value (textInput m)) w in
            (m, tea.Batch [], w)
        end
  | _ => widgets m
  end.

(** ** [cmd/tel/main.go] *)

Definition applyColumnWidths (columns : list table.Column)
    (widths : gmap string Z) (aliases : gmap string string)
  : list table.Column :=
  map (fun col =>
         let fieldName := table.Title col in
         {| table.Title := table.Title col;
            table.Width := match widths !! fieldName with
                           | Some width => width
                           | None => 20
                           end |}) columns.

(** What [main] puts in the table when no filter is given (lines
    142-168): the display configuration of the query, the content of the
    query, the widths applied. Every failure makes [main] exit with
    status 1. This [main] is of the revision before the model received
    its [view] field. *)
Definition main_content (sqlName sqlQuery : string)
  : IO (list table.Row * list table.Column) :=
  config <- GetQueryConfig sqlName ;;
  let '(widths, aliases, tblHeight) := config in
  content <- GetContent sqlQuery ;;
  let (rows, columns) := content : list table.Row * list table.Column in
  if ((length rows =? 0)%nat || (length columns =? 0)%nat)%bool then
    fail (ErrorString "exit status 1")
  else ret (rows, applyColumnWidths columns widths aliases).

(** ** Package [config]: the catalog of databases, items and queries *)

(** [SELECT connect FROM dbs WHERE name = ?] *)
Definition GetConnectionString (dbName : string) : Boot string :=
  selectDbs
    (fun r => bool_decide (d_name r = Some (sqlite_numeric dbName)))
    (fun r => scanString "connect" (d_connect r)).

(** [SELECT id FROM dbs WHERE name = ?] *)
Definition GetDBID (dbName : string) : Boot Z :=
  selectDbs
    (fun r => bool_decide (d_name r = Some (sqlite_numeric dbName)))
    (fun r => Ok (d_id r)).

(** [SELECT driver FROM dbs WHERE name = ?] *)
Definition GetDBDriver (dbName : string) : Boot string :=
  selectDbs
    (fun r => bool_decide (d_name r = Some (sqlite_numeric dbName)))
    (fun r => Ok (d_driver r)).

(** [SELECT driver FROM dbs WHERE id = ?] *)
Definition GetDBDriverByID (idDB : Z) : Boot string :=
  selectDbs (fun r => bool_decide (d_id r = idDB))
            (fun r => Ok (d_driver r)).

(** [SELECT connect FROM dbs WHERE id = ?] *)
Definition GetConnectionStringByID (idDB : Z) : Boot string :=
  selectDbs (fun r => bool_decide (d_id r = idDB))
            (fun r => scanString "connect" (d_connect r)).

(** [SELECT query FROM queries WHERE name = ?] *)
Definition GetQueryFromDB (sqlName : string) : IO string :=
  fun w =>
  match queries (sqliteDB w) with
  | None => noSuchTable "queries" w
  | Some t =>
      match find (fun r => bool_decide (q_name r = sqlName)) t with
      | None => fail ErrNoRows w
      | Some r => ret (q_query r) w
      end
  end.

(** [SELECT id_db FROM items WHERE id = ?] *)
Definition GetDBIDFromItem (itemID : Z) : IO Z :=
  fun w =>
  match items (sqliteDB w) with
  | None => noSuchTable "items" w
  | Some t =>
      match find (fun r => bool_decide (it_id r = itemID)) t with
      | None => fail ErrNoRows w
      | Some r => ret (it_id_db r) w
      end
  end.

Definition GetConnectionStringByItem (itemName : string) : Boot string :=
  itemID <~ lift (GetItemID itemName) ;;
  idDB <~ lift (GetDBIDFromItem itemID) ;;
  GetConnectionStringByID idDB.

(** [SELECT id_query FROM instance WHERE hash = ?] *)
Definition GetQueryIDByHash (hash : string) : IO Z :=
  fun w =>
  match instance (sqliteDB w) with
  | None => noSuchTable "instance" w
  | Some t =>
      match find (fun r => bool_decide (i_hash r = hash)) t with
      | None => fail ErrNoRows w
      | Some r => ret (i_id_query r) w
      end
  end.

(** The loop of [InsertConfig] from index [i] on, [rest] being
    [cols[i:]]. *)
Fixpoint insertColumns (idItem : Z) (uid : string) (row : list string)
    (aliases : gmap string string) (i : nat) (rest : list string)
  : IO unit :=
  match rest with
  | [] => ret tt
  | col :: rest' =>
      (if (i <? length row)%nat then
         let colTitle := ToUpper unicode_MapUpper col in
         match aliases !! colTitle with
         | Some alias =>
             let varValue := default "" (row !! i) in
             execUpsertConfig {| c_id_item := idItem; c_uid := uid;
                                 c_var := sqlite_numeric alias;
                                 c_val := varValue |}
         | None => ret tt
         end
       else ret tt) ;;;
      insertColumns idItem uid row aliases (S i) rest'
  end.

Definition InsertConfig (idItem : Z) (uid : string) (row : list string)
    (cols : list string) (aliases : gmap string string) : IO unit :=
  insertColumns idItem uid row aliases O cols.

Definition SaveToConfig (itemName : string) (idDB : Z) (uid : string)
    (row : list string) (cols : list string) (aliases : gmap string string)
  : IO unit :=
  InsertItemIfNotExists itemName idDB ;;;
  idItem <- GetItemID itemName ;;
  InsertConfig idItem uid row cols aliases.

(** [Init]. The statements of the script run in order, each committed
    on its own; the first one that fails ends the script, the driver
    returns its error, which [Init] drops, and what ran before remains.
    The tables [dbs], [items] and [config] are created if they do not
    exist; [CREATE TABLE queries] fails when the table exists, and only
    after it come the creation of [instance] and of the trigger. The
    trigger fires on rows inserted with a null uid; the program inserts
    none, and the trigger is left out. *)
Definition Init : Boot unit :=
  fun h =>
  match dbPath h with
  | Err e => (Err e, h)
  | Ok _ =>
      let s := sqliteDB (world h) in
      let s' :=
        match queries s with
        | Some _ =>
            {| items := createIfNotExists (items s);
               items_seq := items_seq s;
               config := createIfNotExists (config s);
               queries := queries s; instance := instance s |}
        | None =>
            {| items := createIfNotExists (items s);
               items_seq := items_seq s;
               config := createIfNotExists (config s);
               queries := Some [];
               instance := createIfNotExists (instance s) |}
        end in
      (Ok tt,
       {| world := setStore s' (world h);
          dbs := createIfNotExists (dbs h); dbPath := dbPath h;
          argsFile := argsFile h; databases := databases h |})
  end.

(** ** Package [db]: the connection *)

(** [Connect]: from now on the queries go to the database behind the
    driver and the connection string. *)
Definition Connect (driver connectionString : string) : Boot unit :=
  fun h =>
  match databases h driver connectionString with
  | Err e => (Err e, h)
  | Ok answers => (Ok tt, setWorld (setBackend answers (world h)) h)
  end.

(** ** [cmd/tel/main.go]: the startup *)

(** The loop over the decoded args (lines 135-138): every [:key] in the
    query gives way to the text of the value. *)
Definition substitute (sqlQuery : string) (data : list (string * string))
  : string :=
  foldl (fun sqlQuery kv => ReplaceAll sqlQuery (":" +:+ kv.1) kv.2)
        sqlQuery data.

(** Lines 156-246 of [main]: the model handed to the runtime, made of
    the content of the query, the filter given or stored, and the row
    stored under the token. This [main] is of the revision before the
    model received its [view] field: the view of its model is empty. *)
Definition main_model (f : Flags) (sqlQuery : string) (idDB idQuery : Z)
    (widths : gmap string Z) (aliases : gmap string string) (tblHeight : Z)
  : IO Model :=
  content <- GetContent sqlQuery ;;
  let (rows, columns) := content : list table.Row * list table.Column in
  if ((length rows =? 0)%nat || (length columns =? 0)%nat)%bool then
    fail (ErrorString "exit status 1")
  else
    let columns := applyColumnWidths columns widths aliases in
    let tblHeight := if tblHeight =? 0 then 10 else tblHeight in
    let tblHeight := if (length rows <? 10)%nat then Z.of_nat (length rows)
                     else tblHeight in
    let tblHeight := tblHeight + 1 in
    let t := table.New columns rows true in
    let ti := textinput.New in
    fun w =>
    let (filter, w) :=
      if (bool_decide (f_filter f = "")
          && negb (bool_decide (f_uid f = "")))%bool then
        match GetFilterByUID (f_uid f) idQuery w with
        | (Err _, w) => (f_filter f, w)
        | (Ok loadedFilter, w) =>
            (if bool_decide (loadedFilter = "") then f_filter f
             else loadedFilter, w)
        end
      else (f_filter f, w) in
    let ti := if bool_decide (filter = "") then ti
              else textinput_SetValue filter ti in
    let m := NewModel t ti (f_item f) (f_sql f) sqlQuery idDB idQuery
               tblHeight aliases filter (f_uid f) "" in
    let (m, w) :=
      if bool_decide (filter = "") then (m, w)
      else
        match FilterContent m filter w with
        | (Ok (rows, cols), w) =>
            if (0 <? length rows)%nat then
              (SetTable (table.SetColumns cols (table.SetRows rows t)) m, w)
            else (m, w)
        | (Err _, w) => (m, w)
        end in
    let (m, w) :=
      if bool_decide (f_uid f = "") then (m, w)
      else
        match GetHashByUID (f_uid f) idQuery w with
        | (Err _, w) => (m, w)
        | (Ok hash, w) => (SelectRowByHash hash m, w)
        end in
    (Ok m, w).

(** [main], up to the model it hands to the runtime. An error stands
    for [os.Exit(1)], and is the error [main] logs before it. The log
    file is open. *)
Definition main (f : Flags) : Boot Model :=
  if bool_decide (f_item f = "") then raise (ErrorString "exit status 1")
  else if bool_decide (f_sql f = "") then raise (ErrorString "exit status 1")
  else if bool_decide (f_db f = "") then raise (ErrorString "exit status 1")
  else
    Init ;;~
    idDB <~ GetDBID (f_db f) ;;
    idItem <~ lift (GetItemID (f_item f)) ;;
    idQuery <~ lift (GetQueryID (f_sql f)) ;;
    driver <~ GetDBDriverByID idDB ;;
    connectionString <~ GetConnectionStringByID idDB ;;
    sqlQuery <~ lift (GetQueryFromDB (f_sql f)) ;;
    sqlQuery <~ (if bool_decide (f_args f = "") then
                   fun h => (Ok sqlQuery, h)
                 else
                   fun h => match argsFile h (f_args f) with
                            | Err e => (Err e, h)
                            | Ok data => (Ok (substitute sqlQuery data), h)
                            end) ;;
    config <~ lift (GetQueryConfig (f_sql f)) ;;
    let '(widths, aliases, tblHeight) := config in
    Connect driver connectionString ;;~
    lift (main_model f sqlQuery idDB idQuery widths aliases tblHeight).

(** * Definitions for the statements *)

(** ** White space *)





(** ** The Filter Composer and the presentation of its result, in the
    words of the specification *)

(** The predicate left of a raw filter: surrounding white space and an
    optional leading [WHERE] trimmed. *)
Definition predicateOf (raw : string) : string :=
  TrimSpace (TrimPrefix (TrimSpace raw) "WHERE").

(** The derived query for a non-empty predicate, the base query for an
    empty one. *)
Definition composedQuery (base raw : string) : string :=
  if bool_decide (predicateOf raw = "") then base
  else "SELECT * FROM (" +:+ base +:+ ") WHERE " +:+ predicateOf raw.

(** How [FilterContent] presents the content of a query: widths by alias
    or upper-cased title, 20 by default, and the pivot in view [c]. *)
Definition present (m : Model) (widths : gmap string Z)
    (aliases : gmap string string)
    (content : list table.Row * list table.Column)
  : list table.Row * list table.Column :=
  let cols :=
    map (fun col =>
           let colTitle := ToUpper unicode_MapUpper (table.Title col) in
           {| table.Title := table.Title col;
              table.Width :=
                default 20 (widths !! default colTitle (aliases !! colTitle))
           |}) content.2 in
  if bool_decide (view m = "c") then ToVerticalView content.1 cols
  else (content.1, cols).

Definition displayConfig (m : Model) (w : World)
  : gmap string Z * gmap string string :=
  match (GetQueryConfig (sqlName m) w).1 with
  | Ok (widths, aliases, _) => (widths, aliases)
  | Err _ => (∅, ∅)
  end.

(** ** Keys and tokens *)

(** Every key occurs at most once: a primary-key or unique constraint. *)
Definition uniqueKeys {A K : Type} (key : A -> K) (t : list A) : Prop :=
  NoDup (map key t).

(** The groups of a string separated by [sep]. *)
Fixpoint splitOn (sep : ascii) (l : list ascii) : list (list ascii) :=
  match l with
  | [] => [[]]
  | c :: l' =>
      if Ascii.eqb c sep then [] :: splitOn sep l'
      else match splitOn sep l' with
           | g :: gs => (c :: g) :: gs
           | [] => [[c]]
           end
  end.

Definition dash : ascii := byte 45.

(** The canonical grouped form: five groups of 8, 4, 4, 4 and 12
    lower-case hexadecimal digits, separated by dashes. *)
Definition canonicalUUID (s : string) : bool :=
  let groups := splitOn dash (chars s) in
  bool_decide (map length groups = [8; 4; 4; 4; 12]%nat)
  && forallb (forallb isLowerHex) groups.

(** The token [generateUUID] makes of the hexadecimal text [hex]. *)
Definition groupedHex (hex : string) : string :=
  slice hex 0 8 +:+ "-" +:+ slice hex 8 12 +:+ "-" +:+
  slice hex 12 16 +:+ "-" +:+ slice hex 16 20 +:+ "-" +:+ slice hex 20 32.

(** ** Row identity *)

Definition bar : ascii := byte 124.

(** A cell that does not contain the separator. *)
Definition sepFree (cell : string) : Prop := bar ∉ chars cell.

(** The Row Identity Hasher of the specification: the cells joined with
    [|], hashed, in lower-case hexadecimal. *)
Definition rowDigest (row : list string) : string :=
  hexLower (sha256.Sum256 (Join row "|")).

(** When Enter reaches [SaveInstance]: the backend accepts the composed
    query (filter input focused), or the items and config tables exist
    (table focused). *)
Definition enterSaves (m : Model) (w : World) : Prop :=
  if textinput.Focused (textInput m) then
    exists rs,
      backend w (composedQuery (sqlQuery m) (textinput.Value (textInput m)))
      = Ok rs
  else is_Some (items (sqliteDB w)) /\ is_Some (config (sqliteDB w)).

(** ** Writes to the column config *)

(** The world with the config table replaced. *)
Definition withConfig (t : list ConfigRow) (w : World) : World :=
  setStore
    {| items := items (sqliteDB w); items_seq := items_seq (sqliteDB w);
       config := Some t; queries := queries (sqliteDB w);
       instance := instance (sqliteDB w) |} w.

(** The rows a confirmation of [row] under [cols] is to write, in column
    order, columns from index [from] on: one for every column that has a
    cell in the row and whose upper-cased title has an alias, keyed by
    that alias. *)
Definition aliasWrites (idItem : Z) (uid : string) (row : list string)
    (aliases : gmap string string) (from : nat) (cols : list table.Column)
  : list ConfigRow :=
  omap (fun ic : nat * table.Column =>
          match row !! ic.1,
                aliases !! ToUpper unicode_MapUpper (table.Title ic.2) with
          | Some value, Some alias =>
              Some {| c_id_item := idItem; c_uid := uid;
                      c_var := sqlite_numeric alias; c_val := value |}
          | _, _ => None
          end)
       (zip (seq from (length cols)) cols).

Definition upsertAll (t : list ConfigRow) (news : list ConfigRow)
  : list ConfigRow :=
  foldl (fun t new => insertOrReplace configKey new t) t news.

(** * A running example *)

(** The query [users] of the examples, its stored display configuration
    (width 30 for [nm], width 6 for [ID], alias [nm] for the column
    [NAME]), and a backend with two rows. *)

Definition quote : string := String (byte 34) "".

Definition exampleConfigText : string :=
  "{" +:+ quote +:+ "widths" +:+ quote +:+ ":{" +:+ quote +:+ "nm" +:+ quote
  +:+ ":30," +:+ quote +:+ "ID" +:+ quote +:+ ":6}," +:+ quote +:+ "aliases"
  +:+ quote +:+ ":{" +:+ quote +:+ "NAME" +:+ quote +:+ ":" +:+ quote
  +:+ "nm" +:+ quote +:+ "}}".

Definition exampleConfig : QueryConfig :=
  {| Widths := {["nm" := 30; "ID" := 6]}; Aliases := {["NAME" := "nm"]};
     Height := 0 |}.

(** Stand-ins for the library functions, enough for the examples: a
    decoder that knows the configuration text above and reports a syntax
    error for any other text, an upper-casing of non-ASCII strings that
    is never reached (the examples are ASCII), and widgets that ignore
    the messages passed on to them. *)
Definition exampleDecoder (text : string) : Result QueryConfig :=
  if bool_decide (text = exampleConfigText) then Ok exampleConfig
  else Err (ErrorString "unexpected end of JSON input").

Definition exampleUpper (s : string) : string := s.

Definition exampleTableUpdate (t : table.Model) (msg : tea.Msg)
  : table.Model * tea.Cmd := (t, None).

Definition exampleInputUpdate (ti : textinput.Model) (msg : tea.Msg)
  : textinput.Model * tea.Cmd := (ti, None).

Definition usersQuery : string := "SELECT id, name FROM users".

Definition users : ResultSet :=
  {| rs_columns := ["id"; "name"];
     rs_rows := [ [VOther "1"; VString "alice"];
                  [VOther "2"; VBytes "bob"] ] |}.

Definition exampleBackend (query : string) : Result ResultSet :=
  if bool_decide (query = usersQuery) then Ok users
  else if bool_decide
            (query = "SELECT * FROM (SELECT id, name FROM users) WHERE id = 2")
  then Ok {| rs_columns := rs_columns users;
             rs_rows := drop 1 (rs_rows users) |}
  else Err (ErrorString "syntax error").

Definition exampleStore : Store :=
  {| items := Some []; items_seq := 0; config := Some [];
     queries :=
       Some [ {| q_id := 1; q_id_item := 1; q_name := "users";
                 q_query := usersQuery;
                 q_config := Some exampleConfigText; q_height := None |};
              {| q_id := 2; q_id_item := 1; q_name := "broken";
                 q_query := usersQuery;
                 q_config := Some "{"; q_height := Some 7 |};
              {| q_id := 3; q_id_item := 1; q_name := "plain";
                 q_query := usersQuery;
                 q_config := None; q_height := None |} ];
     instance := Some [] |}.

Definition exampleWorld : World :=
  {| sqliteDB := exampleStore; backend := exampleBackend; executed := [];
     entropy := fun n => byte (17 * n); drawn := 0 |}.

(** The model [main] builds for the query [users] with token [tok],
    the cursor on the second row; the focus is on the filter input, which
    holds [text], or on the table. *)
Definition exampleModel (filterFocused : bool) (text : string) : Model :=
  NewModel
    {| table.cols := [ {| table.Title := "ID"; table.Width := 6 |};
                       {| table.Title := "NAME"; table.Width := 20 |} ];
       table.rows := [ ["1"; "alice"]; ["2"; "bob"] ];
       table.cursor := 1; table.focus := negb filterFocused |}
    {| textinput.value := text; textinput.focus := filterFocused |}
    "users" "users" usersQuery 1 1 3 {["NAME" := "nm"]} "" "tok" "".

(** ** The schema and the catalog *)

(** A table after a step holds the rows it held before the step, if it
    existed. *)
Definition keepsRows {A : Type} (before after : Table A) : Prop :=
  forall rows, before = Some rows -> after = Some rows.

(** A column of the selected row that a confirmation writes to the
    column config: the row has a cell for it and its upper-cased title
    has an alias. *)
Definition aliasedCell (row : list string) (aliases : gmap string string)
    (cols : list table.Column) : Prop :=
  exists i col value alias,
    cols !! i = Some col /\ row !! i = Some value
    /\ aliases !! ToUpper unicode_MapUpper (table.Title col) = Some alias.

(** ** The controller *)

(** The keys [Update] handles itself. *)
Inductive Key : Type := KeyTab | KeyEsc | KeyQuit | KeyEnter | KeyOther.

Definition keyOf (key : string) : Key :=
  match key with
  | "tab" => KeyTab
  | "esc" => KeyEsc
  | "ctrl+c" => KeyQuit
  | "enter" => KeyEnter
  | _ => KeyOther
  end.

(** The end of [Update]: the message is passed on to the table, then to
    the text input, whose command is the one returned; the field
    [filter] follows the text of a focused input. *)
Definition passOn (m : Model) (msg : tea.Msg) (w : World)
  : Model * tea.Cmd * World :=
  let (t, _) := table_Update (table m) msg in
  let m := SetTable t m in
  let (ti, cmd) := textinput_Update (textInput m) msg in
  let m := setTextInput ti m in
  let m := if textinput.Focused (textInput m)
           then setFilter (textinput.Value (textInput m)) m else m in
  (m, cmd, w).

(** The digest of the row without cells, which is what [SelectedRow]
    returns when the cursor is on no row: the SHA-256 of the empty
    string. *)
Definition emptyDigest : string :=
  "e3b0c44298fc1c149afbf4c8996fb92427ae41e4649b934ca495991b7852b855".

(** What a model is told at startup and is not meant to change. *)
Definition sessionFields (m : Model)
  : string * string * string * Z * Z * Z * gmap string string * string
    * string * string :=
  (itemName m, sqlName m, sqlQuery m, idDB m, idQuery m, height m,
   aliases m, initialFilter m, uid m, view m).

(** What a step of the session may have done to the world: sent
    queries to the backend, appended items, drawn random bytes, written
    rows of tables that exist. It has not touched the queries, created
    or dropped a table, or changed the backend. *)
Definition worldGrows (w w' : World) : Prop :=
  queries (sqliteDB w') = queries (sqliteDB w)
  /\ backend w' = backend w
  /\ entropy w' = entropy w
  /\ (exists news,
        items (sqliteDB w') = (fun t => t ++ news) <$> items (sqliteDB w))
  /\ (is_Some (config (sqliteDB w')) <-> is_Some (config (sqliteDB w)))
  /\ (is_Some (instance (sqliteDB w')) <-> is_Some (instance (sqliteDB w)))
  /\ (drawn w <= drawn w')%nat
  /\ (exists sent, executed w' = executed w ++ sent).

(** ** Startup *)

(** The filter a session starts with: the one given on the command
    line, or else the one stored under the token, or else none. *)
Definition startFilter (f : Flags) (idQuery : Z) (w : World) : string :=
  if bool_decide (f_filter f = "") then
    if bool_decide (f_uid f = "") then ""
    else match (GetFilterByUID (f_uid f) idQuery w).1 with
         | Ok stored => stored
         | Err _ => ""
         end
  else f_filter f.

(** The height of the table for [n] rows and the height [GetQueryConfig]
    returned: one more than the number of rows when there are fewer
    than ten, and one more than the configured height, 10 standing in
    for 0, otherwise. *)
Definition startHeight (configured : Z) (n : nat) : Z :=
  (if (n <? 10)%nat then Z.of_nat n
   else if configured =? 0 then 10 else configured) + 1.

(** A table after a step is the table before it, or a table created
    empty by the step. *)
Definition keptOrCreated {A : Type} (before after : Table A) : Prop :=
  after = before \/ (before = None /\ after = Some []).

(** The host after a step of the startup: the local store, the table of
    databases and the random source are as at [h0]. *)
Definition hostKept (h0 h1 : Host) : Prop :=
  dbs h1 = dbs h0 /\ sqliteDB (world h1) = sqliteDB (world h0)
  /\ entropy (world h1) = entropy (world h0)
  /\ drawn (world h1) = drawn (world h0).

(** The colon that starts a placeholder in a stored query. *)
Definition colon : ascii := byte 58.

(** The machine of the examples: two registered databases, the item
    and the queries of the examples, and a session saved under the token
    [tok] on the row of bob with the filter [id = 2]. *)
Definition exampleDbs : list DbsRow :=
  [ {| d_id := 1; d_driver := "sqlite"; d_name := Some (SqlText "main");
       d_connect := Some "file:users.db"; d_comment := None |};
    {| d_id := 2; d_driver := "duckdb"; d_name := Some (SqlText "lake");
       d_connect := None; d_comment := Some "not set up" |} ].

Definition exampleDatabases (driver connectionString : string)
  : Result (string -> Result ResultSet) :=
  if bool_decide (driver = "sqlite" /\ connectionString = "file:users.db")
  then Ok exampleBackend
  else Err (ErrorString "unable to open database file").

Definition bobDigest : string :=
  "114d56d86bb41684a7af90a231a3f3eb877e184575bfb3bcbf2b57b136a26e06".

Definition startStore : Store :=
  {| items := Some [ {| it_id := 1; it_id_db := 1; it_name := "users" |} ];
     items_seq := 1; config := Some [];
     queries := queries exampleStore;
     instance := Some [ {| i_uid := "tok"; i_id_query := 1;
                           i_hash := bobDigest; i_filter := "id = 2" |} ] |}.

Definition startWorld : World :=
  {| sqliteDB := startStore;
     backend := fun _ => Err (ErrorString "sql: database is closed");
     executed := []; entropy := fun n => byte (17 * n); drawn := 0 |}.

Definition exampleHost : Host :=
  {| world := startWorld; dbs := Some exampleDbs;
     dbPath := Ok "/home/ann/.tel/tel.db";
     argsFile := fun _ => Err (ErrorString "no such file or directory");
     databases := exampleDatabases |}.

Definition exampleFlags (text token : string) : Flags :=
  {| f_item := "users"; f_sql := "users"; f_db := "main";
     f_filter := text; f_args := ""; f_uid := token |}.

(** A stand-in for [SetValue] that takes the text as it is. *)
Definition exampleSetValue (text : string) (ti : textinput.Model)
  : textinput.Model :=
  {| textinput.value := text; textinput.focus := textinput.focus ti |}.

(** The model of the examples for another stored query, token or
    view. *)
Definition exampleSession (sqlName token view : string)
    (filterFocused : bool) (text : string) : Model :=
  NewModel (table (exampleModel filterFocused text))
    (textInput (exampleModel filterFocused text))
    "users" sqlName usersQuery 1 1 3 {["NAME" := "nm"]} "" token view.

(** The session of the examples in the column view, on the second
    line of the pivoted row of bob. *)
Definition pivotModel : Model :=
  SetTable
    {| table.cols := [ {| table.Title := "column"; table.Width := 30 |};
                       {| table.Title := "val"; table.Width := 50 |} ];
       table.rows := [ ["ID"; "2"]; ["NAME"; "bob"] ];
       table.cursor := 1; table.focus := true |}
    (exampleSession "users" "tok" "c" false "").

(** The world of the examples with a local store that lacks the
    instance table, or the column config. *)
Definition withoutInstance : World :=
  setStore
    {| items := Some []; items_seq := 0; config := Some [];
       queries := queries exampleStore; instance := None |} exampleWorld.

Definition withoutConfig : World :=
  setStore
    {| items := Some []; items_seq := 0; config := None;
       queries := queries exampleStore; instance := Some [] |} exampleWorld.

(** A backend that finds no row. *)
Definition emptyBackend (query : string) : Result ResultSet :=
  Ok {| rs_columns := rs_columns users; rs_rows := [] |}.

(** A machine set up by hand, with the queries table only. *)
Definition bareHost : Host :=
  {| world :=
       setStore
         {| items := None; items_seq := 0; config := None;
            queries := queries exampleStore; instance := None |} startWorld;
     dbs := None; dbPath := Ok "/home/ann/.tel/tel.db";
     argsFile := argsFile exampleHost; databases := exampleDatabases |}.

(** A stand-in for the NUMERIC affinity, enough for the examples: a
    text of one to eighteen decimal digits is kept as the integer it
    spells, any other text as it is. *)
Definition isDigit (c : ascii) : bool :=
  (48 <=? code c)%nat && (code c <=? 57)%nat.

Definition decimal (l : list ascii) : Z :=
  foldl (fun n c => 10 * n + Z.of_nat (code c - 48)) 0 l.

Definition exampleNumeric (text : string) : SqlValue :=
  let l := chars text in
  if forallb isDigit l && (1 <=? length l)%nat && (length l <=? 18)%nat
  then SqlInteger (decimal l)
  else SqlText text.


(** * Properties *)

(** ** Strings as byte lists *)

Lemma str_chars (s : string) : str (chars s) = s.
Proof. apply string_of_list_ascii_of_string. Qed.

Lemma chars_str (l : list ascii) : chars (str l) = l.
Proof. apply list_ascii_of_string_of_list_ascii. Qed.

Lemma chars_inj (s1 s2 : string) : chars s1 = chars s2 -> s1 = s2.
Proof. intros E. by rewrite <- (str_chars s1), <- (str_chars s2), E. Qed.

Lemma chars_app (s1 s2 : string) : chars (s1 +:+ s2) = chars s1 ++ chars s2.
Proof.
  induction s1 as [|c s1 IH]; [done|].
  change (chars (String c (s1 +:+ s2)) = c :: (chars s1 ++ chars s2)).
  unfold chars in *. simpl. by rewrite IH.
Qed.

Lemma str_app (l1 l2 : list ascii) : str (l1 ++ l2) = str l1 +:+ str l2.
Proof. apply chars_inj. by rewrite chars_app, !chars_str. Qed.

Lemma string_app_assoc (s1 s2 s3 : string) :
  (s1 +:+ s2) +:+ s3 = s1 +:+ s2 +:+ s3.
Proof. apply chars_inj. by rewrite !chars_app, app_assoc. Qed.

Lemma chars_nil (s : string) : chars s = [] -> s = "".
Proof. by destruct s. Qed.

(** ** Trimming *)

Lemma stripPrefix_Some (p l r : list ascii) :
  stripPrefix p l = Some r <-> l = p ++ r.
Proof.
  revert l. induction p as [|a p IH]; intros l; simpl.
  - split; congruence.
  - destruct l as [|b l]; [split; discriminate|].
    destruct (Ascii.eqb a b) eqn:E.
    + apply Ascii.eqb_eq in E as ->. rewrite IH. split; congruence.
    + apply Ascii.eqb_neq in E. split; [discriminate|congruence].
Qed.

Lemma stripAny_Some (T : list (list ascii)) (l r : list ascii) :
  stripAny T l = Some r -> exists p, p ∈ T /\ l = p ++ r.
Proof.
  induction T as [|p T IH]; simpl; [discriminate|].
  destruct (stripPrefix p l) as [r'|] eqn:E.
  - intros [= ->]. exists p. split; [left|]. by apply stripPrefix_Some.
  - intros H. destruct (IH H) as (q & Hq & ->). exists q. split; [by right|done].
Qed.

Lemma stripAny_None (T : list (list ascii)) (l : list ascii) :
  stripAny T l = None -> forall p r, p ∈ T -> l <> p ++ r.
Proof.
  induction T as [|q T IH]; simpl; intros H p r Hp.
  - by apply elem_of_nil in Hp.
  - destruct (stripPrefix q l) as [r'|] eqn:E; [discriminate|].
    apply elem_of_cons in Hp as [->|Hp]; [|by apply IH].
    intros Hl. apply stripPrefix_Some in Hl. congruence.
Qed.

Lemma stripAny_None_prefix (T : list (list ascii)) (a b : list ascii) :
  stripAny T (a ++ b) = None -> stripAny T a = None.
Proof.
  intros H. destruct (stripAny T a) as [r|] eqn:E; [|done].
  apply stripAny_Some in E as (p & Hp & ->).
  exfalso. apply (stripAny_None T _ H p (r ++ b) Hp). by rewrite app_assoc.
Qed.










(** ** The pivot view *)

Lemma verticalRows_length row i cols :
  length (verticalRows row i cols) = length cols.
Proof.
  revert i. induction cols as [|col cols IH]; intros i; simpl; [done|].
  by rewrite IH.
Qed.

Lemma verticalRows_lookup row cols : forall i k col,
  cols !! k = Some col ->
  verticalRows row i cols !! k
  = Some [table.Title col; default "" (row !! (i + k)%nat)].
Proof.
  induction cols as [|c cols IH]; intros i k col Hk; [done|].
  destruct k as [|k]; simpl in *.
  - injection Hk as ->. rewrite Nat.add_0_r.
    destruct (i <? length row)%nat eqn:Hi; [done|].
    apply Nat.ltb_ge in Hi.
    destruct (row !! i) as [x|] eqn:E; [|done].
    apply lookup_lt_Some in E. lia.
  - rewrite (IH (S i) k col Hk). by rewrite Nat.add_succ_r.
Qed.

(** C9. On a non-empty row list the pivot reads the first row only: it
    yields one row per column, in column order, each made of the column
    title and the first row's cell at that index (the empty string when
    the first row is shorter), under the two fixed columns [column]
    (width 30) and [val] (width 50); the rows after the first do not
    influence the result. *)
Theorem ToVerticalView_first_row_only :
  forall (row : table.Row) (others : list table.Row)
         (cols : list table.Column),
    length (ToVerticalView (row :: others) cols).1 = length cols
    /\ (forall i col, cols !! i = Some col ->
          (ToVerticalView (row :: others) cols).1 !! i
          = Some [table.Title col; default "" (row !! i)])
    /\ (ToVerticalView (row :: others) cols).2
       = [ {| table.Title := "column"; table.Width := 30 |};
           {| table.Title := "val"; table.Width := 50 |} ]
    /\ (forall others' : list table.Row,
          ToVerticalView (row :: others') cols
          = ToVerticalView (row :: others) cols).
Proof.
  intros row others cols. simpl. repeat split.
  - apply verticalRows_length.
  - intros i col Hi. by rewrite (verticalRows_lookup row cols 0 i col Hi).
Qed.

(** ** Upserts *)

Section InsertOrReplace.
Context {A K : Type} `{EqDecision K} (key : A -> K).

Lemma insertOrReplace_same_key (new : A) (t : list A) :
  filter (fun r => key r = key new) (insertOrReplace key new t) = [new].
Proof.
  unfold insertOrReplace. rewrite filter_app.
  rewrite (filter_cons_True _ new []) by done. rewrite filter_nil.
  replace (filter (fun r => key r = key new)
             (filter (fun r => key r <> key new) t)) with (@nil A); [done|].
  induction t as [|x t IH]; [done|].
  rewrite (filter_cons (fun r => key r <> key new)).
  destruct (decide (key x <> key new)) as [Hne|He]; [|done].
  by rewrite filter_cons_False.
Qed.

Lemma insertOrReplace_other_key (new : A) (t : list A) (k : K) :
  k <> key new ->
  filter (fun r => key r = k) (insertOrReplace key new t)
  = filter (fun r => key r = k) t.
Proof.
  intros Hk. unfold insertOrReplace. rewrite filter_app.
  rewrite (filter_cons_False _ new []) by congruence.
  rewrite filter_nil, app_nil_r.
  induction t as [|x t IH]; [done|].
  rewrite (filter_cons (fun r => key r <> key new)).
  destruct (decide (key x <> key new)) as [Hne|He].
  - rewrite !filter_cons. destruct (decide (key x = k)); by rewrite IH.
  - rewrite filter_cons_False; [done|]. intros E. apply He. congruence.
Qed.

Lemma insertOrReplace_uniqueKeys (new : A) (t : list A) :
  uniqueKeys key t -> uniqueKeys key (insertOrReplace key new t).
Proof.
  unfold uniqueKeys, insertOrReplace. intros Hnd.
  rewrite map_app. apply NoDup_app. split; [|split].
  - induction t as [|x t IH]; [constructor|].
    inversion Hnd as [|? ? Hx Ht]; subst.
    rewrite filter_cons. destruct (decide (key x <> key new)); [|by apply IH].
    simpl. constructor; [|by apply IH].
    intros Hin. apply Hx. apply list_elem_of_fmap in Hin as (y & -> & Hy).
    apply list_elem_of_fmap. exists y. split; [done|].
    by apply list_elem_of_filter in Hy as [_ Hy].
  - intros k Hin Hk. simpl in Hk. apply list_elem_of_singleton in Hk as ->.
    apply list_elem_of_fmap in Hin as (y & Hy1 & Hy2).
    apply list_elem_of_filter in Hy2 as [Hy2 _]. congruence.
  - simpl. apply NoDup_singleton.
Qed.

End InsertOrReplace.

(** ** The session store *)

Lemma find_app_None {A} (f : A -> bool) (t1 t2 : list A) :
  find f t1 = None -> find f (t1 ++ t2) = find f t2.
Proof.
  induction t1 as [|x t1 IH]; [done|]. simpl.
  destruct (f x); [done|]. apply IH.
Qed.

Lemma selectInstance_insertOrReplace (new : InstanceRow)
    (t : list InstanceRow) :
  selectInstance (i_uid new) (i_id_query new)
    (insertOrReplace instanceKey new t) = Some new.
Proof.
  unfold selectInstance, insertOrReplace.
  rewrite find_app_None.
  - simpl. by rewrite bool_decide_eq_true_2.
  - induction t as [|x t IH]; [done|]. rewrite filter_cons.
    destruct (decide (instanceKey x <> instanceKey new)) as [Hne|]; [|done].
    simpl. rewrite bool_decide_eq_false_2; [done|].
    intros [E1 E2]. apply Hne. unfold instanceKey. congruence.
Qed.

Lemma SaveInstance_provided (idQuery : Z) (hash token filter : string)
    (w : World) (t : list InstanceRow) :
  token <> "" ->
  instance (sqliteDB w) = Some t ->
  SaveInstance idQuery hash token filter w
  = (Ok token,
     setStore
       {| items := items (sqliteDB w); items_seq := items_seq (sqliteDB w);
          config := config (sqliteDB w); queries := queries (sqliteDB w);
          instance := Some (insertOrReplace instanceKey
                              {| i_uid := token; i_id_query := idQuery;
                                 i_hash := hash; i_filter := filter |} t) |}
       w).
Proof.
  intros Htok Ht. unfold SaveInstance, bind, execUpsertInstance, ret.
  rewrite bool_decide_eq_false_2 by done. by rewrite Ht.
Qed.

(** C3. Two calls of [SaveInstance] with the same non-empty token and
    the same query id both return the token and leave exactly one row of
    the instance table under the key (token, query id): the row holding
    the digest and the filter text of the second call, which
    [GetHashByUID] and [GetFilterByUID] then return. A table whose keys
    were unique before the calls has unique keys after them. *)
Theorem SaveInstance_twice_one_row :
  forall (idQuery : Z) (token hash1 filter1 hash2 filter2 : string)
         (w : World),
    token <> "" ->
    is_Some (instance (sqliteDB w)) ->
    exists w1 w2 t2,
      SaveInstance idQuery hash1 token filter1 w = (Ok token, w1)
      /\ SaveInstance idQuery hash2 token filter2 w1 = (Ok token, w2)
      /\ instance (sqliteDB w2) = Some t2
      /\ filter (fun r => instanceKey r = (token, idQuery)) t2
         = [ {| i_uid := token; i_id_query := idQuery;
                i_hash := hash2; i_filter := filter2 |} ]
      /\ GetHashByUID token idQuery w2 = (Ok hash2, w2)
      /\ GetFilterByUID token idQuery w2 = (Ok filter2, w2)
      /\ (forall t0, instance (sqliteDB w) = Some t0 ->
            uniqueKeys instanceKey t0 -> uniqueKeys instanceKey t2).
Proof.
  intros idQuery token hash1 filter1 hash2 filter2 w Htok [t Ht].
  pose proof (selectInstance_insertOrReplace
                {| i_uid := token; i_id_query := idQuery;
                   i_hash := hash2; i_filter := filter2 |}
                (insertOrReplace instanceKey
                   {| i_uid := token; i_id_query := idQuery;
                      i_hash := hash1; i_filter := filter1 |} t)) as Hsel.
  simpl in Hsel.
  eexists _, _, _. split; [|split; [|split; [|split; [|split; [|split]]]]].
  - by apply SaveInstance_provided.
  - by apply SaveInstance_provided.
  - reflexivity.
  - apply (insertOrReplace_same_key instanceKey
             {| i_uid := token; i_id_query := idQuery;
                i_hash := hash2; i_filter := filter2 |}).
  - unfold GetHashByUID. simpl. by rewrite Hsel.
  - unfold GetFilterByUID. simpl. by rewrite Hsel.
  - intros t0 Ht0 Hu. rewrite Ht in Ht0. injection Ht0 as <-.
    by do 2 apply insertOrReplace_uniqueKeys.
Qed.

(** ** The catalog store *)

Lemma find_unique_key {A K : Type} `{EqDecision K} (key : A -> K)
    (t : list A) (r : A) :
  uniqueKeys key t -> r ∈ t ->
  find (fun x => bool_decide (key x = key r)) t = Some r.
Proof.
  unfold uniqueKeys. induction t as [|x t IH]; intros Hnd Hin.
  - by apply elem_of_nil in Hin.
  - simpl in *. inversion Hnd as [|? ? Hx Ht]; subst.
    apply elem_of_cons in Hin as [->|Hin].
    + by rewrite bool_decide_eq_true_2.
    + rewrite bool_decide_eq_false_2; [by apply IH|].
      intros E. apply Hx. rewrite E. apply list_elem_of_fmap. eauto.
Qed.

Lemma GetQueryConfig_world (sqlName : string) (w : World) :
  (GetQueryConfig sqlName w).2 = w.
Proof.
  unfold GetQueryConfig, noSuchTable, fail, ret.
  repeat (case_match; simpl; try done).
Qed.

(** C7. For a query name present in the queries table (names are
    unique), [GetQueryConfig] returns the decoder's error when the
    stored config text is non-empty and the decoder rejects it, and
    returns empty widths and aliases with the stored height (10 for a
    null height) when the config is null or the empty string. *)
Theorem GetQueryConfig_malformed_or_absent :
  forall (w : World) (t : list QueriesRow) (r : QueriesRow),
    queries (sqliteDB w) = Some t ->
    uniqueKeys q_name t ->
    r ∈ t ->
    (forall text e,
        q_config r = Some text -> text <> "" ->
        json_Unmarshal text = Err e ->
        GetQueryConfig (q_name r) w = (Err e, w))
    /\ (q_config r = None \/ q_config r = Some "" ->
        GetQueryConfig (q_name r) w
        = (Ok (∅, ∅, default 10 (q_height r)), w)).
Proof.
  intros w t r Ht Hu Hr. unfold GetQueryConfig. rewrite Ht.
  rewrite (find_unique_key q_name t r Hu Hr). split.
  - intros text e Hc Hne Hj. rewrite Hc.
    rewrite bool_decide_eq_false_2 by done. by rewrite Hj.
  - intros [Hc|Hc]; rewrite Hc; [done|].
    by rewrite bool_decide_eq_true_2.
Qed.

(** ** The filter pipeline *)

Lemma FilterContent_run (m : Model) (raw : string) (w : World) :
  FilterContent m raw w
  = (let q := composedQuery (sqlQuery m) raw in
     match GetContent q w with
     | (Ok content, w') =>
         (Ok (present m (displayConfig m w).1 (displayConfig m w).2 content),
          w')
     | (Err e, w') => (Err e, w')
     end).
Proof.
  unfold FilterContent, displayConfig, composedQuery, predicateOf.
  pose proof (GetQueryConfig_world (sqlName m) w) as Hw.
  destruct (GetQueryConfig (sqlName m) w) as [cfg w0]. simpl in Hw. subst w0.
  set (p := TrimSpace (TrimPrefix (TrimSpace raw) "WHERE")).
  assert (Hgen : forall q widths aliases,
    (content <- GetContent q ;;
     let (rows, cols) := content : list table.Row * list table.Column in
     let originalToAlias : gmap string string :=
       list_to_map (map_to_list aliases) in
     let cols :=
       map (fun col =>
              let colTitle := ToUpper unicode_MapUpper (table.Title col) in
              let originalName :=
                match originalToAlias !! colTitle with
                | Some alias => alias
                | None => colTitle
                end in
              {| table.Title := table.Title col;
                 table.Width := match widths !! originalName with
                                | Some width => width
                                | None => 20
                                end |}) cols in
     ret (if bool_decide (view m = "c") then ToVerticalView rows cols
          else (rows, cols))) w
    = match GetContent q w with
      | (Ok content, w') => (Ok (present m widths aliases content), w')
      | (Err e, w') => (Err e, w')
      end).
  { intros q widths aliases. unfold bind, ret, present.
    destruct (GetContent q w) as [[[rows cols]|e] w']; [|done].
    rewrite list_to_map_to_list. simpl.
    assert (Hcols :
      map (fun col =>
             {| table.Title := table.Title col;
                table.Width :=
                  match
                    widths !! match aliases !! ToUpper unicode_MapUpper
                                                (table.Title col) with
                              | Some alias => alias
                              | None => ToUpper unicode_MapUpper
                                          (table.Title col)
                              end
                  with
                  | Some width => width
                  | None => 20
                  end |}) cols
      = map (fun col =>
             {| table.Title := table.Title col;
                table.Width :=
                  default 20
                    (widths !! default (ToUpper unicode_MapUpper
                                          (table.Title col))
                       (aliases !! ToUpper unicode_MapUpper
                                     (table.Title col))) |}) cols).
    { apply map_ext. intros col.
      by destruct (aliases !! _); destruct (widths !! _). }
    by rewrite Hcols. }
  cbv zeta. rewrite !string_app_assoc.
  destruct cfg as [[[widths aliases] h]|e]; cbn [fst snd];
    destruct (bool_decide (p = "")); apply Hgen.
Qed.






(** C8. When Enter is pressed while the filter input is focused and
    the backend rejects the composed query, [Update] returns the model
    it was given (so the displayed rows and columns are those before the
    key press) together with the command that prints the error; the
    command is not [Quit] and the local store is left as it was. *)
Theorem Update_filter_failure_keeps_display :
  forall (m : Model) (w : World) (e : error),
    textinput.Focused (textInput m) = true ->
    backend w (composedQuery (sqlQuery m) (textinput.Value (textInput m)))
    = Err e ->
    let '(m', cmd, w') := Update m (tea.KeyMsg "enter") w in
    m' = m
    /\ table.Rows (table m') = table.Rows (table m)
    /\ table.Columns (table m') = table.Columns (table m)
    /\ cmd = Some (tea.Printf (newline +:+ "Error filtering: " +:+ Error e
                               +:+ newline))
    /\ cmd <> Some tea.Quit
    /\ sqliteDB w' = sqliteDB w.
Proof.
  intros m w e Hfocus Hfail. unfold Update. rewrite Hfocus.
  rewrite FilterContent_run. simpl. unfold GetContent. rewrite Hfail.
  repeat split; done.
Qed.

(** ** Session tokens *)

Lemma chars_substring (s : string) : forall n m,
  chars (substring n m s) = take m (drop n (chars s)).
Proof.
  induction s as [|c s IH]; intros n m.
  - destruct n, m; reflexivity.
  - destruct n as [|n]; simpl.
    + destruct m as [|m]; [done|].
      change (chars (String c (substring 0 m s)) = c :: take m (chars s)).
      unfold chars in *. simpl. by rewrite (IH O m), drop_0.
    + apply IH.
Qed.

Lemma chars_slice (s : string) (lo hi : nat) :
  chars (slice s lo hi) = take (hi - lo) (drop lo (chars s)).
Proof. apply chars_substring. Qed.

Lemma hexByte_lower (c : ascii) : forallb isLowerHex (hexByte c) = true.
Proof. by destruct c as [[] [] [] [] [] [] [] []]. Qed.

Lemma hexLower_lower (blob : list ascii) :
  forallb isLowerHex (chars (hexLower blob)) = true.
Proof.
  unfold hexLower. rewrite chars_str.
  induction blob as [|c blob IH]; [done|].
  change (concat (map hexByte (c :: blob)))
    with (hexByte c ++ concat (map hexByte blob)).
  by rewrite forallb_app, IH, hexByte_lower.
Qed.

Lemma hexLower_length (blob : list ascii) :
  length (chars (hexLower blob)) = (2 * length blob)%nat.
Proof.
  unfold hexLower. rewrite chars_str.
  induction blob as [|c blob IH]; [done|].
  change (concat (map hexByte (c :: blob)))
    with (hexByte c ++ concat (map hexByte blob)).
  rewrite length_app, IH. simpl. lia.
Qed.

Lemma isLowerHex_not_dash (c : ascii) :
  isLowerHex c = true -> Ascii.eqb c dash = false.
Proof. by destruct c as [[] [] [] [] [] [] [] []]. Qed.

Lemma splitOn_group (g rest : list ascii) :
  forallb isLowerHex g = true ->
  splitOn dash (g ++ dash :: rest) = g :: splitOn dash rest.
Proof.
  induction g as [|c g IH]; intros Hg; simpl.
  - done.
  - simpl in Hg. apply andb_prop in Hg as [Hc Hg].
    by rewrite (isLowerHex_not_dash c Hc), (IH Hg).
Qed.

Lemma splitOn_last (g : list ascii) :
  forallb isLowerHex g = true -> splitOn dash g = [g].
Proof.
  induction g as [|c g IH]; intros Hg; simpl; [done|].
  simpl in Hg. apply andb_prop in Hg as [Hc Hg].
  by rewrite (isLowerHex_not_dash c Hc), (IH Hg).
Qed.

Lemma forallb_take {A} (f : A -> bool) (n : nat) (l : list A) :
  forallb f l = true -> forallb f (take n l) = true.
Proof.
  revert n. induction l as [|x l IH]; intros [|n] H; simpl in *; try done.
  apply andb_prop in H as [-> H]. by apply IH.
Qed.

Lemma forallb_drop {A} (f : A -> bool) (n : nat) (l : list A) :
  forallb f l = true -> forallb f (drop n l) = true.
Proof.
  revert n. induction l as [|x l IH]; intros [|n] H; simpl in *; try done.
  apply andb_prop in H as [_ H]. by apply IH.
Qed.

Lemma groupedHex_groups (hex : string) :
  forallb isLowerHex (chars hex) = true ->
  splitOn dash (chars (groupedHex hex))
  = [ take 8 (chars hex); take 4 (drop 8 (chars hex));
      take 4 (drop 12 (chars hex)); take 4 (drop 16 (chars hex));
      take 12 (drop 20 (chars hex)) ].
Proof.
  intros Hhex. unfold groupedHex.
  rewrite !chars_app, !chars_slice. simpl Nat.sub. rewrite drop_0.
  change (chars "-") with [dash]. simpl app.
  assert (Hg : forall n k, forallb isLowerHex (take n (drop k (chars hex)))
                           = true).
  { intros n k. by apply forallb_take, forallb_drop. }
  rewrite <- (drop_0 (chars hex)) at 1.
  rewrite !splitOn_group by apply Hg. rewrite splitOn_last by apply Hg.
  by rewrite drop_0.
Qed.

Lemma groupedHex_canonical (blob : list ascii) :
  length blob = 16%nat ->
  canonicalUUID (groupedHex (hexLower blob)) = true
  /\ concat (splitOn dash (chars (groupedHex (hexLower blob))))
     = chars (hexLower blob).
Proof.
  intros Hlen. pose proof (hexLower_lower blob) as Hhex.
  pose proof (hexLower_length blob) as Hl. rewrite Hlen in Hl.
  unfold canonicalUUID. rewrite (groupedHex_groups _ Hhex).
  set (h := chars (hexLower blob)) in *. split.
  - apply andb_true_intro. split.
    + apply bool_decide_eq_true_2. simpl.
      rewrite !length_take, !length_drop, Hl. done.
    + simpl. rewrite !forallb_take; try done; by apply forallb_drop.
  - simpl. rewrite app_nil_r.
    assert (E20 : take 12 (drop 20 h) = drop 20 h).
    { apply take_ge. rewrite length_drop. lia. }
    assert (E16 : take 4 (drop 16 h) ++ drop 20 h = drop 16 h).
    { change 20%nat with (16 + 4)%nat. rewrite <- drop_drop. apply take_drop. }
    assert (E12 : take 4 (drop 12 h) ++ drop 16 h = drop 12 h).
    { change 16%nat with (12 + 4)%nat. rewrite <- drop_drop. apply take_drop. }
    assert (E8 : take 4 (drop 8 h) ++ drop 12 h = drop 8 h).
    { change 12%nat with (8 + 4)%nat. rewrite <- drop_drop. apply take_drop. }
    rewrite E20, E16, E12, E8. apply take_drop.
Qed.

Lemma generateUUID_run (w : World) :
  generateUUID w
  = (Ok (groupedHex (hexLower (map (entropy w) (seq (drawn w) 16)))),
     drawBytes 16 w).
Proof. reflexivity. Qed.

(** C6. With an empty provided token [SaveInstance] draws sixteen
    bytes from the random source and makes the token of their
    lower-case hexadecimal text: five dash-separated groups of 8, 4, 4,
    4 and 12 hexadecimal digits. That token is what it returns whenever
    it returns one, and it returns one when the instance table exists. *)
Theorem SaveInstance_fresh_token_canonical :
  forall (idQuery : Z) (hash filter : string) (w : World),
    let blob := map (entropy w) (seq (drawn w) 16) in
    let token := groupedHex (hexLower blob) in
    length blob = 16%nat
    /\ canonicalUUID token = true
    /\ concat (splitOn dash (chars token)) = chars (hexLower blob)
    /\ (forall token' w',
          SaveInstance idQuery hash "" filter w = (Ok token', w') ->
          token' = token)
    /\ (is_Some (instance (sqliteDB w)) ->
        exists w', SaveInstance idQuery hash "" filter w = (Ok token, w')).
Proof.
  intros idQuery hash filter w blob token.
  assert (Hlen : length blob = 16%nat).
  { unfold blob. by rewrite length_map, length_seq. }
  destruct (groupedHex_canonical blob Hlen) as [Hc Hd].
  split; [done|]. split; [done|]. split; [done|].
  unfold SaveInstance, bind. rewrite bool_decide_eq_true_2 by done.
  rewrite generateUUID_run. fold blob. fold token.
  unfold execUpsertInstance, noSuchTable, fail, ret.
  change (sqliteDB (drawBytes 16 w)) with (sqliteDB w).
  split.
  - intros token' w'. destruct (instance (sqliteDB w)); congruence.
  - intros [t ->]. eauto.
Qed.

(** ** Row identity *)

(** What follows the first cell in a joined row: nothing, or the
    separator and the rest. *)
Lemma Join_cons (e : string) (rest : list string) :
  chars (Join (e :: rest) "|")
  = chars e ++ match rest with
               | [] => []
               | _ :: _ => bar :: chars (Join rest "|")
               end.
Proof.
  destruct rest as [|e' rest]; simpl Join.
  - by rewrite app_nil_r.
  - by rewrite !chars_app.
Qed.

Lemma sepFree_split (a b x y : list ascii) :
  bar ∉ a -> bar ∉ b ->
  (x = [] \/ exists x', x = bar :: x') ->
  (y = [] \/ exists y', y = bar :: y') ->
  a ++ x = b ++ y -> a = b /\ x = y.
Proof.
  revert b. induction a as [|c a IH]; intros b Ha Hb Hx Hy E.
  - destruct b as [|d b]; [done|]. exfalso. simpl in E.
    apply Hb. destruct Hx as [->|[x' ->]]; [done|].
    injection E as <- _. left.
  - destruct b as [|d b].
    + exfalso. simpl in E. apply Ha.
      destruct Hy as [->|[y' ->]]; [done|]. injection E as -> _. left.
    + simpl in E. injection E as -> E.
      destruct (IH b) as [-> ->]; try done.
      * intros H. apply Ha. by right.
      * intros H. apply Hb. by right.
Qed.

Lemma Join_injective_sepFree (r1 : list string) : forall r2 : list string,
  r1 <> [] -> r2 <> [] ->
  Forall sepFree r1 -> Forall sepFree r2 ->
  Join r1 "|" = Join r2 "|" -> r1 = r2.
Proof.
  induction r1 as [|e1 r1 IH]; intros r2 Hn1 Hn2 Hf1 Hf2 E; [done|].
  destruct r2 as [|e2 r2]; [done|].
  apply (f_equal chars) in E. rewrite !Join_cons in E.
  inversion Hf1 as [|? ? He1 Hr1]; inversion Hf2 as [|? ? He2 Hr2]; subst.
  apply sepFree_split in E as [Ee Et]; try done.
  - apply chars_inj in Ee as ->.
    destruct r1 as [|a r1], r2 as [|b r2]; try done.
    injection Et as Et. apply chars_inj in Et.
    f_equal. by apply IH.
  - destruct r1; [by left|right; eauto].
  - destruct r2; [by left|right; eauto].
Qed.

(** C5 (amended). The cells of a row are joined with the separator [|].
    On rows none of whose cells contains the separator, and which are
    both empty or both non-empty (as rows of one result set are), the
    join is injective: two such rows with the same joined string are the
    same row. *)
Theorem Join_injective_on_separator_free_rows :
  forall r1 r2 : list string,
    (r1 = [] <-> r2 = []) ->
    Forall sepFree r1 -> Forall sepFree r2 ->
    Join r1 "|" = Join r2 "|" -> r1 = r2.
Proof.
  intros r1 r2 Hnil Hf1 Hf2 E.
  destruct r1 as [|e1 r1].
  - symmetry. by apply Hnil.
  - apply Join_injective_sepFree; try done.
    intros ->. by destruct Hnil as [_ Hnil]; specialize (Hnil eq_refl).
Qed.

(** ** Saving a row to the column config *)

Lemma execUpsertConfig_run (new : ConfigRow) (t : list ConfigRow)
    (w : World) :
  config (sqliteDB w) = Some t ->
  execUpsertConfig new w
  = (Ok tt, withConfig (insertOrReplace configKey new t) w).
Proof. intros Ht. unfold execUpsertConfig. by rewrite Ht. Qed.

Lemma saveColumns_run (idItem : Z) (uid : string) (row : list string)
    (aliases : gmap string string) (cols : list table.Column) :
  forall (i : nat) (t : list ConfigRow) (w : World),
    config (sqliteDB w) = Some t ->
    saveColumns idItem uid row aliases i cols w
    = (Ok tt,
       withConfig (upsertAll t (aliasWrites idItem uid row aliases i cols)) w).
Proof.
  induction cols as [|col cols IH]; intros i t w Ht.
  - simpl. unfold ret, withConfig, setStore. rewrite <- Ht.
    by destruct w as [[] ? ? ? ?].
  - simpl saveColumns. unfold aliasWrites. simpl zip. simpl omap.
    unfold bind at 1.
    destruct (i <? length row)%nat eqn:Hi.
    + apply Nat.ltb_lt in Hi.
      destruct (lookup_lt_is_Some_2 row i Hi) as [value Hv]. rewrite Hv.
      destruct (aliases !! _) as [alias|] eqn:Ha.
      * rewrite (execUpsertConfig_run _ t w Ht). simpl default.
        rewrite (IH (S i) (insertOrReplace configKey
                   {| c_id_item := idItem; c_uid := uid;
                      c_var := sqlite_numeric alias;
                      c_val := value |} t)); [|done].
        reflexivity.
      * unfold ret at 1. by rewrite (IH (S i) t w Ht).
    + apply Nat.ltb_ge in Hi. rewrite (lookup_ge_None_2 row i Hi).
      unfold ret at 1. by rewrite (IH (S i) t w Ht).
Qed.

Lemma find_filter_nil {A} (P : A -> Prop) `{forall x, Decision (P x)}
    (t : list A) :
  filter P t = [] -> find (fun x => bool_decide (P x)) t = None.
Proof.
  induction t as [|x t IH]; [done|]. rewrite filter_cons. simpl.
  destruct (decide (P x)); [done|].
  rewrite bool_decide_eq_false_2 by done. apply IH.
Qed.

Lemma find_filter_cons {A} (P : A -> Prop) `{forall x, Decision (P x)}
    (t : list A) :
  filter P t <> [] -> is_Some (find (fun x => bool_decide (P x)) t).
Proof.
  induction t as [|x t IH]; [done|]. rewrite filter_cons. simpl.
  destruct (decide (P x)).
  - by rewrite bool_decide_eq_true_2.
  - rewrite bool_decide_eq_false_2 by done. apply IH.
Qed.

(** After [InsertItemIfNotExists] the item has an id; the other tables
    are as before. *)
Lemma InsertItemIfNotExists_then_GetItemID (item : string) (idDB_ : Z)
    (w : World) :
  is_Some (items (sqliteDB w)) ->
  exists w1 id,
    InsertItemIfNotExists item idDB_ w = (Ok tt, w1)
    /\ GetItemID item w1 = (Ok id, w1)
    /\ config (sqliteDB w1) = config (sqliteDB w)
    /\ instance (sqliteDB w1) = instance (sqliteDB w).
Proof.
  intros [t Ht]. unfold InsertItemIfNotExists, GetItemID. rewrite Ht.
  destruct (filter (fun r => it_name r = item) t) as [|r0 rs] eqn:Hf.
  - simpl. eexists _, _. split; [reflexivity|]. simpl.
    rewrite find_app_None by (by apply find_filter_nil).
    simpl. rewrite bool_decide_eq_true_2 by done. done.
  - simpl. exists w.
    destruct (find_filter_cons (fun r => it_name r = item) t) as [r Hr].
    { by rewrite Hf. }
    exists (it_id r). rewrite Ht, Hr. done.
Qed.

Lemma SaveConfigFromTable_run (item : string) (idDB_ : Z) (token : string)
    (row : list string) (cols : list table.Column)
    (als : gmap string string) (stored : list ConfigRow) (w : World) :
  is_Some (items (sqliteDB w)) ->
  config (sqliteDB w) = Some stored ->
  exists w1 id,
    GetItemID item w1 = (Ok id, w1)
    /\ instance (sqliteDB w1) = instance (sqliteDB w)
    /\ SaveConfigFromTable item idDB_ token row cols als w
       = (Ok tt,
          withConfig (upsertAll stored (aliasWrites id token row als 0 cols))
            w1).
Proof.
  intros Hitems Hconfig.
  destruct (InsertItemIfNotExists_then_GetItemID item idDB_ w Hitems)
    as (w1 & id & Hins & Hget & Hc1 & Hi1).
  exists w1, id. split; [done|]. split; [done|].
  unfold SaveConfigFromTable, bind at 1. rewrite Hins.
  unfold bind at 1. rewrite Hget.
  apply saveColumns_run. congruence.
Qed.

Lemma SaveInstance_frame (idQuery_ : Z) (hash token text : string)
    (w : World) :
  config (sqliteDB (SaveInstance idQuery_ hash token text w).2)
  = config (sqliteDB w)
  /\ items (sqliteDB (SaveInstance idQuery_ hash token text w).2)
     = items (sqliteDB w).
Proof.
  unfold SaveInstance, bind.
  destruct (bool_decide (token = "")).
  - rewrite generateUUID_run. unfold execUpsertInstance, noSuchTable, fail.
    change (sqliteDB (drawBytes 16 w)) with (sqliteDB w).
    by destruct (instance (sqliteDB w)).
  - unfold ret, execUpsertInstance, noSuchTable, fail. simpl.
    by destruct (instance (sqliteDB w)).
Qed.

Lemma upsertAll_elem (news : list ConfigRow) : forall (t : list ConfigRow) r,
  r ∈ upsertAll t news -> r ∈ t \/ r ∈ news.
Proof.
  induction news as [|new news IH]; intros t r Hr; simpl in Hr; [by left|].
  apply IH in Hr as [Hr|Hr]; [|right; by right].
  unfold insertOrReplace in Hr. apply elem_of_app in Hr as [Hr|Hr].
  - left. by apply list_elem_of_filter in Hr as [_ Hr].
  - right. apply list_elem_of_singleton in Hr as ->. left.
Qed.

Lemma aliasWrites_elem (idItem : Z) (token : string) (row : list string)
    (als : gmap string string) (cols : list table.Column) r :
  r ∈ aliasWrites idItem token row als 0 cols ->
  exists i col value alias,
    cols !! i = Some col /\ row !! i = Some value
    /\ als !! ToUpper unicode_MapUpper (table.Title col) = Some alias
    /\ r = {| c_id_item := idItem; c_uid := token;
              c_var := sqlite_numeric alias; c_val := value |}.
Proof.
  unfold aliasWrites. intros Hr.
  apply list_elem_of_omap in Hr as ([i col] & Hic & Hm). simpl in Hm.
  apply list_elem_of_lookup in Hic as [k Hk].
  apply lookup_zip_with_Some in Hk as (i' & col' & [= <- <-] & Hi & Hcol).
  apply lookup_seq in Hi as [-> _]. simpl in *.
  destruct (row !! k) as [value|] eqn:Hv; [|done].
  destruct (als !! _) as [alias|] eqn:Ha; [|done].
  injection Hm as <-. by exists k, col, value, alias.
Qed.

Lemma aliasWrites_cons (idItem : Z) (token : string) (row : list string)
    (als : gmap string string) (i : nat) (col : table.Column)
    (cols : list table.Column) :
  aliasWrites idItem token row als i (col :: cols)
  = match row !! i, als !! ToUpper unicode_MapUpper (table.Title col) with
    | Some value, Some alias =>
        [ {| c_id_item := idItem; c_uid := token;
             c_var := sqlite_numeric alias;
             c_val := value |} ]
    | _, _ => []
    end ++ aliasWrites idItem token row als (S i) cols.
Proof.
  unfold aliasWrites. simpl.
  destruct (row !! i); [|done]. by destruct (als !! _).
Qed.



Lemma upsertAll_keeps_others (news : list ConfigRow) :
  forall (t : list ConfigRow) (r : ConfigRow),
    r ∈ t -> configKey r ∉ map configKey news -> r ∈ upsertAll t news.
Proof.
  induction news as [|new news IH]; intros t r Hr Hk; simpl; [done|].
  apply IH.
  - unfold insertOrReplace. apply elem_of_app. left.
    apply list_elem_of_filter. split; [|done].
    intros E. apply Hk. simpl. rewrite E. left.
  - intros H. apply Hk. simpl. by right.
Qed.




(** ** Row digests across invocations *)

Lemma blocks_length (n : nat) : forall h ws : list N,
  length h = 8%nat -> length (sha256.blocks n h ws) = 8%nat.
Proof.
  induction n as [|n IH]; intros h ws Hh; simpl; [done|].
  apply IH. unfold sha256.block. by rewrite length_map, length_seq.
Qed.

(** A digest has 32 bytes. *)
Lemma Sum256_length (data : string) : length (sha256.Sum256 data) = 32%nat.
Proof.
  unfold sha256.Sum256. rewrite length_map.
  set (h := sha256.blocks _ _ _).
  assert (Hh : length h = 8%nat) by (by apply blocks_length).
  do 9 (destruct h as [|? h]; try discriminate Hh). reflexivity.
Qed.

Lemma findRowByHash_spec (h : string) (rows : list (list string)) :
  forall i0 : nat,
    match findRowByHash h i0 rows with
    | Some j =>
        exists k r, j = (i0 + k)%nat /\ rows !! k = Some r
                    /\ rowDigest r = h
                    /\ forall k' r', (k' < k)%nat -> rows !! k' = Some r' ->
                                      rowDigest r' <> h
    | None => forall k r, rows !! k = Some r -> rowDigest r <> h
    end.
Proof.
  induction rows as [|row rows IH]; intros i0; simpl.
  - intros k r Hk. done.
  - fold (rowDigest row). destruct (decide (rowDigest row = h)) as [E|N].
    + rewrite bool_decide_eq_true_2 by done.
      exists O, row. rewrite Nat.add_0_r. repeat split; try done.
      intros k' r' Hk'. lia.
    + rewrite bool_decide_eq_false_2 by done.
      specialize (IH (S i0)). destruct (findRowByHash h (S i0) rows) as [j|].
      * destruct IH as (k & r & -> & Hk & Hr & Hmin).
        exists (S k), r. repeat split; try done; [lia|].
        intros [|k'] r' Hlt Hk'; simpl in Hk'; [congruence|].
        apply (Hmin k' r'); [lia|done].
      * intros [|k] r Hk; simpl in Hk; [congruence|]. by apply (IH k r).
Qed.

Lemma SelectedRow_SetCursor (t : table.Model) (j : nat) (r : list string) :
  table.rows t !! j = Some r ->
  table.cursor (table.SetCursor (Z.of_nat j) t) = Z.of_nat j
  /\ table.SelectedRow (table.SetCursor (Z.of_nat j) t) = r.
Proof.
  intros Hj. pose proof (lookup_lt_Some _ _ _ Hj) as Hlt.
  assert (Hc : table.cursor (table.SetCursor (Z.of_nat j) t) = Z.of_nat j).
  { unfold table.SetCursor, table.clamp. simpl. lia. }
  split; [done|]. unfold table.SelectedRow. rewrite Hc. simpl.
  destruct (Z.of_nat j <? 0) eqn:E1; [apply Z.ltb_lt in E1; lia|].
  destruct (Z.of_nat (length (table.rows t)) <=? Z.of_nat j) eqn:E2;
    [apply Z.leb_le in E2; lia|].
  simpl. by rewrite Nat2Z.id, Hj.
Qed.

(** What [SaveInstance] stores can be read back. *)
Lemma SaveInstance_then_GetHashByUID (idQuery_ : Z) (hash token text : string)
    (w : World) :
  token <> "" -> is_Some (instance (sqliteDB w)) ->
  exists w',
    SaveInstance idQuery_ hash token text w = (Ok token, w')
    /\ GetHashByUID token idQuery_ w' = (Ok hash, w').
Proof.
  intros Htok [t Ht]. eexists. split; [by apply SaveInstance_provided|].
  unfold GetHashByUID. simpl.
  pose proof (selectInstance_insertOrReplace
                {| i_uid := token; i_id_query := idQuery_;
                   i_hash := hash; i_filter := text |} t) as Hsel.
  simpl in Hsel. by rewrite Hsel.
Qed.

Lemma Update_enter_saves_digest (m : Model) (w : World) :
  uid m <> "" -> is_Some (instance (sqliteDB w)) -> enterSaves m w ->
  GetHashByUID (uid m) (idQuery m) (Update m (tea.KeyMsg "enter") w).2
  = (Ok (rowDigest (table.SelectedRow
                      (table (Update m (tea.KeyMsg "enter") w).1.1))),
     (Update m (tea.KeyMsg "enter") w).2).
Proof.
  intros Huid Hinst Hsaves. unfold enterSaves in Hsaves. unfold Update.
  destruct (textinput.Focused (textInput m)).
  - destruct Hsaves as [rs Hrs]. rewrite FilterContent_run. simpl.
    unfold GetContent. rewrite Hrs.
    destruct (present _ _ _ _) as [rows cols].
    match goal with
    | |- context [SaveInstance ?q ?h ?u ?f ?w0] =>
        destruct (SaveInstance_then_GetHashByUID q h u f w0 Huid Hinst)
          as (w' & Hs & Hg); rewrite Hs
    end.
    simpl. exact Hg.
  - destruct Hsaves as [Hitems [stored Hconfig]].
    destruct (SaveConfigFromTable_run (itemName m) (idDB m) (uid m)
                (table.SelectedRow (table m)) (table.Columns (table m))
                (aliases m) stored w Hitems Hconfig)
      as (w1 & id & Hget & Hi1 & Hrun).
    rewrite Hrun.
    match goal with
    | |- context [SaveInstance ?q ?h ?u ?f ?w0] =>
        destruct (SaveInstance_then_GetHashByUID q h u f w0 Huid)
          as (w' & Hs & Hg); [simpl; by rewrite Hi1|]; rewrite Hs
    end.
    simpl. exact Hg.
Qed.

(** C2. The digest is a function of the ordered cells: equal rows have
    equal digests, made of 64 lower-case hexadecimal digits. The Enter
    handler stores, under the model's token, the digest of the row then
    selected; [SelectRowByHash], given that digest on any table that
    holds a row with the same cells, moves the cursor to the first row
    with that digest, which computes to the same value there. *)
Theorem row_digest_deterministic :
  forall (m later : Model) (w : World) (i : nat),
    uid m <> "" ->
    is_Some (instance (sqliteDB w)) ->
    enterSaves m w ->
    let '(m', _, w') := Update m (tea.KeyMsg "enter") w in
    table.Rows (table later) !! i = Some (table.SelectedRow (table m')) ->
    (forall r1 r2 : list string, r1 = r2 -> rowDigest r1 = rowDigest r2)
    /\ exists h j r,
         GetHashByUID (uid m) (idQuery m) w' = (Ok h, w')
         /\ h = rowDigest (table.SelectedRow (table m'))
         /\ length (chars h) = 64%nat
         /\ forallb isLowerHex (chars h) = true
         /\ findRowByHash h 0 (table.Rows (table later)) = Some j
         /\ (j <= i)%nat
         /\ table.cursor (table (SelectRowByHash h later)) = Z.of_nat j
         /\ table.SelectedRow (table (SelectRowByHash h later)) = r
         /\ table.Rows (table later) !! j = Some r
         /\ rowDigest r = h.
Proof.
  intros m later w i Huid Hinst Hsaves.
  pose proof (Update_enter_saves_digest m w Huid Hinst Hsaves) as Hsaved.
  destruct (Update m (tea.KeyMsg "enter") w) as [[m' cmd] w']. simpl in Hsaved.
  intros Hi. split; [by intros r1 r2 ->|].
  set (h := rowDigest (table.SelectedRow (table m'))) in *.
  pose proof (findRowByHash_spec h (table.Rows (table later)) 0) as Hfind.
  destruct (findRowByHash h 0 (table.Rows (table later))) as [j|] eqn:Hj.
  - destruct Hfind as (k & r & -> & Hk & Hr & Hmin). simpl in *.
    exists h, k, r.
    destruct (SelectedRow_SetCursor (table later) k r Hk) as [Hc Hs].
    unfold SelectRowByHash. rewrite Hj. cbn [table SetTable].
    repeat split; try done.
    + unfold h, rowDigest. by rewrite hexLower_length, Sum256_length.
    + apply hexLower_lower.
    + destruct (decide (k <= i)%nat) as [|Hgt]; [done|].
      exfalso. apply (Hmin i _ ltac:(lia) Hi). done.
  - exfalso. by apply (Hfind i _ Hi).
Qed.

(** ** Further properties of the catalog, the executor and the controller *)

Lemma upperByte_idempotent (c : ascii) : upperByte (upperByte c) = upperByte c.
Proof. by destruct c as [[] [] [] [] [] [] [] []]. Qed.

Lemma upperByte_ascii (c : ascii) :
  (code c <? RuneSelf)%nat = true -> (code (upperByte c) <? RuneSelf)%nat = true.
Proof. by destruct c as [[] [] [] [] [] [] [] []]. Qed.

(** On an ASCII string [ToUpper] is idempotent, whatever the Unicode
    tables say. *)
Lemma ToUpper_idempotent_ascii (s : string) :
  isASCII s = true ->
  ToUpper unicode_MapUpper (ToUpper unicode_MapUpper s)
  = ToUpper unicode_MapUpper s.
Proof.
  intros Hs. unfold ToUpper. rewrite Hs.
  assert (Hup : isASCII (str (map upperByte (chars s))) = true).
  { unfold isASCII in *. rewrite chars_str.
    induction (chars s) as [|c l IH]; [done|]. simpl in *.
    apply andb_prop in Hs as [Hc Hl].
    by rewrite (upperByte_ascii c Hc), (IH Hl). }
  rewrite Hup, chars_str. f_equal. rewrite map_map.
  apply map_ext. intros c. apply upperByte_idempotent.
Qed.

(** Width resolution does not depend on the case of the column name: a
    width stored under the upper-cased name of a backend column without
    an alias is the width [FilterContent] gives that column. *)
Theorem FilterContent_width_under_upper_cased_name :
  forall (m : Model) (raw : string) (w : World) (rs : ResultSet)
         (widths : gmap string Z) (als : gmap string string) (h : Z)
         (name : string) (n : Z),
    GetQueryConfig (sqlName m) w = (Ok (widths, als, h), w) ->
    backend w (composedQuery (sqlQuery m) raw) = Ok rs ->
    view m <> "c" ->
    name ∈ rs_columns rs ->
    isASCII name = true ->
    als !! ToUpper unicode_MapUpper name = None ->
    widths !! ToUpper unicode_MapUpper name = Some n ->
    exists rows cols w',
      FilterContent m raw w = (Ok (rows, cols), w')
      /\ {| table.Title := ToUpper unicode_MapUpper name; table.Width := n |}
         ∈ cols.
Proof.
  intros m raw w rs widths als h name n Hcfg Hrs Hview Hname Hascii Hal Hw.
  rewrite FilterContent_run. cbv zeta. unfold GetContent. rewrite Hrs.
  unfold present, displayConfig. rewrite Hcfg. cbn [fst snd].
  rewrite bool_decide_eq_false_2 by done.
  eexists _, _, _. split; [reflexivity|].
  apply list_elem_of_fmap.
  exists {| table.Title := ToUpper unicode_MapUpper name; table.Width := 20 |}.
  split.
  - cbn [table.Title]. rewrite (ToUpper_idempotent_ascii name Hascii).
    rewrite Hal. cbn [from_option id]. by rewrite Hw.
  - apply list_elem_of_fmap. by exists name.
Qed.

(** Item creation is idempotent: a second [InsertItemIfNotExists] for
    the same name returns what the first returned and changes nothing. *)
Theorem InsertItemIfNotExists_idempotent :
  forall (item : string) (idDB1 idDB2 : Z) (w : World),
    InsertItemIfNotExists item idDB2 (InsertItemIfNotExists item idDB1 w).2
    = InsertItemIfNotExists item idDB1 w.
Proof.
  intros item idDB1 idDB2 w. unfold InsertItemIfNotExists at 2 3.
  destruct (items (sqliteDB w)) as [t|] eqn:Ht.
  - destruct (length (filter (fun r => it_name r = item) t) =? 0)%nat eqn:Hc.
    + unfold ret, InsertItemIfNotExists. cbn [snd sqliteDB setStore items].
      rewrite filter_app, length_app.
      rewrite (filter_cons_True (fun r => it_name r = item)) by done.
      rewrite filter_nil. cbn [length].
      replace (_ + 1 =? 0)%nat with false; [done|].
      symmetry. apply Nat.eqb_neq. lia.
    + unfold ret, InsertItemIfNotExists. cbn [snd]. by rewrite Ht, Hc.
  - unfold noSuchTable, fail, InsertItemIfNotExists. cbn [snd]. by rewrite Ht.
Qed.

(** [GetContent] on a query the backend answers: one column per backend
    column, titled with the upper-cased name and 20 wide, and one row
    per backend row with one cell per column. The cell is the empty
    string for a nil value, the text of a byte slice or of a string,
    and the default formatting of any other value. *)
Theorem GetContent_normalizes :
  forall (query : string) (w : World) (rs : ResultSet),
    backend w query = Ok rs ->
    exists rows cols,
      GetContent query w = (Ok (rows, cols), logQuery query w)
      /\ map table.Title cols
         = map (ToUpper unicode_MapUpper) (rs_columns rs)
      /\ Forall (fun col => table.Width col = 20) cols
      /\ length rows = length (rs_rows rs)
      /\ Forall (fun row : list string =>
                   length row = length (rs_columns rs)) rows
      /\ (forall i j values v row,
            rs_rows rs !! i = Some values -> values !! j = Some v ->
            (j < length (rs_columns rs))%nat ->
            rows !! i = Some row ->
            row !! j = Some match v with
                            | VNil => ""
                            | VBytes text | VString text | VOther text => text
                            end).
Proof.
  intros query w rs Hrs. unfold GetContent. rewrite Hrs.
  eexists _, _. split; [reflexivity|].
  split; [by rewrite map_map|]. split.
  { apply Forall_forall. intros col Hcol.
    by apply list_elem_of_fmap in Hcol as (name & -> & _). }
  rewrite !length_map. split; [done|]. split.
  - apply Forall_forall. intros row Hrow.
    apply list_elem_of_fmap in Hrow as (values & -> & _).
    by rewrite length_map, length_resize.
  - intros i j values v row Hi Hj Hlt.
    rewrite list_lookup_fmap, Hi. intros [= <-].
    rewrite list_lookup_fmap, lookup_resize; [|done|].
    + rewrite Hj. by destruct v.
    + by apply lookup_lt_Some in Hj.
Qed.

(** ** Startup against the committed empty filter *)

(** C4 fails on the stored configuration of the examples.
    [applyColumnWidths] looks the width of a column up under its title
    and leaves the aliases it is handed unused, while [FilterContent]
    looks it up under the alias of the title: with the alias [nm] for
    [NAME] and the width 30 for [nm], the column [NAME] is 20 wide at
    startup and 30 wide once the empty filter is committed. The rows are
    the same. *)
Theorem empty_filter_widths_differ_from_startup :
    json_Unmarshal exampleConfigText = Ok exampleConfig ->
    let m := exampleModel true "" in
    let rows := [ ["1"; "alice"]; ["2"; "bob"] ] in
    let startup := [ {| table.Title := "ID"; table.Width := 6 |};
                     {| table.Title := "NAME"; table.Width := 20 |} ] in
    let committed := [ {| table.Title := "ID"; table.Width := 6 |};
                       {| table.Title := "NAME"; table.Width := 30 |} ] in
    let w1 := logQuery usersQuery exampleWorld in
    main_content (sqlName m) (sqlQuery m) exampleWorld
    = (Ok (rows, startup), w1)
    /\ FilterContent m "" w1 = (Ok (rows, committed), logQuery usersQuery w1)
    /\ startup <> committed.
Proof.
  intros Hdec m rows startup committed w1.
  assert (Hcfg : forall w, queries (sqliteDB w) = queries exampleStore ->
            GetQueryConfig "users" w
            = (Ok ({["nm" := 30; "ID" := 6]}, {["NAME" := "nm"]}, 10), w)).
  { intros w Hq. unfold GetQueryConfig. rewrite Hq.
    cbn [queries exampleStore find q_name bool_decide].
    rewrite bool_decide_eq_true_2 by done. cbn [q_config q_height].
    rewrite bool_decide_eq_false_2 by discriminate.
    rewrite Hdec. reflexivity. }
  split; [|split].
  - unfold main_content, bind. rewrite Hcfg by reflexivity.
    vm_compute. reflexivity.
  - rewrite FilterContent_run.
    unfold displayConfig. rewrite Hcfg by reflexivity.
    vm_compute. reflexivity.
  - discriminate.
Qed.

(** * Further properties *)

(** ** The catalog of databases and items *)

Lemma find_Some_elem {A} (p : A -> bool) (t : list A) (r : A) :
  find p t = Some r -> r ∈ t /\ p r = true.
Proof.
  intros H. apply find_some in H as [Hin Hp].
  split; [by apply list_elem_of_In|done].
Qed.

Lemma find_None_elem {A} (p : A -> bool) (t : list A) :
  (forall r, r ∈ t -> p r = false) -> find p t = None.
Proof.
  induction t as [|x t IH]; intros H; [done|]. simpl.
  rewrite (H x) by left. apply IH. intros r Hr. apply H. by right.
Qed.

(** [main] looks the database up by name once, for its id, and by id
    afterwards. With unique ids (the primary key of [dbs]) the driver
    and the connection string found by id are those of the row found by
    name. *)
Theorem GetDBID_then_lookups_by_id :
  forall (h : Host) (t : list DbsRow) (dbName : string) (idDB : Z),
    dbs h = Some t ->
    uniqueKeys d_id t ->
    GetDBID dbName h = (Ok idDB, h) ->
    exists r,
      r ∈ t /\ d_name r = Some (sqlite_numeric dbName) /\ d_id r = idDB
      /\ GetDBDriverByID idDB h = (Ok (d_driver r), h)
      /\ GetDBDriverByID idDB h = GetDBDriver dbName h
      /\ GetConnectionStringByID idDB h = GetConnectionString dbName h.
Proof.
  intros h t dbName idDB Ht Hu Hid.
  unfold GetDBID, GetDBDriverByID, GetDBDriver, GetConnectionStringByID,
    GetConnectionString, selectDbs in *.
  rewrite Ht in *.
  destruct (find (fun r => bool_decide
                             (d_name r = Some (sqlite_numeric dbName))) t)
    as [r|] eqn:Hname; [|done].
  injection Hid as <-.
  apply find_Some_elem in Hname as [Hr Hn]. apply bool_decide_eq_true in Hn.
  rewrite (find_unique_key d_id t r Hu Hr).
  exists r. done.
Qed.

Lemma foldr_max_lower (z : Z) (l : list Z) : z <= foldr Z.max z l.
Proof. induction l as [|x l IH]; simpl; lia. Qed.

Lemma foldr_max_upper (z : Z) (l : list Z) (x : Z) :
  x ∈ l -> x <= foldr Z.max z l.
Proof.
  induction l as [|y l IH]; intros Hx; [by apply elem_of_nil in Hx|].
  apply elem_of_cons in Hx as [->|Hx]; simpl; [lia|].
  specialize (IH Hx). lia.
Qed.

Lemma nextItemID_fresh (s : Store) (t : list ItemsRow) :
  items_seq s < nextItemID s t /\ forall r, r ∈ t -> it_id r < nextItemID s t.
Proof.
  unfold nextItemID. split.
  - pose proof (foldr_max_lower (Z.max 0 (items_seq s)) (map it_id t)). lia.
  - intros r Hr.
    pose proof (foldr_max_upper (Z.max 0 (items_seq s)) (map it_id t) (it_id r))
      as H.
    assert (Hin : it_id r ∈ map it_id t) by (apply list_elem_of_fmap; eauto).
    specialize (H Hin). lia.
Qed.

(** What [InsertItemIfNotExists] does to the items. *)
Lemma InsertItemIfNotExists_run (item : string) (idDB_ : Z) (w : World)
    (t : list ItemsRow) :
  items (sqliteDB w) = Some t ->
  ((exists r, r ∈ t /\ it_name r = item)
   /\ InsertItemIfNotExists item idDB_ w = (Ok tt, w))
  \/ ((forall r, r ∈ t -> it_name r <> item)
      /\ InsertItemIfNotExists item idDB_ w
         = (Ok tt,
            setStore
              {| items := Some (t ++ [ {| it_id := nextItemID (sqliteDB w) t;
                                          it_id_db := idDB_;
                                          it_name := item |} ]);
                 items_seq := nextItemID (sqliteDB w) t;
                 config := config (sqliteDB w);
                 queries := queries (sqliteDB w);
                 instance := instance (sqliteDB w) |} w)).
Proof.
  intros Ht. unfold InsertItemIfNotExists. rewrite Ht.
  destruct (filter (fun r => it_name r = item) t) as [|r0 rs] eqn:Hf.
  - right. split; [|done]. intros r Hr Hn.
    assert (Hin : r ∈ filter (fun r => it_name r = item) t)
      by (by apply list_elem_of_filter).
    rewrite Hf in Hin. by apply elem_of_nil in Hin.
  - left. split; [|done]. exists r0.
    assert (Hin : r0 ∈ filter (fun r => it_name r = item) t)
      by (rewrite Hf; left).
    apply list_elem_of_filter in Hin as [Hn Hin]. done.
Qed.

(** Item ids are allocated afresh: [InsertItemIfNotExists] leaves the
    rows of the items table as they are and appends at most one, for a
    name the table does not hold, under an id above every id of the
    table and above the last id ever allocated; unique ids stay unique,
    and the item can be looked up afterwards. *)
Theorem InsertItemIfNotExists_appends_fresh_id :
  forall (item : string) (idDB_ : Z) (w : World) (t : list ItemsRow),
    items (sqliteDB w) = Some t ->
    uniqueKeys it_id t ->
    let w' := (InsertItemIfNotExists item idDB_ w).2 in
    exists t',
      items (sqliteDB w') = Some t'
      /\ uniqueKeys it_id t'
      /\ ((t' = t /\ exists r, r ∈ t /\ it_name r = item)
          \/ ((forall r, r ∈ t -> it_name r <> item)
              /\ exists id,
                   t' = t ++ [ {| it_id := id; it_id_db := idDB_;
                                  it_name := item |} ]
                   /\ items_seq (sqliteDB w) < id
                   /\ forall r, r ∈ t -> it_id r < id))
      /\ (exists id, GetItemID item w' = (Ok id, w'))
      /\ config (sqliteDB w') = config (sqliteDB w)
      /\ queries (sqliteDB w') = queries (sqliteDB w)
      /\ instance (sqliteDB w') = instance (sqliteDB w).
Proof.
  intros item idDB_ w t Ht Hu w'. subst w'.
  destruct (InsertItemIfNotExists_run item idDB_ w t Ht)
    as [[[r [Hr Hn]] ->]|[Hnone ->]]; cbn [snd].
  - exists t. split; [done|]. split; [done|]. split; [left; eauto|].
    split; [|done]. unfold GetItemID. rewrite Ht.
    destruct (find_filter_cons (fun x => it_name x = item) t) as [x Hx].
    { intros E.
      assert (Hin : r ∈ filter (fun x => it_name x = item) t)
        by (by apply list_elem_of_filter).
      rewrite E in Hin. by apply elem_of_nil in Hin. }
    rewrite Hx. eauto.
  - destruct (nextItemID_fresh (sqliteDB w) t) as [Hseq Hfresh].
    eexists. split; [reflexivity|]. split; [|split; [|split]].
    + unfold uniqueKeys in *. rewrite map_app. apply NoDup_app.
      split; [done|]. split; [|apply NoDup_singleton].
      intros k Hk Hk'. simpl in Hk'. apply list_elem_of_singleton in Hk' as ->.
      apply list_elem_of_fmap in Hk as (r & Hk & Hr).
      specialize (Hfresh r Hr). lia.
    + right. split; [done|]. eexists. split; [reflexivity|]. done.
    + unfold GetItemID. cbn [sqliteDB setStore items].
      rewrite find_app_None.
      * simpl. rewrite bool_decide_eq_true_2 by done. eauto.
      * apply find_None_elem. intros r Hr.
        apply bool_decide_eq_false_2. by apply Hnone.
    + done.
Qed.

Lemma setWorld_world (h : Host) (w : World) :
  setWorld w (setWorld w h) = setWorld w h.
Proof. reflexivity. Qed.

(** An item created for a database leads to that database: after
    [InsertItemIfNotExists] has created the item, the connection string
    [GetConnectionStringByItem] finds for it is the one of the database
    id the item was created with. *)
Theorem GetConnectionStringByItem_of_created_item :
  forall (h : Host) (item : string) (idDB_ : Z) (t : list ItemsRow),
    items (sqliteDB (world h)) = Some t ->
    (forall r, r ∈ t -> it_name r <> item) ->
    let h' := setWorld (InsertItemIfNotExists item idDB_ (world h)).2 h in
    GetConnectionStringByItem item h' = GetConnectionStringByID idDB_ h'.
Proof.
  intros h item idDB_ t Ht Hnone h'. subst h'.
  destruct (InsertItemIfNotExists_run item idDB_ (world h) t Ht)
    as [[[r [Hr Hn]] _]|[_ ->]]; [by destruct (Hnone r Hr)|].
  cbn [snd].
  destruct (nextItemID_fresh (sqliteDB (world h)) t) as [_ Hfresh].
  set (id := nextItemID (sqliteDB (world h)) t) in *.
  unfold GetConnectionStringByItem, andThen, lift at 1.
  unfold GetItemID. cbn [world setWorld sqliteDB setStore items].
  rewrite find_app_None.
  2:{ apply find_None_elem. intros r Hr.
      apply bool_decide_eq_false_2. by apply Hnone. }
  cbn [find it_name]. rewrite bool_decide_eq_true_2 by done.
  unfold ret. cbn [it_id]. unfold lift, GetDBIDFromItem.
  cbn [world setWorld sqliteDB setStore items].
  rewrite find_app_None.
  2:{ apply find_None_elem. intros r Hr.
      apply bool_decide_eq_false_2. specialize (Hfresh r Hr). lia. }
  cbn [find it_id]. rewrite bool_decide_eq_true_2 by done.
  reflexivity.
Qed.

(** ** The session store, read by digest *)

(** What [SaveInstance] does when the instance table exists: the token
    is the one provided, or a fresh one for an empty one, and the row is
    upserted under it. *)
Lemma SaveInstance_run (idQuery_ : Z) (hash token text : string) (w : World)
    (t : list InstanceRow) :
  instance (sqliteDB w) = Some t ->
  let w0 := if bool_decide (token = "") then drawBytes 16 w else w in
  let tok := if bool_decide (token = "")
             then groupedHex (hexLower (map (entropy w) (seq (drawn w) 16)))
             else token in
  SaveInstance idQuery_ hash token text w
  = (Ok tok,
     setStore
       {| items := items (sqliteDB w); items_seq := items_seq (sqliteDB w);
          config := config (sqliteDB w); queries := queries (sqliteDB w);
          instance := Some (insertOrReplace instanceKey
                              {| i_uid := tok; i_id_query := idQuery_;
                                 i_hash := hash; i_filter := text |} t) |}
       w0).
Proof.
  intros Ht w0 tok. subst w0 tok. unfold SaveInstance, bind.
  destruct (bool_decide (token = "")).
  - rewrite generateUUID_run. unfold execUpsertInstance, ret.
    change (sqliteDB (drawBytes 16 w)) with (sqliteDB w). by rewrite Ht.
  - unfold ret, execUpsertInstance. by rewrite Ht.
Qed.

(** Without the instance table [SaveInstance] fails and stores nothing. *)
Lemma SaveInstance_no_table (idQuery_ : Z) (hash token text : string)
    (w : World) :
  instance (sqliteDB w) = None ->
  exists e w',
    SaveInstance idQuery_ hash token text w = (Err e, w')
    /\ sqliteDB w' = sqliteDB w /\ backend w' = backend w
    /\ executed w' = executed w.
Proof.
  intros Ht. unfold SaveInstance, bind.
  destruct (bool_decide (token = "")).
  - rewrite generateUUID_run. unfold execUpsertInstance, noSuchTable, fail.
    change (sqliteDB (drawBytes 16 w)) with (sqliteDB w). rewrite Ht.
    by eexists _, _.
  - unfold ret, execUpsertInstance, noSuchTable, fail. rewrite Ht.
    by eexists _, _.
Qed.

(** A digest stored by [SaveInstance] is found by [GetQueryIDByHash]:
    the lookup returns the query id of a row that holds the digest, and
    the id just stored when no row stored before holds the digest under
    another query id. *)
Theorem GetQueryIDByHash_after_SaveInstance :
  forall (idQuery_ : Z) (hash token text : string) (w : World)
         (t : list InstanceRow),
    instance (sqliteDB w) = Some t ->
    let w' := (SaveInstance idQuery_ hash token text w).2 in
    exists q t' r,
      GetQueryIDByHash hash w' = (Ok q, w')
      /\ instance (sqliteDB w') = Some t'
      /\ r ∈ t' /\ i_hash r = hash /\ i_id_query r = q
      /\ ((forall r0, r0 ∈ t -> i_hash r0 = hash -> i_id_query r0 = idQuery_)
          -> q = idQuery_).
Proof.
  intros idQuery_ hash token text w t Ht w'. subst w'.
  rewrite (SaveInstance_run idQuery_ hash token text w t Ht). cbn [snd].
  set (tok := if bool_decide (token = "") then _ else token).
  set (new := {| i_uid := tok; i_id_query := idQuery_; i_hash := hash;
                 i_filter := text |}).
  unfold GetQueryIDByHash. cbn [sqliteDB setStore instance].
  destruct (find (fun r => bool_decide (i_hash r = hash))
              (insertOrReplace instanceKey new t)) as [r|] eqn:Hfind.
  - apply find_Some_elem in Hfind as [Hr Hh]. apply bool_decide_eq_true in Hh.
    exists (i_id_query r), (insertOrReplace instanceKey new t), r.
    repeat split; try done.
    intros Hothers. unfold insertOrReplace in Hr.
    apply elem_of_app in Hr as [Hr|Hr].
    + apply list_elem_of_filter in Hr as [_ Hr]. by apply Hothers.
    + by apply list_elem_of_singleton in Hr as ->.
  - exfalso.
    assert (Hnew : new ∈ insertOrReplace instanceKey new t).
    { unfold insertOrReplace. apply elem_of_app. right. left. }
    apply list_elem_of_In in Hnew.
    pose proof (find_none _ _ Hfind new Hnew) as Hn. simpl in Hn.
    by rewrite bool_decide_eq_true_2 in Hn.
Qed.

(** ** The two ways into the column config *)

Lemma saveColumns_insertColumns (idItem : Z) (token : string)
    (row : list string) (als : gmap string string) (cols : list table.Column) :
  forall i : nat,
    saveColumns idItem token row als i cols
    = insertColumns idItem token row als i (map table.Title cols).
Proof.
  induction cols as [|col cols IH]; intros i; [done|].
  simpl. by rewrite IH.
Qed.

(** [SaveConfigFromTable] on the columns of the table does what
    [SaveToConfig] does on their titles. *)
Theorem SaveConfigFromTable_is_SaveToConfig_on_titles :
  forall (item : string) (idDB_ : Z) (token : string) (row : list string)
         (cols : list table.Column) (als : gmap string string) (w : World),
    SaveConfigFromTable item idDB_ token row cols als w
    = SaveToConfig item idDB_ token row (map table.Title cols) als w.
Proof.
  intros item idDB_ token row cols als w.
  unfold SaveConfigFromTable, SaveToConfig, InsertConfig, bind.
  destruct (InsertItemIfNotExists item idDB_ w) as [[[]|e] w1]; [|done].
  destruct (GetItemID item w1) as [[id|e] w2]; [|done].
  by rewrite saveColumns_insertColumns.
Qed.

(** ** The schema *)

(** [Init] creates tables and nothing else: it does not fail once the
    path of the store is known, a second run changes nothing, every
    table that exists keeps its rows, and [dbs], [items], [config] and
    [queries] exist afterwards. The instance table is created only
    together with the queries table: on a store that has the queries
    table, the instance table is left as it is, missing if it was. *)
Theorem Init_creates_missing_tables_only :
  forall (h : Host) (path : string),
    dbPath h = Ok path ->
    exists h',
      Init h = (Ok tt, h')
      /\ Init h' = (Ok tt, h')
      /\ keepsRows (dbs h) (dbs h')
      /\ keepsRows (items (sqliteDB (world h))) (items (sqliteDB (world h')))
      /\ keepsRows (config (sqliteDB (world h))) (config (sqliteDB (world h')))
      /\ keepsRows (queries (sqliteDB (world h)))
           (queries (sqliteDB (world h')))
      /\ keepsRows (instance (sqliteDB (world h)))
           (instance (sqliteDB (world h')))
      /\ is_Some (dbs h') /\ is_Some (items (sqliteDB (world h')))
      /\ is_Some (config (sqliteDB (world h')))
      /\ is_Some (queries (sqliteDB (world h')))
      /\ (is_Some (queries (sqliteDB (world h))) ->
          instance (sqliteDB (world h')) = instance (sqliteDB (world h)))
      /\ (queries (sqliteDB (world h)) = None ->
          is_Some (instance (sqliteDB (world h'))))
      /\ items_seq (sqliteDB (world h')) = items_seq (sqliteDB (world h))
      /\ backend (world h') = backend (world h)
      /\ executed (world h') = executed (world h)
      /\ drawn (world h') = drawn (world h).
Proof.
  intros h path Hpath.
  destruct h as [[[its sq cf qs ins] bk ex en dr] ds pa ar da].
  cbn [dbPath] in Hpath. subst pa. unfold Init, keepsRows.
  cbn [world sqliteDB dbs dbPath items items_seq config queries instance
       setStore backend executed entropy drawn].
  eexists. split; [reflexivity|].
  destruct qs as [qs|], its as [its|], cf as [cf|], ins as [ins|],
    ds as [ds|];
    cbn [world sqliteDB dbs dbPath items items_seq config queries instance
         setStore backend executed entropy drawn createIfNotExists];
    repeat split; try done; try (by eexists); try (by intros [? ?]).
Qed.

(** ** The controller, key by key *)

Lemma keyOf_spec (key : string) :
  match keyOf key with
  | KeyTab => key = "tab"
  | KeyEsc => key = "esc"
  | KeyQuit => key = "ctrl+c"
  | KeyEnter => key = "enter"
  | KeyOther => True
  end.
Proof. unfold keyOf. repeat case_match; done. Qed.

Lemma Update_other_key (m : Model) (key : string) (w : World) :
  keyOf key = KeyOther ->
  Update m (tea.KeyMsg key) w = passOn m (tea.KeyMsg key) w.
Proof.
  unfold keyOf, Update, passOn. intros H.
  repeat case_match; try discriminate; reflexivity.
Qed.

(** Enter while the filter input is focused. *)
Lemma Update_enter_filter (m : Model) (w : World) :
  textinput.Focused (textInput m) = true ->
  Update m (tea.KeyMsg "enter") w
  = match FilterContent m (textinput.Value (textInput m)) w with
    | (Err err, w1) =>
        (m, Some (tea.Printf (newline +:+ "Error filtering: " +:+ Error err
                              +:+ newline)), w1)
    | (Ok (rows, cols), w1) =>
        let m' := SetTable (table.SetColumns cols
                              (table.SetRows rows (table m))) m in
        (m', None,
         (SaveInstance (idQuery m) (rowDigest (table.SelectedRow (table m')))
            (uid m) (textinput.Value (textInput m)) w1).2)
    end.
Proof.
  intros Hfocus. unfold Update. rewrite Hfocus.
  destruct (FilterContent m _ w) as [[[rows cols]|err] w1]; [|done].
  cbv zeta. unfold rowDigest. cbn [table SetTable idQuery uid].
  by destruct (SaveInstance _ _ _ _ w1).
Qed.

(** Enter while the filter input is not focused. *)
Lemma Update_enter_table (m : Model) (w : World) :
  textinput.Focused (textInput m) = false ->
  Update m (tea.KeyMsg "enter") w
  = match SaveConfigFromTable (itemName m) (idDB m) (uid m)
            (table.SelectedRow (table m)) (table.Columns (table m))
            (aliases m) w with
    | (Err err, w1) =>
        (m, Some (tea.Printf (newline +:+ "Error saving to config: "
                              +:+ Error err +:+ newline)), w1)
    | (Ok _, w1) =>
        (m, None,
         (SaveInstance (idQuery m) (rowDigest (table.SelectedRow (table m)))
            (uid m) (textinput.Value (textInput m)) w1).2)
    end.
Proof.
  intros Hfocus. unfold Update. rewrite Hfocus.
  destruct (SaveConfigFromTable _ _ _ _ _ _ w) as [[[]|err] w1]; [|done].
  unfold rowDigest. by destruct (SaveInstance _ _ _ _ w1).
Qed.

(** ** Confirming a row again *)

Lemma filter_insertOrReplace_keys (news : list ConfigRow) (new : ConfigRow)
    (t : list ConfigRow) :
  filter (fun r => configKey r ∉ map configKey news)
         (filter (fun r => configKey r <> configKey new) t)
  = filter (fun r => configKey r ∉ map configKey (new :: news)) t.
Proof.
  induction t as [|x t IH]; [done|].
  rewrite (filter_cons (fun r => configKey r <> configKey new)).
  rewrite (filter_cons (fun r => configKey r ∉ map configKey (new :: news))).
  destruct (decide (configKey x <> configKey new)) as [Hne|He].
  - rewrite filter_cons.
    destruct (decide (configKey x ∉ map configKey news)) as [Hn|Hn];
      destruct (decide (configKey x ∉ map configKey (new :: news)))
        as [Hn'|Hn'].
    + by rewrite IH.
    + exfalso. apply Hn'. simpl. intros [E|Hin]%elem_of_cons; [by apply Hne|].
      by apply Hn.
    + exfalso. apply Hn. intros Hin. apply Hn'. simpl. by right.
    + apply IH.
  - destruct (decide (configKey x ∉ map configKey (new :: news)))
      as [Hn'|Hn']; [|apply IH].
    exfalso. apply Hn'. simpl. apply dec_stable in He. rewrite He. left.
Qed.

(** A sequence of upserts removes the rows it has a key for and appends
    what the sequence leaves of itself. *)
Lemma upsertAll_split (news : list ConfigRow) : forall t : list ConfigRow,
  upsertAll t news
  = filter (fun r => configKey r ∉ map configKey news) t ++ upsertAll [] news.
Proof.
  induction news as [|new news IH]; intros t.
  - simpl. rewrite app_nil_r. symmetry.
    induction t as [|x t IHt]; [done|].
    rewrite filter_cons_True; [by rewrite IHt|]. apply not_elem_of_nil.
  - change (upsertAll t (new :: news))
      with (upsertAll (insertOrReplace configKey new t) news).
    change (upsertAll [] (new :: news))
      with (upsertAll (insertOrReplace configKey new []) news).
    rewrite (IH (insertOrReplace configKey new t)).
    rewrite (IH (insertOrReplace configKey new [])).
    unfold insertOrReplace. rewrite !filter_app, filter_nil. simpl app.
    rewrite filter_insertOrReplace_keys. by rewrite <- app_assoc.
Qed.

Lemma upsertAll_idempotent (news t : list ConfigRow) :
  upsertAll (upsertAll t news) news = upsertAll t news.
Proof.
  rewrite (upsertAll_split news (upsertAll t news)).
  rewrite (upsertAll_split news t) at 1.
  rewrite filter_app.
  assert (E1 : forall l : list ConfigRow,
    filter (fun r => configKey r ∉ map configKey news)
      (filter (fun r => configKey r ∉ map configKey news) l)
    = filter (fun r => configKey r ∉ map configKey news) l).
  { intros l. induction l as [|x l IHl]; [done|].
    rewrite filter_cons. destruct (decide _) as [Hn|Hn]; [|done].
    rewrite filter_cons_True by done. by rewrite IHl. }
  assert (E2 : filter (fun r => configKey r ∉ map configKey news)
                 (upsertAll [] news) = []).
  { apply elem_of_nil_inv. intros r Hr.
    apply list_elem_of_filter in Hr as [Hn Hr].
    apply upsertAll_elem in Hr as [Hr|Hr]; [by apply elem_of_nil in Hr|].
    apply Hn. apply list_elem_of_fmap. eauto. }
  rewrite E1, E2, app_nil_r. symmetry. apply upsertAll_split.
Qed.

Lemma withConfig_id (t : list ConfigRow) (w : World) :
  config (sqliteDB w) = Some t -> withConfig t w = w.
Proof.
  destruct w as [[its sq cf qs ins] bk ex en dr]. simpl. by intros ->.
Qed.

Lemma insertOrReplace_idempotent {A K : Type} `{EqDecision K} (key : A -> K)
    (new : A) (t : list A) :
  insertOrReplace key new (insertOrReplace key new t)
  = insertOrReplace key new t.
Proof.
  unfold insertOrReplace. rewrite filter_app.
  rewrite (filter_cons_False _ new []) by (intros H'; by apply H').
  rewrite filter_nil, app_nil_r. f_equal.
  induction t as [|x t IH]; [done|].
  rewrite (filter_cons _ x t). destruct (decide _) as [Hn|Hn]; [|done].
  rewrite filter_cons_True by done. by rewrite IH.
Qed.

Lemma SaveInstance_idempotent (idQuery_ : Z) (hash token text : string)
    (w : World) :
  token <> "" ->
  (SaveInstance idQuery_ hash token text
     (SaveInstance idQuery_ hash token text w).2).2
  = (SaveInstance idQuery_ hash token text w).2.
Proof.
  intros Htok. destruct (instance (sqliteDB w)) as [t|] eqn:Ht.
  - rewrite (SaveInstance_run _ _ _ _ w t Ht).
    rewrite bool_decide_eq_false_2 by done. cbn [snd].
    erewrite SaveInstance_run; [|reflexivity].
    rewrite bool_decide_eq_false_2 by done. cbn [snd].
    unfold setStore. cbn [sqliteDB backend executed entropy drawn items
                          items_seq config queries instance].
    by rewrite insertOrReplace_idempotent.
  - assert (E : (SaveInstance idQuery_ hash token text w).2 = w).
    { unfold SaveInstance, bind. rewrite bool_decide_eq_false_2 by done.
      unfold ret, execUpsertInstance, noSuchTable, fail. by rewrite Ht. }
    by rewrite !E.
Qed.

(** What [SaveConfigFromTable] does when the items and the config tables
    exist: the item is created if need be, and the aliased cells of the
    row are upserted under its id. *)
Lemma SaveConfigFromTable_steps (item : string) (idDB_ : Z) (token : string)
    (row : list string) (cols : list table.Column)
    (als : gmap string string) (stored : list ConfigRow) (w : World) :
  is_Some (items (sqliteDB w)) ->
  config (sqliteDB w) = Some stored ->
  let w1 := (InsertItemIfNotExists item idDB_ w).2 in
  exists id t1 r,
    items (sqliteDB w1) = Some t1 /\ r ∈ t1 /\ it_name r = item
    /\ GetItemID item w1 = (Ok id, w1)
    /\ config (sqliteDB w1) = Some stored
    /\ instance (sqliteDB w1) = instance (sqliteDB w)
    /\ SaveConfigFromTable item idDB_ token row cols als w
       = (Ok tt,
          withConfig (upsertAll stored (aliasWrites id token row als 0 cols))
            w1).
Proof.
  intros [t Ht] Hconfig w1. subst w1.
  assert (Hrun : exists t1 r id,
    InsertItemIfNotExists item idDB_ w
    = (Ok tt, (InsertItemIfNotExists item idDB_ w).2)
    /\ items (sqliteDB (InsertItemIfNotExists item idDB_ w).2) = Some t1
    /\ r ∈ t1 /\ it_name r = item
    /\ find (fun x => bool_decide (it_name x = item)) t1 = Some id
    /\ config (sqliteDB (InsertItemIfNotExists item idDB_ w).2) = Some stored
    /\ instance (sqliteDB (InsertItemIfNotExists item idDB_ w).2)
       = instance (sqliteDB w)).
  { destruct (InsertItemIfNotExists_run item idDB_ w t Ht)
      as [[[r [Hr Hn]] ->]|[Hnone ->]]; cbn [snd].
    - destruct (find_filter_cons (fun x => it_name x = item) t) as [x Hx].
      { intros E.
        assert (Hin : r ∈ filter (fun x => it_name x = item) t)
          by (by apply list_elem_of_filter).
        rewrite E in Hin. by apply elem_of_nil in Hin. }
      by exists t, r, x.
    - eexists _, _, _. split; [reflexivity|].
      cbn [sqliteDB setStore items config instance].
      split; [reflexivity|]. split; [apply elem_of_app; right; left|].
      split; [reflexivity|]. split; [|done].
      rewrite find_app_None.
      + simpl. by rewrite bool_decide_eq_true_2.
      + apply find_None_elem. intros r Hr.
        apply bool_decide_eq_false_2. by apply Hnone. }
  destruct Hrun as (t1 & r & x & Hins & Ht1 & Hr & Hn & Hfind & Hc1 & Hi1).
  set (w1 := (InsertItemIfNotExists item idDB_ w).2) in *.
  assert (Hget : GetItemID item w1 = (Ok (it_id x), w1)).
  { unfold GetItemID. by rewrite Ht1, Hfind. }
  exists (it_id x), t1, r. repeat split; try done.
  unfold SaveConfigFromTable, bind at 1. rewrite Hins.
  unfold bind at 1. rewrite Hget.
  by apply saveColumns_run.
Qed.

(** Confirming the selected row twice is confirming it once: with a
    token, a second Enter on the focused table returns what the first
    returned and leaves the local store, and all the rest of the world,
    as the first left it. *)
Theorem Update_enter_save_twice_is_once :
  forall (m : Model) (w : World),
    textinput.Focused (textInput m) = false ->
    uid m <> "" ->
    is_Some (items (sqliteDB w)) ->
    is_Some (config (sqliteDB w)) ->
    let '(m1, cmd1, w1) := Update m (tea.KeyMsg "enter") w in
    Update m1 (tea.KeyMsg "enter") w1 = (m1, cmd1, w1).
Proof.
  intros m w Hfocus Huid Hitems [stored Hconfig].
  rewrite (Update_enter_table m w Hfocus).
  destruct (SaveConfigFromTable_steps (itemName m) (idDB m) (uid m)
              (table.SelectedRow (table m)) (table.Columns (table m))
              (aliases m) stored w Hitems Hconfig)
    as (id & t1 & r & Ht1 & Hr & Hn & Hget & Hc1 & Hi1 & ->).
  set (w1 := (InsertItemIfNotExists (itemName m) (idDB m) w).2) in *.
  set (news := aliasWrites id (uid m) _ (aliases m) 0 _).
  set (wc := withConfig (upsertAll stored news) w1).
  set (h := rowDigest _).
  set (w2 := (SaveInstance (idQuery m) h (uid m) _ wc).2).
  rewrite (Update_enter_table m w2 Hfocus).
  destruct (SaveInstance_frame (idQuery m) h (uid m)
              (textinput.Value (textInput m)) wc) as [Hfc Hfi].
  fold w2 in Hfc, Hfi.
  assert (Hitems2 : items (sqliteDB w2) = Some t1) by (by rewrite Hfi).
  assert (Hconfig2 : config (sqliteDB w2) = Some (upsertAll stored news))
    by (by rewrite Hfc).
  assert (Hsave : SaveConfigFromTable (itemName m) (idDB m) (uid m)
                    (table.SelectedRow (table m)) (table.Columns (table m))
                    (aliases m) w2 = (Ok tt, w2)).
  { destruct (InsertItemIfNotExists_run (itemName m) (idDB m) w2 t1 Hitems2)
      as [[_ Hins]|[Hnone _]]; [|by destruct (Hnone r Hr)].
    unfold SaveConfigFromTable, bind at 1. rewrite Hins. unfold bind at 1.
    assert (Hget2 : GetItemID (itemName m) w2 = (Ok id, w2)).
    { unfold GetItemID in *. rewrite Hitems2. rewrite Ht1 in Hget.
      destruct (find _ t1); [|done]. by injection Hget as ->. }
    rewrite Hget2.
    rewrite (saveColumns_run id (uid m) _ (aliases m) _ 0 _ w2 Hconfig2).
    fold news. rewrite upsertAll_idempotent.
    by rewrite (withConfig_id _ w2 Hconfig2). }
  rewrite Hsave. unfold w2.
  by rewrite (SaveInstance_idempotent _ _ _ _ wc Huid).
Qed.

(** ** Enter when something is missing *)

(** Enter, once it gets to [SaveInstance]: there is no command, and the
    world is the one [SaveInstance] leaves; the model is the one given,
    or, with the filter input focused, the one given with the table
    filled from [FilterContent]. *)
Lemma Update_enter_reaches_SaveInstance (m : Model) (w : World) :
  enterSaves m w ->
  exists m' w0,
    Update m (tea.KeyMsg "enter") w
    = (m', None,
       (SaveInstance (idQuery m) (rowDigest (table.SelectedRow (table m')))
          (uid m) (textinput.Value (textInput m)) w0).2)
    /\ (if textinput.Focused (textInput m) then
          exists rows cols,
            FilterContent m (textinput.Value (textInput m)) w
            = (Ok (rows, cols), w0)
            /\ m' = SetTable (table.SetColumns cols
                                (table.SetRows rows (table m))) m
        else m' = m)
    /\ instance (sqliteDB w0) = instance (sqliteDB w)
    /\ drawn w0 = drawn w /\ entropy w0 = entropy w
    /\ uid m' = uid m /\ idQuery m' = idQuery m
    /\ forall w2, backend w2 = backend w0 ->
         items (sqliteDB w2) = items (sqliteDB w0) ->
         config (sqliteDB w2) = config (sqliteDB w0) ->
         enterSaves m' w2.
Proof.
  unfold enterSaves. intros Hsaves.
  destruct (textinput.Focused (textInput m)) eqn:Hfocus.
  - destruct Hsaves as [rs Hrs].
    rewrite (Update_enter_filter m w Hfocus), FilterContent_run. cbv zeta.
    unfold GetContent. rewrite Hrs.
    destruct (present _ _ _ _) as [rows cols]. cbv zeta.
    eexists _, _. split; [reflexivity|].
    cbn [textInput SetTable sqlQuery uid idQuery]. rewrite Hfocus.
    split; [by exists rows, cols|].
    do 5 (split; [done|]).
    intros w2 Hb _ _. exists rs. by rewrite Hb.
  - destruct Hsaves as [Hitems [stored Hconfig]].
    rewrite (Update_enter_table m w Hfocus).
    destruct (SaveConfigFromTable_steps (itemName m) (idDB m) (uid m)
                (table.SelectedRow (table m)) (table.Columns (table m))
                (aliases m) stored w Hitems Hconfig)
      as (id & t1 & r & Ht1 & Hr & Hn & Hget & Hc1 & Hi1 & ->).
    eexists m, _. split; [reflexivity|]. rewrite Hfocus.
    assert (Hframe : forall w1,
      w1 = (InsertItemIfNotExists (itemName m) (idDB m) w).2 ->
      drawn w1 = drawn w /\ entropy w1 = entropy w).
    { intros w1 ->. unfold InsertItemIfNotExists, noSuchTable, fail, ret.
      destruct (items (sqliteDB w)); [|done]. by destruct (_ =? _)%nat. }
    destruct (Hframe _ eq_refl) as [Hd He].
    do 6 (split; [done|]).
    intros w2 _ Hi Hc. rewrite Hi, Hc.
    cbn [sqliteDB withConfig setStore items config]. rewrite Ht1.
    split; by eexists.
Qed.

(** When the instance table is missing, the session is not saved and
    nothing says so: Enter returns no command, in either focus; the
    filter is applied to the display as usual, and no digest can be read
    back. *)
Theorem Update_enter_without_instance_table_is_silent :
  forall (m : Model) (w : World),
    instance (sqliteDB w) = None ->
    enterSaves m w ->
    let '(m', cmd, w') := Update m (tea.KeyMsg "enter") w in
    cmd = None
    /\ instance (sqliteDB w') = None
    /\ (exists e, GetHashByUID (uid m) (idQuery m) w' = (Err e, w'))
    /\ (textinput.Focused (textInput m) = true ->
        exists rows cols w1,
          FilterContent m (textinput.Value (textInput m)) w
          = (Ok (rows, cols), w1)
          /\ table.Rows (table m') = rows
          /\ table.Columns (table m') = cols)
    /\ (textinput.Focused (textInput m) = false -> m' = m).
Proof.
  intros m w Hnone Hsaves.
  destruct (Update_enter_reaches_SaveInstance m w Hsaves)
    as (m' & w0 & -> & Hm & Hi0 & _).
  rewrite Hnone in Hi0.
  destruct (SaveInstance_no_table (idQuery m)
              (rowDigest (table.SelectedRow (table m'))) (uid m)
              (textinput.Value (textInput m)) w0 Hi0)
    as (e & w' & Hs & Hdb & _).
  rewrite Hs. cbn [snd]. split; [done|].
  assert (Hi' : instance (sqliteDB w') = None) by (by rewrite Hdb).
  split; [done|]. split; [|split].
  - unfold GetHashByUID, noSuchTable, fail. rewrite Hi'. eauto.
  - intros Hfocus. rewrite Hfocus in Hm.
    destruct Hm as (rows & cols & Hf & ->). by exists rows, cols, w0.
  - intros Hfocus. by rewrite Hfocus in Hm.
Qed.

(** Without the config table the loop fails at the first aliased cell
    and passes when there is none; it writes nothing. *)
Lemma saveColumns_no_table (idItem : Z) (token : string) (row : list string)
    (als : gmap string string) (cols : list table.Column) (w : World) :
  config (sqliteDB w) = None ->
  forall i : nat,
    saveColumns idItem token row als i cols w
    = (match aliasWrites idItem token row als i cols with
       | [] => Ok tt
       | _ :: _ => Err (ErrorString "no such table: config")
       end, w).
Proof.
  intros Hnone. induction cols as [|col cols IH]; intros i; [done|].
  rewrite aliasWrites_cons. simpl saveColumns. unfold bind at 1.
  destruct (i <? length row)%nat eqn:Hi.
  - apply Nat.ltb_lt in Hi.
    destruct (lookup_lt_is_Some_2 row i Hi) as [value Hv]. rewrite Hv.
    destruct (als !! _) as [alias|].
    + unfold execUpsertConfig, noSuchTable, fail. by rewrite Hnone.
    + unfold ret at 1. by rewrite IH.
  - apply Nat.ltb_ge in Hi. rewrite (lookup_ge_None_2 row i Hi).
    unfold ret at 1. by rewrite IH.
Qed.

Lemma aliasedCell_aliasWrites (idItem : Z) (token : string)
    (row : list string) (als : gmap string string)
    (cols : list table.Column) :
  aliasedCell row als cols <-> aliasWrites idItem token row als 0 cols <> [].
Proof.
  split.
  - intros (i & col & value & alias & Hc & Hv & Ha) E.
    assert (Hin : {| c_id_item := idItem; c_uid := token;
                     c_var := sqlite_numeric alias;
                     c_val := value |}
                  ∈ aliasWrites idItem token row als 0 cols).
    { unfold aliasWrites. apply list_elem_of_omap. exists (i, col).
      split; [|simpl; by rewrite Hv, Ha].
      apply list_elem_of_lookup. exists i.
      apply lookup_zip_with_Some. exists i, col. split; [done|].
      split; [|done]. apply lookup_seq. split; [done|].
      by apply lookup_lt_Some in Hc. }
    rewrite E in Hin. by apply elem_of_nil in Hin.
  - intros Hne.
    destruct (aliasWrites idItem token row als 0 cols) as [|r rs] eqn:E;
      [done|].
    assert (Hin : r ∈ aliasWrites idItem token row als 0 cols)
      by (rewrite E; left).
    apply aliasWrites_elem in Hin as (i & col & value & alias & H1 & H2 & H3 & _).
    by exists i, col, value, alias.
Qed.

(** When the config table is missing, Enter on the focused table still
    creates the item, reports the failure only if the selected row has
    an aliased cell to write, and in that case does not get to saving
    the session: the instance table and the random source are as
    before. Nothing is undone. *)
Theorem Update_enter_without_config_table :
  forall (m : Model) (w : World) (t : list ItemsRow),
    textinput.Focused (textInput m) = false ->
    items (sqliteDB w) = Some t ->
    config (sqliteDB w) = None ->
    let row := table.SelectedRow (table m) in
    let cols := table.Columns (table m) in
    let '(m', cmd, w') := Update m (tea.KeyMsg "enter") w in
    m' = m
    /\ (exists t' r,
          items (sqliteDB w') = Some t' /\ r ∈ t' /\ it_name r = itemName m)
    /\ config (sqliteDB w') = None
    /\ (aliasedCell row (aliases m) cols ->
        (exists e, cmd = Some (tea.Printf
                     (newline +:+ "Error saving to config: " +:+ Error e
                      +:+ newline)))
        /\ instance (sqliteDB w') = instance (sqliteDB w)
        /\ drawn w' = drawn w)
    /\ (~ aliasedCell row (aliases m) cols -> cmd = None).
Proof.
  intros m w t Hfocus Ht Hnone row cols.
  rewrite (Update_enter_table m w Hfocus). fold row. fold cols.
  assert (Hins : exists w1 t1 r id,
    InsertItemIfNotExists (itemName m) (idDB m) w = (Ok tt, w1)
    /\ items (sqliteDB w1) = Some t1 /\ r ∈ t1 /\ it_name r = itemName m
    /\ GetItemID (itemName m) w1 = (Ok id, w1)
    /\ config (sqliteDB w1) = None
    /\ instance (sqliteDB w1) = instance (sqliteDB w)
    /\ drawn w1 = drawn w).
  { destruct (InsertItemIfNotExists_run (itemName m) (idDB m) w t Ht)
      as [[[r [Hr Hn]] ->]|[Hnone' ->]].
    - destruct (find_filter_cons (fun x => it_name x = itemName m) t)
        as [x Hx].
      { intros E.
        assert (Hin : r ∈ filter (fun x => it_name x = itemName m) t)
          by (by apply list_elem_of_filter).
        rewrite E in Hin. by apply elem_of_nil in Hin. }
      exists w, t, r, (it_id x). unfold GetItemID. by rewrite Ht, Hx.
    - eexists _, _, _, _. split; [reflexivity|].
      cbn [sqliteDB setStore items config instance drawn].
      split; [reflexivity|]. split; [apply elem_of_app; right; left|].
      split; [reflexivity|]. split; [|done].
      unfold GetItemID. cbn [sqliteDB setStore items].
      rewrite find_app_None.
      + simpl. by rewrite bool_decide_eq_true_2.
      + apply find_None_elem. intros r Hr.
        apply bool_decide_eq_false_2. by apply Hnone'. }
  destruct Hins as (w1 & t1 & r & id & Hins & Ht1 & Hr & Hn & Hget & Hc1
                    & Hi1 & Hd1).
  unfold SaveConfigFromTable, bind at 1. rewrite Hins. unfold bind at 1.
  rewrite Hget. rewrite (saveColumns_no_table id (uid m) row (aliases m) cols
                           w1 Hc1 0).
  pose proof (aliasedCell_aliasWrites id (uid m) row (aliases m) cols)
    as Hcell.
  destruct (aliasWrites id (uid m) row (aliases m) 0 cols) as [|x xs].
  - destruct (SaveInstance_frame (idQuery m) (rowDigest row) (uid m)
                (textinput.Value (textInput m)) w1) as [Hfc Hfi].
    split; [done|]. split; [exists t1, r; by rewrite Hfi|].
    split; [by rewrite Hfc|]. split; [|done].
    intros Hc. apply Hcell in Hc. done.
  - split; [done|]. split; [by exists t1, r|]. split; [done|]. split.
    + intros _. split; [by eexists|]. done.
    + intros Hc. exfalso. apply Hc. by apply Hcell.
Qed.

(** Without a token the session is stored under a fresh one at every
    Enter, and the model does not learn it: its token stays empty, two
    successive Enters draw thirty-two random bytes, and the row of the
    first remains beside the row of the second when the two tokens
    differ. *)
Theorem Update_enter_allocates_a_token_each_time :
  forall (m : Model) (w : World) (t : list InstanceRow),
    uid m = "" ->
    instance (sqliteDB w) = Some t ->
    enterSaves m w ->
    let '(m1, _, w1) := Update m (tea.KeyMsg "enter") w in
    let '(m2, _, w2) := Update m1 (tea.KeyMsg "enter") w1 in
    let tok1 := groupedHex (hexLower (map (entropy w) (seq (drawn w) 16))) in
    let tok2 :=
      groupedHex (hexLower (map (entropy w) (seq (drawn w + 16) 16))) in
    uid m1 = "" /\ uid m2 = ""
    /\ drawn w2 = (drawn w + 32)%nat
    /\ exists t2,
         instance (sqliteDB w2) = Some t2
         /\ (exists r, r ∈ t2 /\ instanceKey r = (tok2, idQuery m))
         /\ (tok1 <> tok2 ->
             exists r, r ∈ t2 /\ instanceKey r = (tok1, idQuery m)).
Proof.
  intros m w t Huid Ht Hsaves.
  destruct (Update_enter_reaches_SaveInstance m w Hsaves)
    as (m1 & w0 & -> & _ & Hi0 & Hd0 & He0 & Hu1 & Hq1 & Hsaves1).
  rewrite Ht in Hi0.
  rewrite (SaveInstance_run _ _ _ _ w0 t Hi0). cbn [snd].
  rewrite Huid, bool_decide_eq_true_2 by done.
  rewrite He0, Hd0.
  set (tok1 := groupedHex (hexLower (map (entropy w) (seq (drawn w) 16)))).
  set (r1 := {| i_uid := tok1; i_id_query := idQuery m; i_hash := _;
                i_filter := _ |}).
  set (w1 := setStore _ (drawBytes 16 w0)).
  assert (Hs1 : enterSaves m1 w1) by (by apply Hsaves1).
  destruct (Update_enter_reaches_SaveInstance m1 w1 Hs1)
    as (m2 & w0' & -> & _ & Hi0' & Hd0' & He0' & Hu2 & Hq2 & _).
  assert (Hi1 : instance (sqliteDB w0')
                = Some (insertOrReplace instanceKey r1 t))
    by (by rewrite Hi0').
  rewrite (SaveInstance_run _ _ _ _ w0' _ Hi1). cbn [snd].
  rewrite Hu1, Huid, bool_decide_eq_true_2 by done.
  rewrite He0', Hd0'. cbn [entropy drawn w1 setStore drawBytes].
  rewrite He0, Hd0, Hq1.
  set (tok2 := groupedHex (hexLower (map (entropy w)
                                       (seq (drawn w + 16) 16)))).
  set (r2 := {| i_uid := tok2; i_id_query := idQuery m; i_hash := _;
                i_filter := _ |}).
  split; [congruence|]. split; [congruence|]. split.
  { rewrite Hd0', <- Hd0. cbn [drawn w1 setStore drawBytes]. lia. }
  eexists. split; [reflexivity|]. split.
  - exists r2. split; [|done]. unfold insertOrReplace.
    apply elem_of_app. right. left.
  - intros Hne. exists r1. split; [|done]. unfold insertOrReplace.
    apply elem_of_app. left. apply list_elem_of_filter. split.
    + unfold instanceKey. simpl. congruence.
    + apply elem_of_app. right. left.
Qed.

(** ** A committed filter *)

Lemma SaveInstance_then_GetFilterByUID (idQuery_ : Z)
    (hash token text : string) (w : World) :
  token <> "" -> is_Some (instance (sqliteDB w)) ->
  GetFilterByUID token idQuery_ (SaveInstance idQuery_ hash token text w).2
  = (Ok text, (SaveInstance idQuery_ hash token text w).2)
  /\ GetHashByUID token idQuery_ (SaveInstance idQuery_ hash token text w).2
     = (Ok hash, (SaveInstance idQuery_ hash token text w).2).
Proof.
  intros Htok [t Ht]. rewrite (SaveInstance_provided _ _ _ _ w t Htok Ht).
  unfold GetFilterByUID, GetHashByUID. simpl.
  pose proof (selectInstance_insertOrReplace
                {| i_uid := token; i_id_query := idQuery_;
                   i_hash := hash; i_filter := text |} t) as Hsel.
  simpl in Hsel. by rewrite Hsel.
Qed.

Lemma SaveInstance_keeps (idQuery_ : Z) (hash token text : string)
    (w : World) :
  let w' := (SaveInstance idQuery_ hash token text w).2 in
  items (sqliteDB w') = items (sqliteDB w)
  /\ config (sqliteDB w') = config (sqliteDB w)
  /\ queries (sqliteDB w') = queries (sqliteDB w)
  /\ (is_Some (instance (sqliteDB w')) <-> is_Some (instance (sqliteDB w)))
  /\ backend w' = backend w /\ entropy w' = entropy w
  /\ executed w' = executed w /\ (drawn w <= drawn w')%nat.
Proof.
  intros w'. subst w'. destruct (instance (sqliteDB w)) as [t|] eqn:Ht.
  - rewrite (SaveInstance_run _ _ _ _ w t Ht). cbn [snd].
    destruct (bool_decide (token = "")); simpl; rewrite ?Ht;
      repeat split; try done; try (by eexists); lia.
  - unfold SaveInstance, bind. destruct (bool_decide (token = "")).
    + rewrite generateUUID_run. unfold execUpsertInstance, noSuchTable, fail.
      change (sqliteDB (drawBytes 16 w)) with (sqliteDB w). rewrite Ht.
      simpl. rewrite Ht. repeat split; try done; lia.
    + unfold ret, execUpsertInstance, noSuchTable, fail. rewrite Ht.
      simpl. by rewrite Ht.
Qed.

Lemma FilterContent_world (m : Model) (raw : string) (w : World) :
  (FilterContent m raw w).2 = logQuery (composedQuery (sqlQuery m) raw) w.
Proof.
  rewrite FilterContent_run. cbv zeta. unfold GetContent.
  by destruct (backend w _).
Qed.

(** A committed filter that the backend accepts replaces the display:
    the table shows the rows and columns of [FilterContent], the cursor
    stays where it was or moves up to the last row, the focus and the
    filter input are as before, there is no command, one query has gone
    to the backend, and with a token the instance table holds the text
    of the input as it was typed. *)
Theorem Update_filter_success_replaces_display :
  forall (m : Model) (w : World) (rs : ResultSet),
    textinput.Focused (textInput m) = true ->
    backend w (composedQuery (sqlQuery m) (textinput.Value (textInput m)))
    = Ok rs ->
    let '(m', cmd, w') := Update m (tea.KeyMsg "enter") w in
    exists rows cols w1,
      FilterContent m (textinput.Value (textInput m)) w
      = (Ok (rows, cols), w1)
      /\ table.Rows (table m') = rows
      /\ table.Columns (table m') = cols
      /\ table.cursor (table m')
         = Z.min (table.cursor (table m)) (Z.of_nat (length rows) - 1)
      /\ table.Focused (table m') = table.Focused (table m)
      /\ textInput m' = textInput m
      /\ filter_ m' = filter_ m
      /\ sessionFields m' = sessionFields m
      /\ cmd = None
      /\ executed w'
         = executed w
           ++ [composedQuery (sqlQuery m) (textinput.Value (textInput m))]
      /\ (uid m <> "" -> is_Some (instance (sqliteDB w)) ->
          GetFilterByUID (uid m) (idQuery m) w'
          = (Ok (textinput.Value (textInput m)), w')).
Proof.
  intros m w rs Hfocus Hrs.
  assert (Hsaves : enterSaves m w).
  { unfold enterSaves. rewrite Hfocus. by exists rs. }
  destruct (Update_enter_reaches_SaveInstance m w Hsaves)
    as (m' & w0 & -> & Hm & Hi0 & _).
  rewrite Hfocus in Hm. destruct Hm as (rows & cols & Hf & ->).
  exists rows, cols, w0. split; [done|].
  pose proof (FilterContent_world m (textinput.Value (textInput m)) w) as Hw0.
  rewrite Hf in Hw0. cbn [snd] in Hw0.
  set (m' := SetTable _ m).
  destruct (SaveInstance_keeps (idQuery m)
              (rowDigest (table.SelectedRow (table m'))) (uid m)
              (textinput.Value (textInput m)) w0)
    as (_ & _ & _ & _ & _ & _ & Hex & _).
  split; [done|]. split; [done|]. split.
  { cbn [m' table SetTable table.cursor table.SetColumns table.SetRows
         table.rows]. destruct (_ <? _) eqn:E; lia. }
  do 5 (split; [done|]). split.
  { rewrite Hex, Hw0. reflexivity. }
  intros Huid Hinst. apply SaveInstance_then_GetFilterByUID; [done|].
  by rewrite Hi0.
Qed.

(** A filter that matches nothing takes the selection away, and it
    does not come back by itself. When the backend returns no row, or
    the cursor is on no row already, Enter on the filter input leaves
    the cursor on no row; the digest stored for the session is then the
    one of the row without cells, the SHA-256 of the empty string,
    whatever rows the table shows. *)
Theorem Update_filter_without_match_unselects :
  forall (m : Model) (w : World) (rs : ResultSet),
    textinput.Focused (textInput m) = true ->
    backend w (composedQuery (sqlQuery m) (textinput.Value (textInput m)))
    = Ok rs ->
    rs_rows rs = [] \/ table.cursor (table m) < 0 ->
    let '(m', cmd, w') := Update m (tea.KeyMsg "enter") w in
    table.cursor (table m') < 0
    /\ table.SelectedRow (table m') = []
    /\ (rs_rows rs = [] -> table.Rows (table m') = [])
    /\ (uid m <> "" -> is_Some (instance (sqliteDB w)) ->
        GetHashByUID (uid m) (idQuery m) w' = (Ok emptyDigest, w')).
Proof.
  intros m w rs Hfocus Hrs Hcase.
  rewrite (Update_enter_filter m w Hfocus), FilterContent_run. cbv zeta.
  unfold GetContent. rewrite Hrs.
  set (content := (map _ (rs_rows rs), map _ (rs_columns rs))).
  assert (Hnil : rs_rows rs = [] ->
                 (present m (displayConfig m w).1 (displayConfig m w).2
                    content).1 = []).
  { intros Hnil. unfold present, content. cbn [fst snd]. rewrite Hnil.
    by destruct (bool_decide (view m = "c")). }
  assert (Hrows : (present m (displayConfig m w).1 (displayConfig m w).2
                     content).1 = [] \/ table.cursor (table m) < 0).
  { destruct Hcase as [H|Hneg]; [left; by apply Hnil|by right]. }
  destruct (present _ _ _ _) as [rows cols]. cbn [fst] in Hrows, Hnil.
  set (t' := table.SetColumns cols (table.SetRows rows (table m))).
  assert (Hcur : table.cursor t' < 0).
  { unfold t'. cbn [table.cursor table.SetColumns table.SetRows].
    destruct Hrows as [->|Hneg]; simpl length;
      match goal with
      | |- context [?a <? ?b] => destruct (Z.ltb_spec a b)
      end; lia. }
  assert (Hsel : table.SelectedRow t' = []).
  { unfold table.SelectedRow.
    destruct (Z.ltb_spec (table.cursor t') 0); [done|lia]. }
  cbn [table SetTable]. fold t'. rewrite Hsel.
  split; [done|]. split; [done|]. split; [done|].
  intros Huid Hinst.
  assert (Hd : rowDigest [] = emptyDigest) by (vm_compute; reflexivity).
  rewrite Hd. by apply SaveInstance_then_GetFilterByUID.
Qed.

(** ** What no message changes *)

Lemma worldGrows_refl (w : World) : worldGrows w w.
Proof.
  unfold worldGrows. repeat split; try done.
  - exists []. destruct (items (sqliteDB w)); simpl; [|done].
    by rewrite app_nil_r.
  - by exists []; rewrite app_nil_r.
Qed.

Lemma worldGrows_trans (w1 w2 w3 : World) :
  worldGrows w1 w2 -> worldGrows w2 w3 -> worldGrows w1 w3.
Proof.
  intros (Hq & Hb & He & [n1 Hi] & Hc & Hn & Hd & [s1 Hx])
         (Hq' & Hb' & He' & [n2 Hi'] & Hc' & Hn' & Hd' & [s2 Hx']).
  unfold worldGrows. split; [congruence|]. split; [congruence|].
  split; [congruence|]. split.
  { exists (n1 ++ n2). rewrite Hi', Hi.
    destruct (items (sqliteDB w1)); simpl; [|done]. by rewrite app_assoc. }
  split; [by rewrite Hc', Hc|]. split; [by rewrite Hn', Hn|].
  split; [lia|]. exists (s1 ++ s2). by rewrite Hx', Hx, app_assoc.
Qed.

Lemma worldGrows_logQuery (q : string) (w : World) :
  worldGrows w (logQuery q w).
Proof.
  unfold worldGrows, logQuery. simpl. repeat split; try done.
  - exists []. destruct (items (sqliteDB w)); simpl; [|done].
    by rewrite app_nil_r.
  - by exists [q].
Qed.

Lemma worldGrows_SaveInstance (idQuery_ : Z) (hash token text : string)
    (w : World) :
  worldGrows w (SaveInstance idQuery_ hash token text w).2
  /\ executed (SaveInstance idQuery_ hash token text w).2 = executed w.
Proof.
  destruct (SaveInstance_keeps idQuery_ hash token text w)
    as (Hi & Hc & Hq & Hn & Hb & He & Hx & Hd).
  split; [|done]. unfold worldGrows. repeat split; try done.
  - exists []. rewrite Hi. destruct (items (sqliteDB w)); simpl; [|done].
    by rewrite app_nil_r.
  - by rewrite Hc.
  - by rewrite Hc.
  - by apply Hn.
  - by apply Hn.
  - exists []. by rewrite app_nil_r.
Qed.

Lemma worldGrows_execUpsertConfig (new : ConfigRow) (w : World) :
  worldGrows w (execUpsertConfig new w).2
  /\ executed (execUpsertConfig new w).2 = executed w.
Proof.
  unfold execUpsertConfig, noSuchTable, fail, ret.
  destruct (config (sqliteDB w)) as [t|] eqn:Ht; cbn [snd];
    [|split; [apply worldGrows_refl|done]].
  split; [|done]. unfold worldGrows. simpl. rewrite Ht.
  repeat split; try done; try (by eexists).
  - exists []. destruct (items (sqliteDB w)); simpl; [|done].
    by rewrite app_nil_r.
  - exists []. by rewrite app_nil_r.
Qed.

Lemma worldGrows_saveColumns (idItem : Z) (token : string)
    (row : list string) (als : gmap string string)
    (cols : list table.Column) :
  forall (i : nat) (w : World),
    worldGrows w (saveColumns idItem token row als i cols w).2
    /\ executed (saveColumns idItem token row als i cols w).2 = executed w.
Proof.
  induction cols as [|col cols IH]; intros i w.
  - split; [apply worldGrows_refl|done].
  - simpl saveColumns. unfold bind.
    set (step := if (i <? length row)%nat then _ else _).
    assert (Hstep : worldGrows w (step w).2
                    /\ executed (step w).2 = executed w).
    { unfold step. destruct (i <? length row)%nat;
        [|split; [apply worldGrows_refl|done]].
      destruct (als !! _); [apply worldGrows_execUpsertConfig|].
      split; [apply worldGrows_refl|done]. }
    destruct (step w) as [[[]|e] w1]; cbn [snd] in *; [|done].
    destruct (IH (S i) w1) as [Hg Hx]. destruct Hstep as [Hg1 Hx1].
    split; [by eapply worldGrows_trans|congruence].
Qed.

Lemma worldGrows_InsertItemIfNotExists (item : string) (idDB_ : Z)
    (w : World) :
  worldGrows w (InsertItemIfNotExists item idDB_ w).2
  /\ executed (InsertItemIfNotExists item idDB_ w).2 = executed w.
Proof.
  unfold InsertItemIfNotExists, noSuchTable, fail, ret.
  destruct (items (sqliteDB w)) as [t|] eqn:Ht; cbn [snd];
    [|split; [apply worldGrows_refl|done]].
  destruct (_ =? _)%nat; cbn [snd]; [|split; [apply worldGrows_refl|done]].
  split; [|done]. unfold worldGrows. simpl. rewrite Ht.
  repeat split; try done.
  - by eexists.
  - exists []. by rewrite app_nil_r.
Qed.

Lemma worldGrows_SaveConfigFromTable (item : string) (idDB_ : Z)
    (token : string) (row : list string) (cols : list table.Column)
    (als : gmap string string) (w : World) :
  worldGrows w (SaveConfigFromTable item idDB_ token row cols als w).2
  /\ executed (SaveConfigFromTable item idDB_ token row cols als w).2
     = executed w.
Proof.
  unfold SaveConfigFromTable, bind.
  destruct (worldGrows_InsertItemIfNotExists item idDB_ w) as [Hg1 Hx1].
  destruct (InsertItemIfNotExists item idDB_ w) as [[[]|e] w1];
    cbn [snd] in *; [|done].
  assert (Hget : (GetItemID item w1).2 = w1).
  { unfold GetItemID, noSuchTable, fail, ret.
    destruct (items (sqliteDB w1)); [|done]. by destruct (find _ _). }
  destruct (GetItemID item w1) as [[id|e] w2]; cbn [snd] in Hget; subst w2;
    [|done].
  destruct (worldGrows_saveColumns id token row als cols 0 w1) as [Hg2 Hx2].
  split; [by eapply worldGrows_trans|congruence].
Qed.

Lemma passOn_keeps (m : Model) (msg : tea.Msg) (w : World) :
  sessionFields (passOn m msg w).1.1 = sessionFields m
  /\ (passOn m msg w).2 = w.
Proof.
  unfold passOn. destruct (table_Update _ _) as [t c].
  cbn [textInput SetTable]. destruct (textinput_Update _ _) as [ti c'].
  cbn [textInput setTextInput]. by destruct (textinput.Focused ti).
Qed.

Lemma Update_tab (m : Model) (w : World) :
  Update m (tea.KeyMsg "tab") w
  = passOn (if table.Focused (table m) then
              setTextInput (textinput.Focus (textInput m))
                (SetTable (table.Blur (table m)) m)
            else
              SetTable (table.Focus (table m))
                (setTextInput (textinput.Blur (textInput m)) m))
           (tea.KeyMsg "tab") w.
Proof. unfold Update, passOn. by destruct (table.Focused (table m)). Qed.

Lemma Update_esc (m : Model) (w : World) :
  Update m (tea.KeyMsg "esc") w
  = passOn (if table.Focused (table m) then SetTable (table.Blur (table m)) m
            else SetTable (table.Focus (table m)) m)
           (tea.KeyMsg "esc") w.
Proof. unfold Update, passOn. by destruct (table.Focused (table m)). Qed.

(** No message makes [Update] change what the model was told at
    startup, the queries table, the backend it talks to, or the
    existence of a table; items are appended only. The only query a
    message can send to the backend is the base query of the model
    composed with the text of the filter input. *)
Theorem Update_keeps_session_and_catalog :
  forall (m : Model) (msg : tea.Msg) (w : World),
    let '(m', cmd, w') := Update m msg w in
    sessionFields m' = sessionFields m
    /\ worldGrows w w'
    /\ (executed w' = executed w
        \/ executed w'
           = executed w
             ++ [composedQuery (sqlQuery m)
                   (textinput.Value (textInput m))]).
Proof.
  intros m msg w.
  assert (Hpass : forall m0 msg0,
    sessionFields m0 = sessionFields m ->
    let '(m', cmd, w') := passOn m0 msg0 w in
    sessionFields m' = sessionFields m /\ worldGrows w w'
    /\ (executed w' = executed w
        \/ executed w'
           = executed w
             ++ [composedQuery (sqlQuery m)
                   (textinput.Value (textInput m))])).
  { intros m0 msg0 Hm0. destruct (passOn_keeps m0 msg0 w) as [Hf Hw].
    destruct (passOn m0 msg0 w) as [[m' cmd] w']. cbn [fst snd] in *.
    subst w'. split; [congruence|]. split; [apply worldGrows_refl|by left]. }
  destruct msg as [key|tag]; [|apply (Hpass m (tea.OtherMsg tag) eq_refl)].
  pose proof (keyOf_spec key) as Hkey.
  destruct (keyOf key) eqn:Hk; try subst key.
  - rewrite Update_tab. apply Hpass. by destruct (table.Focused (table m)).
  - rewrite Update_esc. apply Hpass. by destruct (table.Focused (table m)).
  - split; [done|]. split; [apply worldGrows_refl|by left].
  - destruct (textinput.Focused (textInput m)) eqn:Hfocus.
    + rewrite (Update_enter_filter m w Hfocus).
      pose proof (FilterContent_world m (textinput.Value (textInput m)) w)
        as Hw1.
      destruct (FilterContent m _ w) as [[[rows cols]|err] w1];
        cbn [snd] in Hw1; subst w1.
      * cbv zeta. set (m' := SetTable _ m).
        destruct (worldGrows_SaveInstance (idQuery m)
                    (rowDigest (table.SelectedRow (table m'))) (uid m)
                    (textinput.Value (textInput m))
                    (logQuery (composedQuery (sqlQuery m)
                                 (textinput.Value (textInput m))) w))
          as [Hg Hx].
        split; [done|]. split.
        { eapply worldGrows_trans; [apply worldGrows_logQuery|done]. }
        right. by rewrite Hx.
      * split; [done|]. split; [apply worldGrows_logQuery|by right].
    + rewrite (Update_enter_table m w Hfocus).
      destruct (worldGrows_SaveConfigFromTable (itemName m) (idDB m) (uid m)
                  (table.SelectedRow (table m)) (table.Columns (table m))
                  (aliases m) w) as [Hg1 Hx1].
      destruct (SaveConfigFromTable _ _ _ _ _ _ w) as [[[]|err] w1];
        cbn [snd] in *.
      * destruct (worldGrows_SaveInstance (idQuery m)
                    (rowDigest (table.SelectedRow (table m))) (uid m)
                    (textinput.Value (textInput m)) w1) as [Hg Hx].
        split; [done|]. split; [by eapply worldGrows_trans|].
        left. congruence.
      * split; [done|]. split; [done|by left].
  - rewrite (Update_other_key m key w Hk). by apply Hpass.
Qed.

(** ** The focus keys *)

(** ** Widths and the pivot, from the backend's columns *)

Lemma FilterContent_Ok (m : Model) (raw : string) (w : World)
    (rs : ResultSet) :
  backend w (composedQuery (sqlQuery m) raw) = Ok rs ->
  FilterContent m raw w
  = (Ok (present m (displayConfig m w).1 (displayConfig m w).2
           (map (fun values =>
                   map render (resize (length (rs_columns rs)) VNil values))
                (rs_rows rs),
            map (fun col => {| table.Title := ToUpper unicode_MapUpper col;
                               table.Width := 20 |}) (rs_columns rs))),
     logQuery (composedQuery (sqlQuery m) raw) w).
Proof.
  intros Hrs. rewrite FilterContent_run. cbv zeta. unfold GetContent.
  by rewrite Hrs.
Qed.

(** The columns [FilterContent] returns outside the pivot view, from
    the columns of the backend: each is titled with the upper-cased
    name and is as wide as the stored widths say for the alias of that
    title, or for the title itself when it has no alias, and 20 wide
    when they say nothing, whatever they hold under the title of an
    aliased column. Title and key are upper-cased once more on the way,
    which changes nothing for an ASCII name. *)
Theorem FilterContent_columns :
  forall (m : Model) (raw : string) (w : World) (rs : ResultSet)
         (widths : gmap string Z) (als : gmap string string) (h : Z),
    GetQueryConfig (sqlName m) w = (Ok (widths, als, h), w) ->
    backend w (composedQuery (sqlQuery m) raw) = Ok rs ->
    view m <> "c" ->
    exists rows w',
      FilterContent m raw w
      = (Ok (rows,
             map (fun name =>
                    let title := ToUpper unicode_MapUpper name in
                    let key := ToUpper unicode_MapUpper title in
                    {| table.Title := title;
                       table.Width :=
                         default 20 (widths !! default key (als !! key)) |})
                 (rs_columns rs)), w')
      /\ forall name, isASCII name = true ->
           ToUpper unicode_MapUpper (ToUpper unicode_MapUpper name)
           = ToUpper unicode_MapUpper name.
Proof.
  intros m raw w rs widths als h Hcfg Hrs Hview.
  rewrite (FilterContent_Ok m raw w rs Hrs).
  unfold present, displayConfig. rewrite Hcfg. cbn [fst snd].
  rewrite bool_decide_eq_false_2 by done.
  eexists _, _. split; [|apply ToUpper_idempotent_ascii].
  by rewrite map_map.
Qed.

(** [FilterContent] does not report a display configuration it cannot
    read: when [GetQueryConfig] fails, on a malformed config text for
    one, the filter is applied all the same and every column is 20
    wide. *)
Theorem FilterContent_ignores_config_error :
  forall (m : Model) (raw : string) (w : World) (rs : ResultSet) (e : error),
    GetQueryConfig (sqlName m) w = (Err e, w) ->
    backend w (composedQuery (sqlQuery m) raw) = Ok rs ->
    view m <> "c" ->
    exists rows cols w',
      FilterContent m raw w = (Ok (rows, cols), w')
      /\ length rows = length (rs_rows rs)
      /\ map table.Title cols
         = map (ToUpper unicode_MapUpper) (rs_columns rs)
      /\ Forall (fun col => table.Width col = 20) cols.
Proof.
  intros m raw w rs e Hcfg Hrs Hview.
  rewrite (FilterContent_Ok m raw w rs Hrs).
  unfold present, displayConfig. rewrite Hcfg. cbn [fst snd].
  rewrite bool_decide_eq_false_2 by done.
  eexists _, _, _. split; [reflexivity|]. split; [by rewrite length_map|].
  split.
  - rewrite !map_map. by apply map_ext.
  - apply Forall_forall. intros col Hcol.
    apply list_elem_of_fmap in Hcol as (c & -> & _). cbn [table.Width].
    by rewrite lookup_empty.
Qed.

(** In the pivot view the table has one row per column of the backend:
    the upper-cased name and the cell of the first backend row, under
    the columns [column] and [val]. A result without rows is not
    pivoted: the table has no row and the columns of the backend. *)
Theorem FilterContent_pivot_of_backend :
  forall (m : Model) (raw : string) (w : World) (rs : ResultSet),
    backend w (composedQuery (sqlQuery m) raw) = Ok rs ->
    view m = "c" ->
    exists rows cols w',
      FilterContent m raw w = (Ok (rows, cols), w')
      /\ (rs_rows rs = [] ->
          rows = []
          /\ map table.Title cols
             = map (ToUpper unicode_MapUpper) (rs_columns rs))
      /\ (forall first others, rs_rows rs = first :: others ->
          map table.Title cols = ["column"; "val"]
          /\ length rows = length (rs_columns rs)
          /\ forall i name, rs_columns rs !! i = Some name ->
               rows !! i
               = Some [ToUpper unicode_MapUpper name;
                       default "" (render <$> first !! i)]).
Proof.
  intros m raw w rs Hrs Hview.
  rewrite (FilterContent_Ok m raw w rs Hrs).
  unfold present. cbn [fst snd]. rewrite bool_decide_eq_true_2 by done.
  destruct (ToVerticalView _ _) as [rows cols] eqn:Hv.
  exists rows, cols, (logQuery (composedQuery (sqlQuery m) raw) w).
  split; [done|]. split.
  - intros Hnil. rewrite Hnil in Hv. cbn [map ToVerticalView] in Hv.
    injection Hv as <- <-. split; [done|].
    rewrite !map_map. by apply map_ext.
  - intros first others Hrows. rewrite Hrows in Hv.
    cbn [map ToVerticalView] in Hv. injection Hv as <- <-.
    split; [done|]. split.
    + by rewrite verticalRows_length, !length_map.
    + intros i name Hi.
      erewrite verticalRows_lookup.
      2:{ rewrite !list_lookup_fmap, Hi. reflexivity. }
      cbn [table.Title]. do 2 f_equal. simpl.
      rewrite list_lookup_fmap.
      apply lookup_lt_Some in Hi.
      destruct (decide (i < length first)%nat) as [Hlt|Hge].
      * rewrite lookup_resize by done.
        destruct (lookup_lt_is_Some_2 first i Hlt) as [v Hv]. by rewrite Hv.
      * rewrite lookup_resize_new by lia.
        rewrite (lookup_ge_None_2 first i) by lia. done.
Qed.

(** In the pivot view the table has the columns [column] and [val],
    and the aliases of the query are keyed by the names of its own
    columns: unless one of them is keyed [COLUMN] or [VAL], Enter on a
    row of the pivot writes nothing to the column config. *)
Theorem Update_enter_in_pivot_view_saves_no_column :
  forall (m : Model) (w : World) (stored : list ConfigRow),
    textinput.Focused (textInput m) = false ->
    is_Some (items (sqliteDB w)) ->
    config (sqliteDB w) = Some stored ->
    map table.Title (table.Columns (table m)) = ["column"; "val"] ->
    aliases m !! "COLUMN" = None ->
    aliases m !! "VAL" = None ->
    let '(m', cmd, w') := Update m (tea.KeyMsg "enter") w in
    config (sqliteDB w') = Some stored /\ cmd = None /\ m' = m.
Proof.
  intros m w stored Hfocus Hitems Hconfig Hcols Hc Hv.
  rewrite (Update_enter_table m w Hfocus).
  destruct (SaveConfigFromTable_steps (itemName m) (idDB m) (uid m)
              (table.SelectedRow (table m)) (table.Columns (table m))
              (aliases m) stored w Hitems Hconfig)
    as (id & t1 & r & Ht1 & Hr & Hn & Hget & Hc1 & Hi1 & ->).
  assert (Hnone : aliasWrites id (uid m) (table.SelectedRow (table m))
                    (aliases m) 0 (table.Columns (table m)) = []).
  { destruct (aliasWrites id (uid m) (table.SelectedRow (table m))
                (aliases m) 0 (table.Columns (table m))) as [|x xs] eqn:E;
      [done|]. exfalso.
    assert (Hcell : aliasedCell (table.SelectedRow (table m)) (aliases m)
                      (table.Columns (table m))).
    { apply (aliasedCell_aliasWrites id (uid m)). by rewrite E. }
    destruct Hcell as (i & col & value & alias & Hi & _ & Ha).
    assert (Ht : map table.Title (table.Columns (table m)) !! i
                 = Some (table.Title col)) by (by rewrite list_lookup_fmap, Hi).
    rewrite Hcols in Ht.
    destruct i as [|[|i]]; simpl in Ht; [| |done]; injection Ht as Ht;
      rewrite <- Ht in Ha;
      [change (ToUpper unicode_MapUpper "column") with "COLUMN" in Ha
      |change (ToUpper unicode_MapUpper "val") with "VAL" in Ha];
      congruence. }
  rewrite Hnone. cbn [upsertAll foldl].
  destruct (SaveInstance_frame (idQuery m)
              (rowDigest (table.SelectedRow (table m))) (uid m)
              (textinput.Value (textInput m))
              (withConfig stored
                 (InsertItemIfNotExists (itemName m) (idDB m) w).2))
    as [Hfc _].
  split; [|done]. by rewrite Hfc.
Qed.

(** ** Startup *)

Lemma setWorld_id (h : Host) : setWorld (world h) h = h.
Proof. by destruct h. Qed.

Lemma lift_read {A} (m : IO A) (h : Host) :
  (m (world h)).2 = world h -> lift m h = ((m (world h)).1, h).
Proof.
  intros H. unfold lift. destruct (m (world h)) as [r w]. simpl in H.
  subst w. by rewrite setWorld_id.
Qed.

Lemma selectDbs_host {A} (p : DbsRow -> bool) (column : DbsRow -> Result A)
    (h : Host) :
  (selectDbs p column h).2 = h.
Proof. unfold selectDbs. destruct (dbs h) as [t|]; [|done]. by destruct (find p t). Qed.

Lemma GetItemID_world (item : string) (w : World) : (GetItemID item w).2 = w.
Proof.
  unfold GetItemID, noSuchTable, fail, ret.
  destruct (items (sqliteDB w)); [|done]. by destruct (find _ _).
Qed.

Lemma GetQueryID_world (name : string) (w : World) : (GetQueryID name w).2 = w.
Proof.
  unfold GetQueryID, noSuchTable, fail, ret.
  destruct (queries (sqliteDB w)); [|done]. by destruct (find _ _).
Qed.

Lemma GetQueryFromDB_world (name : string) (w : World) :
  (GetQueryFromDB name w).2 = w.
Proof.
  unfold GetQueryFromDB, noSuchTable, fail, ret.
  destruct (queries (sqliteDB w)); [|done]. by destruct (find _ _).
Qed.

Lemma read_pair {A S} (r : Result A * S) (a : Result A) (s : S) :
  r.1 = a -> r.2 = s -> r = (a, s).
Proof. destruct r. simpl. by intros -> ->. Qed.

(** What a successful [main] went through. *)
Lemma main_Ok (f : Flags) (h h' : Host) (m : Model) :
  main f h = (Ok m, h') ->
  f_item f <> "" /\ f_sql f <> "" /\ f_db f <> ""
  /\ exists h1 idDB idItem idQuery driver connectionString query0 query
            widths als stored answers w2,
       Init h = (Ok tt, h1)
       /\ GetDBID (f_db f) h1 = (Ok idDB, h1)
       /\ GetItemID (f_item f) (world h1) = (Ok idItem, world h1)
       /\ GetQueryID (f_sql f) (world h1) = (Ok idQuery, world h1)
       /\ GetDBDriverByID idDB h1 = (Ok driver, h1)
       /\ GetConnectionStringByID idDB h1 = (Ok connectionString, h1)
       /\ GetQueryFromDB (f_sql f) (world h1) = (Ok query0, world h1)
       /\ (if bool_decide (f_args f = "") then query = query0
           else exists data, argsFile h1 (f_args f) = Ok data
                             /\ query = substitute query0 data)
       /\ GetQueryConfig (f_sql f) (world h1)
          = (Ok (widths, als, stored), world h1)
       /\ databases h1 driver connectionString = Ok answers
       /\ main_model f query idDB idQuery widths als stored
            (setBackend answers (world h1)) = (Ok m, w2)
       /\ h' = setWorld w2 h1.
Proof.
  intros Hmain. unfold main in Hmain.
  destruct (bool_decide (f_item f = "")) eqn:E1; [discriminate|].
  destruct (bool_decide (f_sql f = "")) eqn:E2; [discriminate|].
  destruct (bool_decide (f_db f = "")) eqn:E3; [discriminate|].
  apply bool_decide_eq_false in E1, E2, E3.
  do 3 (split; [done|]).
  unfold andThen at 1 in Hmain.
  destruct (Init h) as [[[]|e] h1] eqn:HI; [|discriminate].
  unfold andThen at 1 in Hmain.
  pose proof (selectDbs_host
                (fun r => bool_decide
                            (d_name r = Some (sqlite_numeric (f_db f))))
                (fun r => Ok (d_id r)) h1) as Hh.
  fold (GetDBID (f_db f)) in Hh.
  destruct (GetDBID (f_db f) h1) as [[idDB|e] h2] eqn:H1; [|discriminate].
  cbn [snd] in Hh. subst h2.
  unfold andThen at 1 in Hmain.
  rewrite (lift_read (GetItemID (f_item f)) h1 (GetItemID_world _ _)) in Hmain.
  destruct (GetItemID (f_item f) (world h1)).1 as [idItem|e] eqn:H2;
    [|discriminate].
  unfold andThen at 1 in Hmain.
  rewrite (lift_read (GetQueryID (f_sql f)) h1 (GetQueryID_world _ _)) in Hmain.
  destruct (GetQueryID (f_sql f) (world h1)).1 as [idQuery_|e] eqn:H3;
    [|discriminate].
  unfold andThen at 1 in Hmain.
  pose proof (selectDbs_host (fun r => bool_decide (d_id r = idDB))
                (fun r => Ok (d_driver r)) h1) as Hh.
  fold (GetDBDriverByID idDB) in Hh.
  destruct (GetDBDriverByID idDB h1) as [[driver|e] h2] eqn:H4;
    [|discriminate].
  cbn [snd] in Hh. subst h2.
  unfold andThen at 1 in Hmain.
  pose proof (selectDbs_host (fun r => bool_decide (d_id r = idDB))
                (fun r => scanString "connect" (d_connect r)) h1) as Hh.
  fold (GetConnectionStringByID idDB) in Hh.
  destruct (GetConnectionStringByID idDB h1) as [[cs|e] h2] eqn:H5;
    [|discriminate].
  cbn [snd] in Hh. subst h2.
  unfold andThen at 1 in Hmain.
  rewrite (lift_read (GetQueryFromDB (f_sql f)) h1 (GetQueryFromDB_world _ _))
    in Hmain.
  destruct (GetQueryFromDB (f_sql f) (world h1)).1 as [query0|e] eqn:H6;
    [|discriminate].
  unfold andThen at 1 in Hmain.
  assert (Hrest : forall query,
    (if bool_decide (f_args f = "") then query = query0
     else exists data, argsFile h1 (f_args f) = Ok data
                       /\ query = substitute query0 data) ->
    (config <~ lift (GetQueryConfig (f_sql f)) ;;
     let '(widths, aliases, tblHeight) := config in
     Connect driver cs ;;~
     lift (main_model f query idDB idQuery_ widths aliases tblHeight)) h1
    = (Ok m, h') ->
    exists query widths als stored answers w2,
      (if bool_decide (f_args f = "") then query = query0
       else exists data, argsFile h1 (f_args f) = Ok data
                         /\ query = substitute query0 data)
      /\ GetQueryConfig (f_sql f) (world h1)
         = (Ok (widths, als, stored), world h1)
      /\ databases h1 driver cs = Ok answers
      /\ main_model f query idDB idQuery_ widths als stored
           (setBackend answers (world h1)) = (Ok m, w2)
      /\ h' = setWorld w2 h1).
  { intros query Hquery Hrun. unfold andThen at 1 in Hrun.
    rewrite (lift_read (GetQueryConfig (f_sql f)) h1
               (GetQueryConfig_world _ _)) in Hrun.
    destruct (GetQueryConfig (f_sql f) (world h1)).1
      as [[[widths als] stored]|e] eqn:H7; [|discriminate].
    unfold andThen, Connect in Hrun.
    destruct (databases h1 driver cs) as [answers|e] eqn:H8; [|discriminate].
    unfold lift in Hrun. cbn [world setWorld] in Hrun.
    destruct (main_model f query idDB idQuery_ widths als stored
                (setBackend answers (world h1))) as [r w2] eqn:H9.
    injection Hrun as -> <-.
    exists query, widths, als, stored, answers, w2.
    split; [done|].
    split; [apply read_pair; [done|apply GetQueryConfig_world]|].
    done. }
  assert (Hfound : exists query widths als stored answers w2,
      (if bool_decide (f_args f = "") then query = query0
       else exists data, argsFile h1 (f_args f) = Ok data
                         /\ query = substitute query0 data)
      /\ GetQueryConfig (f_sql f) (world h1)
         = (Ok (widths, als, stored), world h1)
      /\ databases h1 driver cs = Ok answers
      /\ main_model f query idDB idQuery_ widths als stored
           (setBackend answers (world h1)) = (Ok m, w2)
      /\ h' = setWorld w2 h1).
  { destruct (bool_decide (f_args f = "")) eqn:Ea.
    - apply (Hrest query0); [done|]. exact Hmain.
    - destruct (argsFile h1 (f_args f)) as [data|e] eqn:Hd; [|discriminate].
      apply (Hrest (substitute query0 data)); [by exists data|].
      exact Hmain. }
  destruct Hfound as (query & widths & als & stored & answers & w2 & Hq & H7
                      & H8 & H9 & ->).
  exists h1, idDB, idItem, idQuery_, driver, cs, query0, query, widths, als,
    stored, answers, w2.
  split; [done|]. split; [done|].
  split; [apply read_pair; [done|apply GetItemID_world]|].
  split; [apply read_pair; [done|apply GetQueryID_world]|].
  split; [done|]. split; [done|].
  split; [apply read_pair; [done|apply GetQueryFromDB_world]|].
  done.
Qed.

Lemma GetFilterByUID_world (token : string) (q : Z) (w : World) :
  (GetFilterByUID token q w).2 = w.
Proof.
  unfold GetFilterByUID, noSuchTable, fail, ret.
  destruct (instance (sqliteDB w)); [|done]. by destruct (selectInstance _ _ _).
Qed.

Lemma GetHashByUID_world (token : string) (q : Z) (w : World) :
  (GetHashByUID token q w).2 = w.
Proof.
  unfold GetHashByUID, noSuchTable, fail, ret.
  destruct (instance (sqliteDB w)); [|done]. by destruct (selectInstance _ _ _).
Qed.

Lemma GetContent_world (q : string) (w : World) :
  (GetContent q w).2 = logQuery q w.
Proof. unfold GetContent. by destruct (backend w q). Qed.

(** [main_model], step by step. *)
Lemma main_model_run (f : Flags) (q : string) (idDB_ idQuery_ : Z)
    (widths : gmap string Z) (als : gmap string string) (stored : Z)
    (w : World) :
  main_model f q idDB_ idQuery_ widths als stored w
  = let w1 := logQuery q w in
    match (GetContent q w).1 with
    | Err e => (Err e, w1)
    | Ok (rows0, cols0) =>
        if ((length rows0 =? 0)%nat || (length cols0 =? 0)%nat)%bool then
          (Err (ErrorString "exit status 1"), w1)
        else
          let text := startFilter f idQuery_ w1 in
          let m0 :=
            NewModel
              (table.New (applyColumnWidths cols0 widths als) rows0 true)
              (if bool_decide (text = "") then textinput.New
               else textinput_SetValue text textinput.New)
              (f_item f) (f_sql f) q idDB_ idQuery_
              (startHeight stored (length rows0)) als text (f_uid f) "" in
          let m1 :=
            if bool_decide (text = "") then m0
            else match (FilterContent m0 text w1).1 with
                 | Ok (row :: rows, cols) =>
                     SetTable (table.SetColumns cols
                                 (table.SetRows (row :: rows) (table m0))) m0
                 | _ => m0
                 end in
          let w2 := if bool_decide (text = "") then w1
                    else logQuery (composedQuery q text) w1 in
          let m2 :=
            if bool_decide (f_uid f = "") then m1
            else match (GetHashByUID (f_uid f) idQuery_ w2).1 with
                 | Ok hash => SelectRowByHash hash m1
                 | Err _ => m1
                 end in
          (Ok m2, w2)
    end.
Proof.
  unfold main_model, bind. cbv zeta.
  pose proof (GetContent_world q w) as Hw1.
  destruct (GetContent q w) as [[[rows0 cols0]|e] w1]; cbn [fst snd] in *;
    subst w1; [|done].
  destruct ((length rows0 =? 0)%nat || (length cols0 =? 0)%nat)%bool; [done|].
  set (w1 := logQuery q w).
  assert (Hfilter :
    (if (bool_decide (f_filter f = "")
         && negb (bool_decide (f_uid f = "")))%bool
     then match GetFilterByUID (f_uid f) idQuery_ w1 with
          | (Ok loadedFilter, w0) =>
              (if bool_decide (loadedFilter = "") then f_filter f
               else loadedFilter, w0)
          | (Err _, w0) => (f_filter f, w0)
          end
     else (f_filter f, w1))
    = (startFilter f idQuery_ w1, w1)).
  { unfold startFilter.
    pose proof (GetFilterByUID_world (f_uid f) idQuery_ w1) as Hw.
    destruct (bool_decide (f_filter f = "")) eqn:Ef; [|done].
    apply bool_decide_eq_true in Ef.
    destruct (bool_decide (f_uid f = "")); cbn [andb negb]; [by rewrite Ef|].
    destruct (GetFilterByUID (f_uid f) idQuery_ w1) as [[s|e] w0];
      cbn [fst snd] in *; subst w0; [|by rewrite Ef].
    destruct (bool_decide (s = "")) eqn:Es; [|done].
    apply bool_decide_eq_true in Es. by rewrite Ef, Es. }
  rewrite Hfilter. set (text := startFilter f idQuery_ w1).
  set (m0 := NewModel _ _ (f_item f) (f_sql f) q idDB_ idQuery_ _ als text
               (f_uid f) "").
  assert (Hshown :
    (if bool_decide (text = "") then (m0, w1)
     else match FilterContent m0 text w1 with
          | (Ok (rows, cols), w0) =>
              if (0 <? length rows)%nat then
                (SetTable (table.SetColumns cols
                             (table.SetRows rows
                                (table.New (applyColumnWidths cols0 widths als)
                                   rows0 true))) m0, w0)
              else (m0, w0)
          | (Err _, w0) => (m0, w0)
          end)
    = (if bool_decide (text = "") then m0
       else match (FilterContent m0 text w1).1 with
            | Ok (row :: rows, cols) =>
                SetTable (table.SetColumns cols
                            (table.SetRows (row :: rows) (table m0))) m0
            | _ => m0
            end,
       if bool_decide (text = "") then w1
       else logQuery (composedQuery q text) w1)).
  { destruct (bool_decide (text = "")); [done|].
    pose proof (FilterContent_world m0 text w1) as Hw.
    destruct (FilterContent m0 text w1) as [[[rows cols]|e] w0];
      cbn [fst snd] in *; subst w0; [|done].
    by destruct rows. }
  rewrite Hshown.
  set (m1 := if bool_decide (text = "") then m0 else _).
  set (w2 := if bool_decide (text = "") then w1 else _).
  destruct (bool_decide (f_uid f = "")); [done|].
  pose proof (GetHashByUID_world (f_uid f) idQuery_ w2) as Hw.
  destruct (GetHashByUID (f_uid f) idQuery_ w2) as [[hash|e] w0];
    cbn [fst snd] in *; by subst w0.
Qed.

(** [FilterContent] looks at the name, the query and the view of the
    model only. *)
Lemma FilterContent_ext (m m' : Model) (raw : string) (w : World) :
  sqlName m' = sqlName m -> sqlQuery m' = sqlQuery m -> view m' = view m ->
  FilterContent m' raw w = FilterContent m raw w.
Proof.
  intros Hn Hq Hv. rewrite !FilterContent_run. cbv zeta.
  unfold present, displayConfig. by rewrite Hn, Hq, Hv.
Qed.

Lemma findRowByHash_lt (hash : string) (rows : list (list string)) (j : nat) :
  findRowByHash hash 0 rows = Some j -> (j < length rows)%nat.
Proof.
  intros Hj. pose proof (findRowByHash_spec hash rows 0) as H.
  rewrite Hj in H. destruct H as (k & r & -> & Hk & _).
  by apply lookup_lt_Some in Hk.
Qed.

(** [SelectRowByHash] moves the cursor and nothing else. *)
Lemma SelectRowByHash_keeps (hash : string) (m : Model) :
  sessionFields (SelectRowByHash hash m) = sessionFields m
  /\ filter_ (SelectRowByHash hash m) = filter_ m
  /\ textInput (SelectRowByHash hash m) = textInput m
  /\ table.Rows (table (SelectRowByHash hash m)) = table.Rows (table m)
  /\ table.Columns (table (SelectRowByHash hash m))
     = table.Columns (table m)
  /\ table.Focused (table (SelectRowByHash hash m))
     = table.Focused (table m)
  /\ table.cursor (table (SelectRowByHash hash m))
     = match findRowByHash hash 0 (table.Rows (table m)) with
       | Some j => Z.of_nat j
       | None => table.cursor (table m)
       end.
Proof.
  unfold SelectRowByHash.
  destruct (findRowByHash hash 0 (table.Rows (table m))) as [j|] eqn:Hj;
    [|done].
  do 6 (split; [done|]). apply findRowByHash_lt in Hj.
  unfold table.Rows in Hj. cbn [table SetTable table.cursor table.SetCursor].
  unfold table.clamp. lia.
Qed.

(** The model of a successful startup. *)
Lemma main_model_Ok (f : Flags) (q : string) (idDB_ idQuery_ : Z)
    (widths : gmap string Z) (als : gmap string string) (stored : Z)
    (w w' : World) (m : Model) :
  main_model f q idDB_ idQuery_ widths als stored w = (Ok m, w') ->
  exists rows0 cols0,
    (GetContent q w).1 = Ok (rows0, cols0) /\ rows0 <> [] /\ cols0 <> []
    /\ let w1 := logQuery q w in
       let text := startFilter f idQuery_ w1 in
       sessionFields m
       = (f_item f, f_sql f, q, idDB_, idQuery_,
          startHeight stored (length rows0), als, text, f_uid f, "")
       /\ filter_ m = text
       /\ textInput m = (if bool_decide (text = "") then textinput.New
                         else textinput_SetValue text textinput.New)
       /\ w' = (if bool_decide (text = "") then w1
                else logQuery (composedQuery q text) w1)
       /\ (table.Rows (table m), table.Columns (table m))
          = match (if bool_decide (text = "") then None
                   else Some (FilterContent m text w1).1) with
            | Some (Ok (row :: rows, cols)) => (row :: rows, cols)
            | _ => (rows0, applyColumnWidths cols0 widths als)
            end
       /\ table.Focused (table m) = true
       /\ table.cursor (table m)
          = (if bool_decide (f_uid f = "") then 0
             else match (GetHashByUID (f_uid f) idQuery_ w').1 with
                  | Ok hash =>
                      match findRowByHash hash 0 (table.Rows (table m)) with
                      | Some j => Z.of_nat j
                      | None => 0
                      end
                  | Err _ => 0
                  end).
Proof.
  rewrite main_model_run. cbv zeta.
  destruct (GetContent q w).1 as [[rows0 cols0]|e]; [|discriminate].
  destruct (length rows0 =? 0)%nat eqn:Er; [discriminate|].
  destruct (length cols0 =? 0)%nat eqn:Ec; [discriminate|].
  cbn [orb]. intros Hrun. exists rows0, cols0. split; [done|].
  split; [by destruct rows0|]. split; [by destruct cols0|].
  set (w1 := logQuery q w) in *.
  set (text := startFilter f idQuery_ w1) in *.
  set (m0 := NewModel _ _ (f_item f) (f_sql f) q idDB_ idQuery_ _ als text
               (f_uid f) "") in *.
  set (m1 := if bool_decide (text = "") then m0 else _) in *.
  set (w2 := if bool_decide (text = "") then w1 else _) in *.
  assert (H1 : sessionFields m1 = sessionFields m0
               /\ filter_ m1 = filter_ m0 /\ textInput m1 = textInput m0
               /\ table.Focused (table m1) = true
               /\ table.cursor (table m1) = 0
               /\ (table.Rows (table m1), table.Columns (table m1))
                  = match (if bool_decide (text = "") then None
                           else Some (FilterContent m0 text w1).1) with
                    | Some (Ok (row :: rows, cols)) => (row :: rows, cols)
                    | _ => (rows0, applyColumnWidths cols0 widths als)
                    end).
  { unfold m1. destruct (bool_decide (text = "")); [done|].
    destruct (FilterContent m0 text w1).1 as [[[|row rows] cols]|e]; try done.
    do 4 (split; [done|]). split; [|done].
    cbn [table SetTable table.cursor table.SetColumns table.SetRows m0
         NewModel table.New length].
    match goal with |- context [?a <? ?b] => destruct (Z.ltb_spec a b) end;
      lia. }
  destruct H1 as (Hf1 & Hfi1 & Hti1 & Hfo1 & Hc1 & Hd1).
  assert (H2 : exists m2,
    m2 = m /\ sessionFields m2 = sessionFields m1
    /\ filter_ m2 = filter_ m1 /\ textInput m2 = textInput m1
    /\ table.Rows (table m2) = table.Rows (table m1)
    /\ table.Columns (table m2) = table.Columns (table m1)
    /\ table.Focused (table m2) = table.Focused (table m1)
    /\ table.cursor (table m2)
       = (if bool_decide (f_uid f = "") then 0
          else match (GetHashByUID (f_uid f) idQuery_ w2).1 with
               | Ok hash =>
                   match findRowByHash hash 0 (table.Rows (table m1)) with
                   | Some j => Z.of_nat j
                   | None => 0
                   end
               | Err _ => 0
               end)
    /\ w' = w2).
  { injection Hrun as Hm Hw. eexists. split; [exact Hm|].
    destruct (bool_decide (f_uid f = "")); [by rewrite Hc1|].
    destruct (GetHashByUID (f_uid f) idQuery_ w2).1 as [hash|e];
      [|by rewrite Hc1].
    destruct (SelectRowByHash_keeps hash m1)
      as (E1 & E2 & E3 & E4 & E5 & E6 & E7).
    rewrite E7, Hc1. done. }
  destruct H2 as (m2 & <- & Hf2 & Hfi2 & Hti2 & Hr2 & Hco2 & Hfo2 & Hc2 & ->).
  cbv zeta. split; [by rewrite Hf2, Hf1|]. split; [by rewrite Hfi2, Hfi1|].
  split; [by rewrite Hti2, Hti1|]. split; [done|]. split.
  { rewrite Hr2, Hco2, Hd1.
    destruct (bool_decide (text = "")); [done|].
    rewrite (FilterContent_ext m0 m2 text w1); [done|..].
    - assert (E : sessionFields m2 = sessionFields m0) by congruence.
      unfold sessionFields in E. congruence.
    - assert (E : sessionFields m2 = sessionFields m0) by congruence.
      unfold sessionFields in E. congruence.
    - assert (E : sessionFields m2 = sessionFields m0) by congruence.
      unfold sessionFields in E. congruence. }
  split; [by rewrite Hfo2|]. by rewrite Hc2, Hr2.
Qed.

(** What is read from the local store depends on the store only. *)
Lemma reads_of_store (w w' : World) :
  sqliteDB w' = sqliteDB w ->
  (forall token q, (GetFilterByUID token q w').1 = (GetFilterByUID token q w).1)
  /\ (forall token q, (GetHashByUID token q w').1 = (GetHashByUID token q w).1)
  /\ (forall item, (GetItemID item w').1 = (GetItemID item w).1)
  /\ (forall name, (GetQueryID name w').1 = (GetQueryID name w).1)
  /\ (forall name, (GetQueryConfig name w').1 = (GetQueryConfig name w).1).
Proof.
  intros Hs.
  unfold GetFilterByUID, GetHashByUID, GetItemID, GetQueryID, GetQueryConfig,
    noSuchTable, fail, ret.
  rewrite Hs. repeat split; intros; repeat case_match; done.
Qed.

Lemma FilterContent_of_store (m : Model) (raw : string) (w w' : World) :
  sqliteDB w' = sqliteDB w -> backend w' = backend w ->
  (FilterContent m raw w').1 = (FilterContent m raw w).1.
Proof.
  intros Hs Hb. rewrite !FilterContent_run. cbv zeta.
  destruct (reads_of_store w w' Hs) as (_ & _ & _ & _ & Hc).
  unfold displayConfig, GetContent. rewrite Hc, Hb.
  by destruct (backend w _).
Qed.

Lemma GetContent_Ok (q : string) (w : World) (rows0 : list table.Row)
    (cols0 : list table.Column) :
  (GetContent q w).1 = Ok (rows0, cols0) ->
  exists rs,
    backend w q = Ok rs
    /\ rows0 = map (fun values =>
                      map render (resize (length (rs_columns rs)) VNil values))
                   (rs_rows rs)
    /\ cols0 = map (fun col => {| table.Title := ToUpper unicode_MapUpper col;
                                  table.Width := 20 |}) (rs_columns rs).
Proof.
  unfold GetContent. destruct (backend w q) as [rs|e]; [|discriminate].
  cbn [fst]. intros [= <- <-]. by exists rs.
Qed.

Lemma startup_world (q text : string) (answers : string -> Result ResultSet)
    (w : World) :
  let w' := if bool_decide (text = "") then logQuery q (setBackend answers w)
            else logQuery (composedQuery q text)
                   (logQuery q (setBackend answers w)) in
  sqliteDB w' = sqliteDB w /\ backend w' = answers
  /\ entropy w' = entropy w /\ drawn w' = drawn w.
Proof. by destruct (bool_decide (text = "")). Qed.

(** A session starts on a row: the model [main] hands to the runtime
    has at least one row, which is why a query without rows cannot be
    opened; its cursor is on a row, the table is focused, the item and
    the query of the command line exist in the local store, and the
    backend answers the query of the model with at least one row and
    one column. *)
Theorem main_starts_on_a_row :
  forall (f : Flags) (h h' : Host) (m : Model),
    main f h = (Ok m, h') ->
    table.Rows (table m) <> []
    /\ 0 <= table.cursor (table m) < Z.of_nat (length (table.Rows (table m)))
    /\ table.SelectedRow (table m) ∈ table.Rows (table m)
    /\ table.Focused (table m) = true
    /\ itemName m = f_item f /\ sqlName m = f_sql f /\ uid m = f_uid f
    /\ view m = "" /\ filter_ m = initialFilter m
    /\ (exists id, GetItemID (itemName m) (world h') = (Ok id, world h'))
    /\ GetQueryID (sqlName m) (world h') = (Ok (idQuery m), world h')
    /\ exists rs, backend (world h') (sqlQuery m) = Ok rs
                  /\ rs_rows rs <> [] /\ rs_columns rs <> [].
Proof.
  intros f h h' m Hmain.
  destruct (main_Ok f h h' m Hmain)
    as (_ & _ & _ & h1 & idDB_ & idItem & idQuery_ & driver & cs & q0 & q
        & widths & als & stored & answers & w2 & HI & H1 & H2 & H3 & H4 & H5
        & H6 & Hq & H7 & H8 & H9 & ->).
  destruct (main_model_Ok _ _ _ _ _ _ _ _ _ _ H9)
    as (rows0 & cols0 & Hc & Hr0 & Hc0 & Hf & Hfi & Hti & Hw & Hd & Hfo & Hcu).
  cbv zeta in *. unfold sessionFields in Hf.
  injection Hf as Ei En Eq Edb Eid Eh Ea Eif Eu Ev.
  set (text := startFilter f idQuery_ _) in *.
  destruct (startup_world q text answers (world h1)) as (Hs & Hb & _).
  rewrite <- Hw in Hs, Hb.
  assert (Hrows : table.Rows (table m) <> []).
  { destruct (if bool_decide (text = "") then None else _)
      as [[[[|row rows] cols]|e]|]; injection Hd as -> _; done. }
  assert (Hcur : 0 <= table.cursor (table m)
                 < Z.of_nat (length (table.Rows (table m)))).
  { assert (0 < length (table.Rows (table m)))%nat
      by (destruct (table.Rows (table m)); [done|simpl; lia]).
    rewrite Hcu. destruct (bool_decide (f_uid f = "")); [lia|].
    destruct (GetHashByUID _ _ _).1 as [hash|e]; [|lia].
    destruct (findRowByHash hash 0 (table.Rows (table m))) as [j|] eqn:Hj;
      [|lia]. apply findRowByHash_lt in Hj. lia. }
  split; [done|]. split; [done|]. split.
  { unfold table.SelectedRow. unfold table.Rows in *.
    destruct (Z.ltb_spec (table.cursor (table m)) 0); [lia|].
    destruct (Z.leb_spec (Z.of_nat (length (table.rows (table m))))
                (table.cursor (table m))); [lia|].
    cbn [orb].
    destruct (lookup_lt_is_Some_2 (table.rows (table m))
                (Z.to_nat (table.cursor (table m)))) as [r Hr]; [lia|].
    rewrite Hr. cbn [default from_option id].
    apply list_elem_of_lookup. eauto. }
  split; [done|]. do 4 (split; [done|]). split; [congruence|].
  cbn [world setWorld].
  destruct (reads_of_store (world h1) w2 Hs) as (_ & _ & Hitem & Hquery & _).
  split; [|split].
  - exists idItem. apply read_pair; [|apply GetItemID_world].
    by rewrite Ei, Hitem, H2.
  - apply read_pair; [|apply GetQueryID_world].
    by rewrite En, Eid, Hquery, H3.
  - apply GetContent_Ok in Hc as (rs & Hrs & -> & ->).
    exists rs. rewrite Hb, Eq. split; [done|].
    split; intros E; rewrite E in *; done.
Qed.

Lemma andThen_kept {A B} (m : Boot A) (k : A -> Boot B) (h0 h : Host) :
  hostKept h0 (m h).2 ->
  (forall a h1, hostKept h0 h1 -> hostKept h0 (k a h1).2) ->
  hostKept h0 (andThen m k h).2.
Proof.
  intros Hm Hk. unfold andThen. destruct (m h) as [[a|e] h1]; [|done].
  by apply Hk.
Qed.

Lemma selectDbs_kept {A} (p : DbsRow -> bool) (column : DbsRow -> Result A)
    (h0 h : Host) :
  hostKept h0 h -> hostKept h0 (selectDbs p column h).2.
Proof. by rewrite selectDbs_host. Qed.

Lemma lift_kept {A} (m : IO A) (h0 h : Host) :
  sqliteDB (m (world h)).2 = sqliteDB (world h) ->
  entropy (m (world h)).2 = entropy (world h) ->
  drawn (m (world h)).2 = drawn (world h) ->
  hostKept h0 h -> hostKept h0 (lift m h).2.
Proof.
  unfold hostKept, lift. intros Hs He Hd (H1 & H2 & H3 & H4).
  destruct (m (world h)) as [r w]. cbn [fst snd world dbs setWorld] in *.
  repeat split; congruence.
Qed.

Lemma main_model_kept (f : Flags) (q : string) (idDB_ idQuery_ : Z)
    (widths : gmap string Z) (als : gmap string string) (stored : Z)
    (w : World) :
  let w' := (main_model f q idDB_ idQuery_ widths als stored w).2 in
  sqliteDB w' = sqliteDB w /\ entropy w' = entropy w /\ drawn w' = drawn w.
Proof.
  rewrite main_model_run. cbv zeta.
  destruct (GetContent q w).1 as [[rows0 cols0]|e]; [|done].
  destruct (_ || _)%bool; [done|]. cbn [snd].
  by destruct (bool_decide (startFilter f idQuery_ (logQuery q w) = "")).
Qed.

Lemma main_kept (f : Flags) (h : Host) :
  (main f h).2 = h \/ hostKept (Init h).2 (main f h).2.
Proof.
  unfold main.
  destruct (bool_decide (f_item f = "")); [by left|].
  destruct (bool_decide (f_sql f = "")); [by left|].
  destruct (bool_decide (f_db f = "")); [by left|].
  right. unfold andThen at 1.
  destruct (Init h) as [[[]|e] h1]; cbn [snd]; [|done].
  assert (Hrefl : hostKept h1 h1) by done.
  apply andThen_kept; [by apply selectDbs_kept|]. intros idDB_ h2 H2.
  apply andThen_kept.
  { apply lift_kept; try done; by rewrite GetItemID_world. }
  intros idItem h3 H3. apply andThen_kept.
  { apply lift_kept; try done; by rewrite GetQueryID_world. }
  intros idQuery_ h4 H4.
  apply andThen_kept; [by apply selectDbs_kept|]. intros driver h5 H5.
  apply andThen_kept; [by apply selectDbs_kept|]. intros cs h6 H6.
  apply andThen_kept.
  { apply lift_kept; try done; by rewrite GetQueryFromDB_world. }
  intros q0 h7 H7. apply andThen_kept.
  { destruct (bool_decide (f_args f = "")); [done|].
    by destruct (argsFile h7 (f_args f)). }
  intros q h8 H8. apply andThen_kept.
  { apply lift_kept; try done; by rewrite GetQueryConfig_world. }
  intros [[widths als] stored] h9 H9. apply andThen_kept.
  { unfold Connect. destruct (databases h9 driver cs); [|done].
    cbn [snd]. unfold hostKept in *. by cbn [dbs world setWorld setBackend
      sqliteDB entropy drawn]. }
  intros [] h10 H10.
  destruct (main_model_kept f q idDB_ idQuery_ widths als stored (world h10))
    as (Hs & He & Hd).
  by apply lift_kept.
Qed.

Lemma Init_kept (h : Host) :
  let h1 := (Init h).2 in
  keptOrCreated (dbs h) (dbs h1)
  /\ keptOrCreated (items (sqliteDB (world h))) (items (sqliteDB (world h1)))
  /\ keptOrCreated (config (sqliteDB (world h)))
       (config (sqliteDB (world h1)))
  /\ keptOrCreated (queries (sqliteDB (world h)))
       (queries (sqliteDB (world h1)))
  /\ keptOrCreated (instance (sqliteDB (world h)))
       (instance (sqliteDB (world h1)))
  /\ items_seq (sqliteDB (world h1)) = items_seq (sqliteDB (world h))
  /\ entropy (world h1) = entropy (world h)
  /\ drawn (world h1) = drawn (world h).
Proof.
  unfold Init, keptOrCreated.
  destruct h as [[[its sq cf qs ins] bk ex en dr] ds pa ar da].
  cbn [world sqliteDB dbs dbPath items items_seq config queries instance
       setStore backend executed entropy drawn].
  destruct pa as [path|e]; cbn [snd world sqliteDB dbs];
    [|repeat split; by left].
  destruct qs as [qs|], its as [its|], cf as [cf|], ins as [ins|],
    ds as [ds|];
    cbn [world sqliteDB dbs dbPath items items_seq config queries instance
         setStore backend executed entropy drawn createIfNotExists];
    repeat split; try (by left); by right.
Qed.

(** Starting [tel] writes no row: whatever the command line and the
    outcome, each table of the local store is afterwards what it was,
    or has been created empty; no item id has been allocated and no
    random byte drawn. *)
Theorem main_writes_no_row :
  forall (f : Flags) (h : Host),
    let h' := (main f h).2 in
    keptOrCreated (dbs h) (dbs h')
    /\ keptOrCreated (items (sqliteDB (world h))) (items (sqliteDB (world h')))
    /\ keptOrCreated (config (sqliteDB (world h)))
         (config (sqliteDB (world h')))
    /\ keptOrCreated (queries (sqliteDB (world h)))
         (queries (sqliteDB (world h')))
    /\ keptOrCreated (instance (sqliteDB (world h)))
         (instance (sqliteDB (world h')))
    /\ items_seq (sqliteDB (world h')) = items_seq (sqliteDB (world h))
    /\ entropy (world h') = entropy (world h)
    /\ drawn (world h') = drawn (world h).
Proof.
  intros f h h'. subst h'.
  destruct (main_kept f h) as [->|(Hd & Hs & He & Hdr)].
  - unfold keptOrCreated. repeat split; by left.
  - rewrite Hd, Hs, He, Hdr. apply Init_kept.
Qed.

(** [main] talks to the database named on the command line: with
    unique ids in the table of databases, the backend of a started
    session is the database behind the driver and the connection string
    of the row named by [-db], whose id is the one the model keeps. *)
Theorem main_connects_named_database :
  forall (f : Flags) (h h' : Host) (m : Model),
    (forall t, dbs h = Some t -> uniqueKeys d_id t) ->
    main f h = (Ok m, h') ->
    exists t r connectionString answers,
      dbs h = Some t /\ r ∈ t
      /\ d_name r = Some (sqlite_numeric (f_db f))
      /\ d_connect r = Some connectionString
      /\ databases h (d_driver r) connectionString = Ok answers
      /\ backend (world h') = answers
      /\ idDB m = d_id r.
Proof.
  intros f h h' m Hu Hmain.
  destruct (main_Ok f h h' m Hmain)
    as (_ & _ & _ & h1 & idDB_ & idItem & idQuery_ & driver & cs & q0 & q
        & widths & als & stored & answers & w2 & HI & H1 & H2 & H3 & H4 & H5
        & H6 & Hq & H7 & H8 & H9 & ->).
  assert (Hinit : dbs h1 = createIfNotExists (dbs h)
                  /\ databases h1 = databases h).
  { unfold Init in HI. destruct (dbPath h); [|discriminate].
    by injection HI as <-. }
  destruct Hinit as [Hdbs Hda].
  destruct (dbs h) as [t|] eqn:Ht.
  2:{ exfalso. unfold GetDBID, selectDbs in H1. by rewrite Hdbs in H1. }
  cbn [createIfNotExists] in Hdbs. specialize (Hu t eq_refl).
  unfold GetDBID, GetDBDriverByID, GetConnectionStringByID, selectDbs in *.
  rewrite Hdbs in *.
  destruct (find (fun r => bool_decide
                             (d_name r = Some (sqlite_numeric (f_db f)))) t)
    as [r|] eqn:Hname; [|discriminate].
  injection H1 as <-.
  apply find_Some_elem in Hname as [Hr Hn]. apply bool_decide_eq_true in Hn.
  rewrite (find_unique_key d_id t r Hu Hr) in H4, H5.
  injection H4 as <-.
  destruct (d_connect r) as [c|] eqn:Hc; [|discriminate].
  injection H5 as <-.
  destruct (main_model_Ok _ _ _ _ _ _ _ _ _ _ H9)
    as (rows0 & cols0 & _ & _ & _ & Hf & _ & _ & Hw & _).
  cbv zeta in *. unfold sessionFields in Hf.
  injection Hf as Ei En Eq Edb Eid Eh Ea Eif Eu Ev.
  destruct (startup_world q (startFilter f idQuery_
                               (logQuery q (setBackend answers (world h1))))
              answers (world h1)) as (_ & Hb & _).
  rewrite <- Hw in Hb.
  exists t, r, c, answers. rewrite <- Hda. by repeat split.
Qed.

(** The filter and the table a session starts with. The filter is the
    one of the command line, or else the one stored under the token;
    the filter input holds it. With a filter that the backend accepts
    and that matches a row, the table shows what [FilterContent]
    returns for it; without a filter, and also when the filter fails or
    matches no row, it shows the unfiltered content with the widths
    applied at startup. *)
Theorem main_filter_and_display :
  forall (f : Flags) (h h' : Host) (m : Model),
    main f h = (Ok m, h') ->
    initialFilter m = startFilter f (idQuery m) (world h')
    /\ textInput m
       = (if bool_decide (initialFilter m = "") then textinput.New
          else textinput_SetValue (initialFilter m) textinput.New)
    /\ Ok (table.Rows (table m), table.Columns (table m))
       = match (if bool_decide (initialFilter m = "") then None
                else Some (FilterContent m (initialFilter m) (world h')).1)
         with
         | Some (Ok (row :: rows, cols)) => Ok (row :: rows, cols)
         | _ => (main_content (sqlName m) (sqlQuery m) (world h')).1
         end.
Proof.
  intros f h h' m Hmain.
  destruct (main_Ok f h h' m Hmain)
    as (_ & _ & _ & h1 & idDB_ & idItem & idQuery_ & driver & cs & q0 & q
        & widths & als & stored & answers & w2 & HI & H1 & H2 & H3 & H4 & H5
        & H6 & Hq & H7 & H8 & H9 & ->).
  destruct (main_model_Ok _ _ _ _ _ _ _ _ _ _ H9)
    as (rows0 & cols0 & Hc & Hr0 & Hc0 & Hf & Hfi & Hti & Hw & Hd & Hfo & Hcu).
  cbv zeta in *. unfold sessionFields in Hf.
  injection Hf as Ei En Eq Edb Eid Eh Ea Eif Eu Ev.
  set (w1 := logQuery q (setBackend answers (world h1))) in *.
  set (text := startFilter f idQuery_ w1) in *.
  destruct (startup_world q text answers (world h1)) as (Hs & Hb & _).
  fold w1 in Hs, Hb. rewrite <- Hw in Hs, Hb. cbn [world setWorld].
  assert (Hs1 : sqliteDB w2 = sqliteDB w1) by (by rewrite Hs).
  assert (Hb1 : backend w2 = backend w1) by (by rewrite Hb).
  assert (Etext : startFilter f idQuery_ w2 = text).
  { unfold text, startFilter.
    destruct (reads_of_store w1 w2 Hs1) as (Hfl & _). by rewrite Hfl. }
  rewrite Eif, Eid, Etext. split; [done|]. split; [done|].
  rewrite (FilterContent_of_store m text w1 w2 Hs1 Hb1).
  assert (Hbase : (main_content (sqlName m) (sqlQuery m) w2).1
                  = Ok (rows0, applyColumnWidths cols0 widths als)).
  { unfold main_content, bind. rewrite En, Eq.
    destruct (reads_of_store (world h1) w2 Hs) as (_ & _ & _ & _ & Hcfg).
    pose proof (GetQueryConfig_world (f_sql f) w2) as Hwc.
    specialize (Hcfg (f_sql f)). rewrite H7 in Hcfg. cbn [fst] in Hcfg.
    destruct (GetQueryConfig (f_sql f) w2) as [r w3]. cbn [fst snd] in *.
    subst r w3.
    apply GetContent_Ok in Hc as (rs & Hrs & -> & ->).
    unfold GetContent. rewrite Hb. cbn [backend setBackend] in Hrs.
    rewrite Hrs.
    destruct (length _ =? 0)%nat eqn:E1.
    { apply Nat.eqb_eq in E1. by destruct (rs_rows rs). }
    destruct (length (map _ (rs_columns rs)) =? 0)%nat eqn:E2.
    { apply Nat.eqb_eq in E2. by destruct (rs_columns rs). }
    done. }
  rewrite Hbase.
  destruct (if bool_decide (text = "") then None else _)
    as [[[[|row rows] cols]|e]|]; by rewrite Hd.
Qed.

(** With no alias for any of the columns, committing the empty filter
    shows what startup showed: for ASCII column names none of which has
    an alias, [FilterContent] on the empty filter returns the rows and
    the columns of the table a session without filter started with. *)
Theorem empty_filter_after_startup_without_aliases :
  forall (f : Flags) (h h' : Host) (m : Model) (rs : ResultSet),
    main f h = (Ok m, h') ->
    initialFilter m = "" ->
    backend (world h') (sqlQuery m) = Ok rs ->
    (forall name, name ∈ rs_columns rs ->
       isASCII name = true
       /\ aliases m !! ToUpper unicode_MapUpper name = None) ->
    FilterContent m "" (world h')
    = (Ok (table.Rows (table m), table.Columns (table m)),
       logQuery (sqlQuery m) (world h')).
Proof.
  intros f h h' m rs Hmain Hnone Hrs Hcols.
  destruct (main_Ok f h h' m Hmain)
    as (_ & _ & _ & h1 & idDB_ & idItem & idQuery_ & driver & cs & q0 & q
        & widths & als & stored & answers & w2 & HI & H1 & H2 & H3 & H4 & H5
        & H6 & Hq & H7 & H8 & H9 & ->).
  destruct (main_model_Ok _ _ _ _ _ _ _ _ _ _ H9)
    as (rows0 & cols0 & Hc & Hr0 & Hc0 & Hf & Hfi & Hti & Hw & Hd & Hfo & Hcu).
  cbv zeta in *. unfold sessionFields in Hf.
  injection Hf as Ei En Eq Edb Eid Eh Ea Eif Eu Ev.
  set (w1 := logQuery q (setBackend answers (world h1))) in *.
  set (text := startFilter f idQuery_ w1) in *.
  destruct (startup_world q text answers (world h1)) as (Hs & Hb & _).
  fold w1 in Hs, Hb. rewrite <- Hw in Hs, Hb. cbn [world setWorld] in *.
  rewrite Eif in Hnone. rewrite Hnone in Hd.
  rewrite bool_decide_eq_true_2 in Hd by done. injection Hd as Hrows Hcolumns.
  assert (Eq0 : composedQuery (sqlQuery m) "" = sqlQuery m) by reflexivity.
  rewrite (FilterContent_Ok m "" w2 rs) by (by rewrite Eq0).
  rewrite Eq0. f_equal. f_equal.
  apply GetContent_Ok in Hc as (rs' & Hrs' & -> & ->).
  cbn [backend setBackend] in Hrs'. rewrite Hb, Eq, Hrs' in Hrs.
  injection Hrs as ->.
  unfold present. rewrite Ev. rewrite bool_decide_eq_false_2 by done.
  cbn [fst snd]. rewrite Hrows, Hcolumns. f_equal.
  unfold applyColumnWidths, displayConfig. rewrite En.
  destruct (reads_of_store (world h1) w2 Hs) as (_ & _ & _ & _ & Hcfg).
  rewrite Hcfg, H7. cbn [fst snd].
  rewrite !map_map. apply map_ext_in. intros name Hname.
  apply list_elem_of_In in Hname.
  destruct (Hcols name Hname) as [Hascii Hal]. cbn [table.Title].
  rewrite (ToUpper_idempotent_ascii name Hascii).
  rewrite Ea in Hal. rewrite Hal. cbn [default from_option id].
  by destruct (widths !! _).
Qed.

Lemma reads_of_instance (w w' : World) :
  instance (sqliteDB w') = instance (sqliteDB w) ->
  (forall token q, (GetFilterByUID token q w').1 = (GetFilterByUID token q w).1)
  /\ (forall token q, (GetHashByUID token q w').1 = (GetHashByUID token q w).1).
Proof.
  intros Hi. unfold GetFilterByUID, GetHashByUID, noSuchTable, fail, ret.
  rewrite Hi. split; intros; repeat case_match; done.
Qed.

(** A session is found again. When Enter on the focused table has
    saved a session under a token, and [tel] is started later on that
    store with the token and without a filter, for the same query: the
    session starts with the filter text the first one had in its input,
    and the cursor is on the first row of the table whose digest is the
    digest of the row that was selected, when the table holds that row;
    it is on the first row of the table when no row has that digest. *)
Theorem session_restored_at_startup :
  forall (m0 : Model) (w0 : World) (f : Flags) (h h' : Host) (m : Model),
    textinput.Focused (textInput m0) = false ->
    uid m0 <> "" ->
    is_Some (items (sqliteDB w0)) ->
    is_Some (config (sqliteDB w0)) ->
    is_Some (instance (sqliteDB w0)) ->
    let '(_, _, w1) := Update m0 (tea.KeyMsg "enter") w0 in
    sqliteDB (world h) = sqliteDB w1 ->
    f_uid f = uid m0 -> f_filter f = "" ->
    main f h = (Ok m, h') ->
    idQuery m = idQuery m0 ->
    let saved := rowDigest (table.SelectedRow (table m0)) in
    initialFilter m = textinput.Value (textInput m0)
    /\ (table.SelectedRow (table m0) ∈ table.Rows (table m) ->
        rowDigest (table.SelectedRow (table m)) = saved
        /\ exists j,
             table.cursor (table m) = Z.of_nat j
             /\ table.Rows (table m) !! j = Some (table.SelectedRow (table m))
             /\ forall k r, (k < j)%nat -> table.Rows (table m) !! k = Some r ->
                            rowDigest r <> saved)
    /\ ((forall r, r ∈ table.Rows (table m) -> rowDigest r <> saved) ->
        table.cursor (table m) = 0).
Proof.
  intros m0 w0 f h h' m Hfocus Huid Hitems [stored0 Hconfig] Hinst.
  rewrite (Update_enter_table m0 w0 Hfocus).
  destruct (SaveConfigFromTable_steps (itemName m0) (idDB m0) (uid m0)
              (table.SelectedRow (table m0)) (table.Columns (table m0))
              (aliases m0) stored0 w0 Hitems Hconfig)
    as (id & t1 & r1 & Ht1 & Hr1 & Hn1 & Hget & Hc1 & Hi1 & ->).
  set (wc := withConfig _ _).
  assert (Hic : is_Some (instance (sqliteDB wc))) by (by rewrite <- Hi1 in Hinst).
  destruct (SaveInstance_then_GetFilterByUID (idQuery m0)
              (rowDigest (table.SelectedRow (table m0))) (uid m0)
              (textinput.Value (textInput m0)) wc Huid Hic) as [Hfl Hha].
  set (w1 := (SaveInstance _ _ _ _ wc).2) in *.
  intros Hstore Hfu Hff Hmain Hq saved.
  destruct (main_Ok f h h' m Hmain)
    as (_ & _ & _ & h1 & idDB_ & idItem & idQuery_ & driver & cs & q0 & q
        & widths & als & stored & answers & w2 & HI & H1 & H2 & H3 & H4 & H5
        & H6 & Hqq & H7 & H8 & H9 & ->).
  destruct (main_model_Ok _ _ _ _ _ _ _ _ _ _ H9)
    as (rows0 & cols0 & Hc & Hr0 & Hc0 & Hf & Hfi & Hti & Hw & Hd & Hfo & Hcu).
  cbv zeta in *. unfold sessionFields in Hf.
  injection Hf as Ei En Eq Edb Eid Eh Ea Eif Eu Ev.
  rewrite Eid in Hq. subst idQuery_.
  set (w1' := logQuery q (setBackend answers (world h1))) in *.
  set (text := startFilter f (idQuery m0) w1') in *.
  destruct (startup_world q text answers (world h1)) as (Hs & _).
  fold w1' in Hs. rewrite <- Hw in Hs.
  (* the instance table the second start reads is the one the session left *)
  assert (Hinst1 : instance (sqliteDB (world h1)) = instance (sqliteDB w1)).
  { assert (Hsome : is_Some (instance (sqliteDB w1))).
    { destruct (SaveInstance_keeps (idQuery m0)
                  (rowDigest (table.SelectedRow (table m0))) (uid m0)
                  (textinput.Value (textInput m0)) wc)
        as (_ & _ & _ & Hn & _). by apply Hn. }
    rewrite <- Hstore in *. unfold Init in HI.
    destruct (dbPath h); [|discriminate]. injection HI as <-.
    cbn [world sqliteDB setStore].
    destruct (queries (sqliteDB (world h))); cbn [instance]; [done|].
    destruct Hsome as [t' Ht']. by rewrite Ht'. }
  assert (Hrd : forall w, sqliteDB w = sqliteDB (world h1) ->
            (GetFilterByUID (uid m0) (idQuery m0) w).1
            = Ok (textinput.Value (textInput m0))
            /\ (GetHashByUID (uid m0) (idQuery m0) w).1 = Ok saved).
  { intros w Hsw.
    assert (Hiw : instance (sqliteDB w) = instance (sqliteDB w1))
      by (by rewrite Hsw).
    destruct (reads_of_instance w1 w Hiw) as [E1 E2].
    by rewrite E1, E2, Hfl, Hha. }
  assert (Etext : text = textinput.Value (textInput m0)).
  { unfold text, startFilter. rewrite Hff, Hfu.
    rewrite bool_decide_eq_true_2 by done.
    rewrite bool_decide_eq_false_2 by done.
    destruct (Hrd w1') as [-> _]; [|done]. reflexivity. }
  split; [by rewrite Eif|].
  rewrite Hfu in Hcu. rewrite bool_decide_eq_false_2 in Hcu by done.
  destruct (Hrd w2 Hs) as [_ Hh]. rewrite Hh in Hcu.
  pose proof (findRowByHash_spec saved (table.Rows (table m)) 0) as Hfind.
  destruct (findRowByHash saved 0 (table.Rows (table m))) as [j|].
  - destruct Hfind as (k & r & -> & Hk & Hr & Hmin). cbn [Nat.add] in *.
    assert (Hsel : table.SelectedRow (table m) = r).
    { unfold table.SelectedRow. rewrite Hcu. unfold table.Rows in Hk.
      pose proof (lookup_lt_Some _ _ _ Hk) as Hlt.
      destruct (Z.ltb_spec (Z.of_nat k) 0); [lia|].
      destruct (Z.leb_spec (Z.of_nat (length (table.rows (table m))))
                  (Z.of_nat k)); [lia|].
      cbn [orb]. by rewrite Nat2Z.id, Hk. }
    split.
    + intros _. rewrite Hsel. split; [done|]. exists k. by repeat split.
    + intros Hno. exfalso. apply (Hno r); [|done].
      apply list_elem_of_lookup. eauto.
  - split; [|done]. intros Hin. exfalso.
    apply list_elem_of_lookup in Hin as [k Hk]. by apply (Hfind k _ Hk).
Qed.


(** ** Other sessions and other items *)

(** Confirming a row writes under the item and the token of the model
    only: the rows the column config holds for another item or under
    another token are there afterwards, and so are the rows of the
    instance table under another token or for another query. *)
Theorem Update_enter_keeps_other_sessions :
  forall (m : Model) (w : World) (stored : list ConfigRow)
         (saved : list InstanceRow),
    textinput.Focused (textInput m) = false ->
    uid m <> "" ->
    is_Some (items (sqliteDB w)) ->
    config (sqliteDB w) = Some stored ->
    instance (sqliteDB w) = Some saved ->
    let '(m', cmd, w') := Update m (tea.KeyMsg "enter") w in
    exists idItem stored' saved',
      GetItemID (itemName m) w' = (Ok idItem, w')
      /\ config (sqliteDB w') = Some stored'
      /\ instance (sqliteDB w') = Some saved'
      /\ (forall r, r ∈ stored ->
            c_id_item r <> idItem \/ c_uid r <> uid m -> r ∈ stored')
      /\ (forall r, r ∈ saved ->
            i_uid r <> uid m \/ i_id_query r <> idQuery m -> r ∈ saved').
Proof.
  intros m w stored saved Hfocus Huid Hitems Hconfig Hinst.
  rewrite (Update_enter_table m w Hfocus).
  destruct (SaveConfigFromTable_steps (itemName m) (idDB m) (uid m)
              (table.SelectedRow (table m)) (table.Columns (table m))
              (aliases m) stored w Hitems Hconfig)
    as (id & t1 & r1 & Ht1 & Hr1 & Hn1 & Hget & Hc1 & Hi1 & ->).
  set (news := aliasWrites id (uid m) _ (aliases m) 0 _).
  set (wc := withConfig (upsertAll stored news) _).
  assert (Hic : instance (sqliteDB wc) = Some saved) by (by rewrite <- Hinst).
  rewrite (SaveInstance_provided _ _ _ _ wc saved Huid Hic). cbn [snd].
  exists id. eexists _, _. split; [|split; [reflexivity|split; [reflexivity|]]].
  - unfold GetItemID in *. cbn [sqliteDB setStore items wc withConfig].
    rewrite Ht1 in *. destruct (find _ t1); [|done]. by injection Hget as ->.
  - split.
    + intros r Hr Hother. apply upsertAll_keeps_others; [done|].
      intros Hin. apply list_elem_of_fmap in Hin as (x & Hx & Hin).
      apply aliasWrites_elem in Hin as (i & col & value & alias & _ & _ & _ & ->).
      unfold configKey in Hx. simpl in Hx. injection Hx as E1 E2 _.
      destruct Hother; congruence.
    + intros r Hr Hother. unfold insertOrReplace. apply elem_of_app. left.
      apply list_elem_of_filter. split; [|done].
      unfold instanceKey. simpl. intros [= E1 E2]. destruct Hother; congruence.
Qed.

(** ** The end of a session *)

(** [Update] asks the runtime to quit on [ctrl+c] only: any other
    message that comes back with the quit command got it from the
    [Update] of the filter input. In particular no failure ends the
    session. *)
Theorem Update_quits_on_ctrl_c_only :
  forall (m : Model) (msg : tea.Msg) (w : World),
    (Update m msg w).1.2 = Some tea.Quit ->
    msg = tea.KeyMsg "ctrl+c"
    \/ exists ti, (textinput_Update ti msg).2 = Some tea.Quit.
Proof.
  intros m msg w.
  assert (Hpass : forall m0 msg0,
    (passOn m0 msg0 w).1.2 = Some tea.Quit ->
    exists ti, (textinput_Update ti msg0).2 = Some tea.Quit).
  { intros m0 msg0. unfold passOn. destruct (table_Update _ _) as [t c].
    cbn [textInput SetTable].
    destruct (textinput_Update (textInput m0) msg0) as [ti c'] eqn:E.
    cbn [fst snd]. intros ->. exists (textInput m0). by rewrite E. }
  destruct msg as [key|tag]; [|intros H; right; by apply (Hpass m)].
  pose proof (keyOf_spec key) as Hkey.
  destruct (keyOf key) eqn:Hk; try subst key.
  - rewrite Update_tab. intros H. right. by apply Hpass in H.
  - rewrite Update_esc. intros H. right. by apply Hpass in H.
  - by left.
  - destruct (textinput.Focused (textInput m)) eqn:Hfocus.
    + rewrite (Update_enter_filter m w Hfocus).
      by destruct (FilterContent m _ w) as [[[rows cols]|err] w1].
    + rewrite (Update_enter_table m w Hfocus).
      by destruct (SaveConfigFromTable _ _ _ _ _ _ w) as [[[]|err] w1].
  - rewrite (Update_other_key m key w Hk). intros H. right.
    by apply Hpass in H.
Qed.

(** ** Placeholders *)

Lemma stripPrefix_app (p s : list ascii) : stripPrefix p (p ++ s) = Some s.
Proof.
  induction p as [|c p IH]; [done|]. simpl. by rewrite Ascii.eqb_refl.
Qed.

Lemma replaceFrom_skip (old new : list ascii) (l1 l2 : list ascii) :
  replaceFrom old new (length l1) (l1 ++ l2) = replaceFrom old new 0 l2.
Proof. induction l1 as [|c l1 IH]; [by destruct l2|]. apply IH. Qed.

Lemma replaceFrom_absent (c : ascii) (old new l : list ascii) :
  c ∉ l -> replaceFrom (c :: old) new 0 l = l.
Proof.
  induction l as [|d l IH]; intros Hc; [done|].
  cbn [replaceFrom stripPrefix].
  destruct (Ascii.eqb_spec c d) as [->|Hne]; [exfalso; apply Hc; left|].
  rewrite IH; [done|]. intros H. apply Hc. by right.
Qed.

Lemma replaceFrom_occurrence (c : ascii) (old new s : list ascii) :
  replaceFrom (c :: old) new 0 ((c :: old) ++ s)
  = new ++ replaceFrom (c :: old) new 0 s.
Proof.
  change ((c :: old) ++ s) with (c :: (old ++ s)).
  cbn [replaceFrom].
  change (c :: (old ++ s)) with ((c :: old) ++ s).
  rewrite stripPrefix_app.
  replace (length (c :: old) - 1)%nat with (length old) by (simpl; lia).
  by rewrite replaceFrom_skip.
Qed.

Lemma ReplaceAll_absent (s key value : string) :
  colon ∉ chars s -> ReplaceAll s (":" +:+ key) value = s.
Proof.
  intros Hs. unfold ReplaceAll. rewrite chars_app.
  change (chars ":") with [colon]. cbn [app].
  rewrite replaceFrom_absent by done. apply str_chars.
Qed.

(** The placeholders are replaced key after key, in the order in which
    the loop over the decoded args visits the keys, and the outcome
    depends on that order as soon as one key starts with another: on
    the query that is the placeholder of the longer key, the shorter
    key visited first takes its part of the placeholder and leaves the
    rest of the name in the query, while the longer key visited first
    gives its own value. *)
Theorem substitute_depends_on_order :
  forall (key rest first second : string),
    colon ∉ chars rest -> colon ∉ chars first -> colon ∉ chars second ->
    substitute (":" +:+ key +:+ rest) [(key, first); (key +:+ rest, second)]
    = first +:+ rest
    /\ substitute (":" +:+ key +:+ rest)
         [(key +:+ rest, second); (key, first)]
       = second.
Proof.
  intros key rest first second Hrest Hfirst Hsecond.
  unfold substitute. cbn [foldl fst snd].
  assert (E1 : ReplaceAll (":" +:+ key +:+ rest) (":" +:+ key) first
               = first +:+ rest).
  { unfold ReplaceAll. rewrite !chars_app. change (chars ":") with [colon].
    cbn [app].
    change (colon :: chars key ++ chars rest)
      with ((colon :: chars key) ++ chars rest).
    rewrite replaceFrom_occurrence, replaceFrom_absent by done.
    by rewrite str_app, !str_chars. }
  assert (E2 : ReplaceAll (":" +:+ key +:+ rest) (":" +:+ key +:+ rest) second
               = second).
  { unfold ReplaceAll. rewrite !chars_app. change (chars ":") with [colon].
    cbn [app].
    rewrite <- (app_nil_r (colon :: chars key ++ chars rest)) at 2.
    rewrite replaceFrom_occurrence. cbn [replaceFrom].
    by rewrite app_nil_r, str_chars. }
  split.
  - rewrite E1. apply ReplaceAll_absent. rewrite chars_app.
    intros [H|H]%elem_of_app; done.
  - rewrite E2. by apply ReplaceAll_absent.
Qed.

End Program.

(** * Examples *)

Example TrimSpace_ex1 : TrimSpace "  WHERE a = 1 " = "WHERE a = 1".
Proof. reflexivity. Qed.

Example TrimSpace_ex2 :
  TrimSpace (str (map byte [194; 160; 9; 120; 32; 121; 226; 128; 137; 10]%nat))
  = "x y".
Proof. reflexivity. Qed.

Example ToUpper_ex mapUpper : ToUpper mapUpper "user_Name7" = "USER_NAME7".
Proof. reflexivity. Qed.

Example hexLower_ex : hexLower (map byte [0; 171; 255; 16]%nat) = "00abff10".
Proof. reflexivity. Qed.

Example sha256_constants :
  nth 0 sha256.K 0%N = 0x428a2f98%N /\ nth 63 sha256.K 0%N = 0xc67178f2%N
  /\ nth 0 sha256.init 0%N = 0x6a09e667%N
  /\ nth 7 sha256.init 0%N = 0x5be0cd19%N.
Proof. vm_compute. repeat split. Qed.

Example Sum256_abc :
  hexLower (sha256.Sum256 "abc")
  = "ba7816bf8f01cfea414140de5dae2223b00361a396177a9cb410ff61f20015ad".
Proof. vm_compute. reflexivity. Qed.

Example Sum256_empty :
  hexLower (sha256.Sum256 "")
  = "e3b0c44298fc1c149afbf4c8996fb92427ae41e4649b934ca495991b7852b855".
Proof. vm_compute. reflexivity. Qed.

Example Sum256_two_blocks :
  hexLower (sha256.Sum256
    "The quick brown fox jumps over the lazy dog, and then some more text to go past one block of input!")
  = "68e4976088af48144d813e0db2be0cc6e97b07f9aea29a941b44f7fcac24883c".
Proof. vm_compute. reflexivity. Qed.

Example main_content_users :
  (main_content exampleDecoder exampleUpper "users" usersQuery exampleWorld).1
  = Ok ([ ["1"; "alice"]; ["2"; "bob"] ],
        [ {| table.Title := "ID"; table.Width := 6 |};
          {| table.Title := "NAME"; table.Width := 20 |} ]).
Proof. vm_compute. reflexivity. Qed.

Example FilterContent_users_where :
  (FilterContent exampleDecoder exampleUpper (exampleModel true "")
     " WHERE id = 2 " exampleWorld).1
  = Ok ([ ["2"; "bob"] ],
        [ {| table.Title := "ID"; table.Width := 6 |};
          {| table.Title := "NAME"; table.Width := 30 |} ]).
Proof. vm_compute. reflexivity. Qed.

Example SaveInstance_fresh_token :
  (SaveInstance 1 "digest" "" "id = 2" exampleWorld).1
  = Ok "00112233-4455-6677-8899-aabbccddeeff".
Proof. vm_compute. reflexivity. Qed.

Example ToVerticalView_users :
  ToVerticalView [ ["1"; "alice"]; ["2"; "bob"] ]
    [ {| table.Title := "ID"; table.Width := 20 |};
      {| table.Title := "NAME"; table.Width := 30 |};
      {| table.Title := "AGE"; table.Width := 20 |} ]
  = ([ ["ID"; "1"]; ["NAME"; "alice"]; ["AGE"; ""] ],
     [ {| table.Title := "column"; table.Width := 30 |};
       {| table.Title := "val"; table.Width := 50 |} ]).
Proof. reflexivity. Qed.

(** ** The statements above at the examples *)

Lemma row_digest_deterministic_witness :
  let m := exampleModel false "" in
  let later :=
    SetTable
      {| table.cols := table.cols (table m);
         table.rows := [ ["2"; "bob"]; ["1"; "alice"] ];
         table.cursor := 1; table.focus := true |} m in
  uid m <> ""
  /\ is_Some (instance (sqliteDB exampleWorld))
  /\ enterSaves m exampleWorld
  /\ table.Rows (table later) !! 0%nat = Some (table.SelectedRow (table m))
  /\ GetHashByUID "tok" 1
       (Update exampleDecoder exampleUpper exampleTableUpdate
          exampleInputUpdate exampleNumeric m (tea.KeyMsg "enter")
            exampleWorld).2
     = (Ok "114d56d86bb41684a7af90a231a3f3eb877e184575bfb3bcbf2b57b136a26e06",
        (Update exampleDecoder exampleUpper exampleTableUpdate
           exampleInputUpdate exampleNumeric m (tea.KeyMsg "enter")
             exampleWorld).2)
  /\ table.cursor
       (table (SelectRowByHash
                 "114d56d86bb41684a7af90a231a3f3eb877e184575bfb3bcbf2b57b136a26e06"
                 later)) = 0.
Proof.
  intros m later.
  assert (H1 : uid m <> "") by discriminate.
  assert (H2 : is_Some (instance (sqliteDB exampleWorld))) by (by eexists).
  assert (H3 : enterSaves m exampleWorld) by (split; by eexists).
  pose proof (row_digest_deterministic exampleDecoder exampleUpper
                exampleTableUpdate exampleInputUpdate exampleNumeric m later
                  exampleWorld 0
                H1 H2 H3) as H.
  assert (Em : (Update exampleDecoder exampleUpper exampleTableUpdate
                  exampleInputUpdate exampleNumeric m (tea.KeyMsg "enter")
                    exampleWorld).1.1
               = m) by (vm_compute; reflexivity).
  destruct (Update exampleDecoder exampleUpper exampleTableUpdate
              exampleInputUpdate exampleNumeric m (tea.KeyMsg "enter")
                exampleWorld)
    as [[m' cmd] w']. simpl in Em. subst m'.
  assert (Hrow : table.Rows (table later) !! 0%nat
                 = Some (table.SelectedRow (table m))) by reflexivity.
  destruct (H Hrow) as (_ & h & j & r & Hget & Hh & _ & _ & Hfind & Hle & Hc &
    _).
  assert (Eh : h =
    "114d56d86bb41684a7af90a231a3f3eb877e184575bfb3bcbf2b57b136a26e06").
  { rewrite Hh. vm_compute. reflexivity. }
  rewrite Eh in *.
  split; [exact H1|]. split; [exact H2|]. split; [exact H3|].
  split; [exact Hrow|]. split; [exact Hget|].
  rewrite Hc. apply Nat.le_0_r in Hle. by rewrite Hle.
Defined.

Lemma SaveInstance_twice_one_row_witness :
  "tok" <> ""
  /\ is_Some (instance (sqliteDB exampleWorld))
  /\ exists w1 w2 t2,
       SaveInstance 1 "digest one" "tok" "id = 1" exampleWorld = (Ok "tok", w1)
       /\ SaveInstance 1 "digest two" "tok" "id = 2" w1 = (Ok "tok", w2)
       /\ instance (sqliteDB w2) = Some t2
       /\ filter (fun r => instanceKey r = ("tok", 1)) t2
          = [ {| i_uid := "tok"; i_id_query := 1;
                 i_hash := "digest two"; i_filter := "id = 2" |} ].
Proof.
  assert (H1 : "tok" <> "") by discriminate.
  assert (H2 : is_Some (instance (sqliteDB exampleWorld))) by (by eexists).
  split; [exact H1|]. split; [exact H2|].
  destruct (SaveInstance_twice_one_row 1 "tok" "digest one" "id = 1"
              "digest two" "id = 2" exampleWorld H1 H2)
    as (w1 & w2 & t2 & E1 & E2 & E3 & E4 & _).
  by exists w1, w2, t2.
Defined.

(** C5, as stated, fails: cell values are whatever the backend returns,
    the separator included, and two different rows of one result set
    can have the same joined string; so have the row without cells
    (the selection of an empty table) and the row of one empty cell. *)
Lemma Join_not_injective_counterexample :
  exists (w : World) (query : string) (r1 r2 : list string),
    (forall mapUpper, exists cols rows,
        (GetContent mapUpper query w).1 = Ok (rows, cols)
        /\ r1 ∈ rows /\ r2 ∈ rows)
    /\ (exists cell, cell ∈ r1 /\ bar ∈ chars cell)
    /\ r1 <> r2
    /\ Join r1 "|" = Join r2 "|"
    /\ ([] : list string) <> [""]
    /\ Join [] "|" = Join [""] "|".
Proof.
  exists {| sqliteDB := exampleStore;
            backend := fun _ =>
              Ok {| rs_columns := ["tag"; "note"];
                    rs_rows := [ [VString "a|b"; VString "c"];
                                 [VString "a"; VString "b|c"] ] |};
            executed := []; entropy := fun _ => byte 0; drawn := 0 |}.
  exists "SELECT tag, note FROM t", ["a|b"; "c"], ["a"; "b|c"].
  split; [|split; [|split; [|split; [|split]]]].
  - intros mapUpper. eexists _, _. split; [reflexivity|].
    split; [left|right; left].
  - exists "a|b". split; [left|]. right. left.
  - discriminate.
  - reflexivity.
  - discriminate.
  - reflexivity.
Qed.

Lemma Join_injective_witness :
  (["2"; "bob"] = [] <-> ["2"; "bob"] = [])
  /\ Forall sepFree ["2"; "bob"]
  /\ Join ["2"; "bob"] "|" = Join ["2"; "bob"] "|"
  /\ ["2"; "bob"] = ["2"; "bob"].
Proof.
  assert (H1 : ["2"; "bob"] = [] <-> ["2"; "bob"] = []) by done.
  assert (H2 : Forall sepFree ["2"; "bob"]).
  { repeat constructor; intros H%list_elem_of_In; vm_compute in H;
      intuition discriminate. }
  assert (H3 : Join ["2"; "bob"] "|" = Join ["2"; "bob"] "|") by reflexivity.
  split; [exact H1|]. split; [exact H2|]. split; [exact H3|].
  exact (Join_injective_on_separator_free_rows _ _ H1 H2 H2 H3).
Defined.

Lemma GetQueryConfig_witness :
  (exists t, queries (sqliteDB exampleWorld) = Some t
             /\ uniqueKeys q_name t
             /\ exists broken plain,
                  broken ∈ t /\ plain ∈ t
                  /\ q_name broken = "broken" /\ q_name plain = "plain")
  /\ GetQueryConfig exampleDecoder "broken" exampleWorld
     = (Err (ErrorString "unexpected end of JSON input"), exampleWorld)
  /\ GetQueryConfig exampleDecoder "plain" exampleWorld
     = (Ok (∅, ∅, 10), exampleWorld).
Proof.
  set (broken := {| q_id := 2; q_id_item := 1; q_name := "broken";
                    q_query := usersQuery; q_config := Some "{";
                    q_height := Some 7 |}).
  set (plain := {| q_id := 3; q_id_item := 1; q_name := "plain";
                   q_query := usersQuery; q_config := None;
                   q_height := None |}).
  assert (Ht : queries (sqliteDB exampleWorld)
               = Some [ {| q_id := 1; q_id_item := 1; q_name := "users";
                           q_query := usersQuery;
                           q_config := Some exampleConfigText;
                           q_height := None |}; broken; plain ])
    by reflexivity.
  assert (Hu : uniqueKeys q_name
                 [ {| q_id := 1; q_id_item := 1; q_name := "users";
                      q_query := usersQuery;
                      q_config := Some exampleConfigText;
                      q_height := None |}; broken; plain ]).
  { unfold uniqueKeys. simpl. repeat constructor;
      intros H%list_elem_of_In; simpl in H; intuition discriminate. }
  assert (Hb : broken ∈ [ {| q_id := 1; q_id_item := 1; q_name := "users";
                             q_query := usersQuery;
                             q_config := Some exampleConfigText;
                             q_height := None |}; broken; plain ])
    by (right; left).
  assert (Hp : plain ∈ [ {| q_id := 1; q_id_item := 1; q_name := "users";
                            q_query := usersQuery;
                            q_config := Some exampleConfigText;
                            q_height := None |}; broken; plain ])
    by (right; right; left).
  split; [|split].
  - eexists. split; [exact Ht|]. split; [exact Hu|]. by exists broken, plain.
  - destruct (GetQueryConfig_malformed_or_absent exampleDecoder exampleWorld
                _ broken Ht Hu Hb) as [H _].
    apply (H "{"); [reflexivity|discriminate|reflexivity].
  - destruct (GetQueryConfig_malformed_or_absent exampleDecoder exampleWorld
                _ plain Ht Hu Hp) as [_ H].
    apply H. by left.
Defined.

Lemma Update_filter_failure_witness :
  let m := exampleModel true "nope =" in
  textinput.Focused (textInput m) = true
  /\ backend exampleWorld
       (composedQuery (sqlQuery m) (textinput.Value (textInput m)))
     = Err (ErrorString "syntax error")
  /\ (Update exampleDecoder exampleUpper exampleTableUpdate exampleInputUpdate
    exampleNumeric
        m (tea.KeyMsg "enter") exampleWorld).1
     = (m, Some (tea.Printf (newline +:+ "Error filtering: syntax error"
                             +:+ newline))).
Proof.
  intros m.
  assert (H1 : textinput.Focused (textInput m) = true) by reflexivity.
  assert (H2 : backend exampleWorld
                 (composedQuery (sqlQuery m) (textinput.Value (textInput m)))
               = Err (ErrorString "syntax error"))
    by (vm_compute; reflexivity).
  split; [exact H1|]. split; [exact H2|].
  pose proof (Update_filter_failure_keeps_display exampleDecoder exampleUpper
                exampleTableUpdate exampleInputUpdate exampleNumeric m
                  exampleWorld _ H1 H2)
    as H.
  destruct (Update exampleDecoder exampleUpper exampleTableUpdate
              exampleInputUpdate exampleNumeric m (tea.KeyMsg "enter")
                exampleWorld)
    as [[m' cmd] w'].
  destruct H as (-> & _ & _ & -> & _). reflexivity.
Defined.



Lemma empty_filter_widths_witness :
  exampleDecoder exampleConfigText = Ok exampleConfig
  /\ map table.Width
       (default []
          (match (main_content exampleDecoder exampleUpper "users" usersQuery
                    exampleWorld).1 with
           | Ok content => Some content.2
           | Err _ => None
           end)) = [6; 20]
  /\ map table.Width
       (default []
          (match (FilterContent exampleDecoder exampleUpper
                    (exampleModel true "") ""
                    (logQuery usersQuery exampleWorld)).1 with
           | Ok content => Some content.2
           | Err _ => None
           end)) = [6; 30].
Proof.
  assert (H : exampleDecoder exampleConfigText = Ok exampleConfig)
    by reflexivity.
  split; [exact H|].
  destruct (empty_filter_widths_differ_from_startup exampleDecoder
              exampleUpper H) as (E1 & E2 & _).
  change (sqlName (exampleModel true "")) with "users" in E1.
  change (sqlQuery (exampleModel true "")) with usersQuery in E1.
  rewrite E1, E2. split; reflexivity.
Defined.

Lemma FilterContent_width_witness :
  GetQueryConfig exampleDecoder "users" exampleWorld
  = (Ok ({["nm" := 30; "ID" := 6]}, {["NAME" := "nm"]}, 10), exampleWorld)
  /\ backend exampleWorld (composedQuery usersQuery "") = Ok users
  /\ "id" ∈ rs_columns users
  /\ exists rows cols w',
       FilterContent exampleDecoder exampleUpper (exampleModel true "") ""
         exampleWorld = (Ok (rows, cols), w')
       /\ {| table.Title := "ID"; table.Width := 6 |} ∈ cols.
Proof.
  assert (H1 : GetQueryConfig exampleDecoder "users" exampleWorld
               = (Ok ({["nm" := 30; "ID" := 6]}, {["NAME" := "nm"]}, 10),
                  exampleWorld)) by reflexivity.
  assert (H2 : backend exampleWorld (composedQuery usersQuery "") = Ok users)
    by (vm_compute; reflexivity).
  assert (H3 : "id" ∈ rs_columns users) by left.
  split; [exact H1|]. split; [exact H2|]. split; [exact H3|].
  apply (FilterContent_width_under_upper_cased_name exampleDecoder
           exampleUpper (exampleModel true "") "" exampleWorld users
           {["nm" := 30; "ID" := 6]} {["NAME" := "nm"]} 10 "id" 6 H1 H2);
    [discriminate|exact H3|reflexivity|reflexivity|reflexivity].
Defined.

Lemma GetContent_normalizes_witness :
  backend exampleWorld usersQuery = Ok users
  /\ exists rows cols,
       GetContent exampleUpper usersQuery exampleWorld
       = (Ok (rows, cols), logQuery usersQuery exampleWorld)
       /\ map table.Title cols = ["ID"; "NAME"]
       /\ length rows = 2%nat
       /\ forall row, rows !! 1%nat = Some row -> row !! 1%nat = Some "bob".
Proof.
  assert (H : backend exampleWorld usersQuery = Ok users) by reflexivity.
  split; [exact H|].
  destruct (GetContent_normalizes exampleUpper usersQuery exampleWorld users H)
    as (rows & cols & Hrun & Htitles & _ & Hlen & _ & Hcell).
  exists rows, cols. split; [exact Hrun|]. split; [exact Htitles|].
  split; [exact Hlen|]. intros row Hrow.
  apply (Hcell 1%nat 1%nat [VOther "2"; VBytes "bob"] (VBytes "bob") row);
    [reflexivity|reflexivity|simpl; lia|exact Hrow].
Defined.

(** ** The catalog, the schema and the controller at the examples *)

Lemma GetDBID_lookups_witness :
  dbs exampleHost = Some exampleDbs
  /\ uniqueKeys d_id exampleDbs
  /\ GetDBID exampleNumeric "main" exampleHost = (Ok 1, exampleHost)
  /\ GetDBDriverByID 1 exampleHost = (Ok "sqlite", exampleHost)
  /\ GetDBDriver exampleNumeric "main" exampleHost = (Ok "sqlite", exampleHost)
  /\ GetConnectionString exampleNumeric "main" exampleHost
     = GetConnectionStringByID 1 exampleHost.
Proof.
  assert (H1 : dbs exampleHost = Some exampleDbs) by reflexivity.
  assert (H2 : uniqueKeys d_id exampleDbs).
  { unfold uniqueKeys. simpl. apply NoDup_cons. split; [|apply NoDup_singleton].
    intros H%list_elem_of_singleton. discriminate. }
  assert (H3 : GetDBID exampleNumeric "main" exampleHost = (Ok 1, exampleHost))
    by reflexivity.
  split; [exact H1|]. split; [exact H2|]. split; [exact H3|].
  destruct (GetDBID_then_lookups_by_id exampleNumeric exampleHost exampleDbs
    "main" 1
              H1 H2 H3) as (r & _ & _ & _ & E1 & E2 & E3).
  assert (Ed : GetDBDriverByID 1 exampleHost = (Ok "sqlite", exampleHost))
    by reflexivity.
  split; [exact Ed|]. split; [by rewrite <- E2|]. by rewrite E3.
Defined.

Lemma InsertItemIfNotExists_fresh_witness :
  items (sqliteDB startWorld)
  = Some [ {| it_id := 1; it_id_db := 1; it_name := "users" |} ]
  /\ uniqueKeys it_id [ {| it_id := 1; it_id_db := 1; it_name := "users" |} ]
  /\ items (sqliteDB (InsertItemIfNotExists "orders" 1 startWorld).2)
     = Some [ {| it_id := 1; it_id_db := 1; it_name := "users" |};
              {| it_id := 2; it_id_db := 1; it_name := "orders" |} ]
  /\ exists id,
       GetItemID "orders" (InsertItemIfNotExists "orders" 1 startWorld).2
       = (Ok id, (InsertItemIfNotExists "orders" 1 startWorld).2).
Proof.
  assert (H1 : items (sqliteDB startWorld)
               = Some [ {| it_id := 1; it_id_db := 1; it_name := "users" |} ])
    by reflexivity.
  assert (H2 : uniqueKeys it_id
                 [ {| it_id := 1; it_id_db := 1; it_name := "users" |} ])
    by apply NoDup_singleton.
  split; [exact H1|]. split; [exact H2|].
  destruct (InsertItemIfNotExists_appends_fresh_id "orders" 1 startWorld _
              H1 H2) as (t' & Ht' & _ & _ & Hid & _).
  split; [reflexivity|exact Hid].
Defined.

Lemma GetConnectionStringByItem_witness :
  items (sqliteDB (world exampleHost))
  = Some [ {| it_id := 1; it_id_db := 1; it_name := "users" |} ]
  /\ (forall r, r ∈ [ {| it_id := 1; it_id_db := 1; it_name := "users" |} ]
                -> it_name r <> "orders")
  /\ GetConnectionStringByItem "orders"
       (setWorld (InsertItemIfNotExists "orders" 1 (world exampleHost)).2
          exampleHost)
     = (Ok "file:users.db",
        setWorld (InsertItemIfNotExists "orders" 1 (world exampleHost)).2
          exampleHost).
Proof.
  assert (H1 : items (sqliteDB (world exampleHost))
               = Some [ {| it_id := 1; it_id_db := 1; it_name := "users" |} ])
    by reflexivity.
  assert (H2 : forall r,
             r ∈ [ {| it_id := 1; it_id_db := 1; it_name := "users" |} ]
             -> it_name r <> "orders").
  { intros r Hr. apply list_elem_of_singleton in Hr. by subst r. }
  split; [exact H1|]. split; [exact H2|].
  pose proof (GetConnectionStringByItem_of_created_item exampleHost "orders"
                1 _ H1 H2) as H.
  cbv zeta in H. rewrite H. reflexivity.
Defined.

Lemma GetQueryIDByHash_witness :
  instance (sqliteDB exampleWorld) = Some []
  /\ GetQueryIDByHash bobDigest
       (SaveInstance 1 bobDigest "tok" "id = 2" exampleWorld).2
     = (Ok 1, (SaveInstance 1 bobDigest "tok" "id = 2" exampleWorld).2).
Proof.
  assert (H1 : instance (sqliteDB exampleWorld) = Some []) by reflexivity.
  split; [exact H1|].
  destruct (GetQueryIDByHash_after_SaveInstance 1 bobDigest "tok" "id = 2"
              exampleWorld [] H1) as (q & t' & r & Hq & _ & _ & _ & _ & Hsame).
  rewrite Hq. f_equal. f_equal. apply Hsame.
  intros r0 Hr0. by apply elem_of_nil in Hr0.
Defined.

Lemma Init_witness :
  dbPath bareHost = Ok "/home/ann/.tel/tel.db"
  /\ exists h',
       Init bareHost = (Ok tt, h')
       /\ dbs h' = Some [] /\ items (sqliteDB (world h')) = Some []
       /\ config (sqliteDB (world h')) = Some []
       /\ queries (sqliteDB (world h')) = queries exampleStore
       /\ instance (sqliteDB (world h')) = None.
Proof.
  assert (H1 : dbPath bareHost = Ok "/home/ann/.tel/tel.db") by reflexivity.
  split; [exact H1|].
  destruct (Init_creates_missing_tables_only bareHost _ H1)
    as (h' & Hrun & _ & _ & _ & _ & Hq & _ & _ & _ & _ & _ & Hi & _).
  exists h'. split; [exact Hrun|].
  assert (Eh : h' = (Init bareHost).2) by (by rewrite Hrun).
  split; [by rewrite Eh|]. split; [by rewrite Eh|]. split; [by rewrite Eh|].
  split; [by apply Hq|]. apply Hi. by eexists.
Defined.

Lemma Update_enter_save_twice_witness :
  let m := exampleModel false "id = 2" in
  let step := Update exampleDecoder exampleUpper exampleTableUpdate
                exampleInputUpdate exampleNumeric in
  textinput.Focused (textInput m) = false
  /\ uid m <> ""
  /\ is_Some (items (sqliteDB exampleWorld))
  /\ is_Some (config (sqliteDB exampleWorld))
  /\ step (step m (tea.KeyMsg "enter") exampleWorld).1.1 (tea.KeyMsg "enter")
       (step m (tea.KeyMsg "enter") exampleWorld).2
     = step m (tea.KeyMsg "enter") exampleWorld.
Proof.
  intros m step.
  assert (H1 : textinput.Focused (textInput m) = false) by reflexivity.
  assert (H2 : uid m <> "") by discriminate.
  assert (H3 : is_Some (items (sqliteDB exampleWorld))) by (by eexists).
  assert (H4 : is_Some (config (sqliteDB exampleWorld))) by (by eexists).
  split; [exact H1|]. split; [exact H2|]. split; [exact H3|].
  split; [exact H4|].
  pose proof (Update_enter_save_twice_is_once exampleDecoder exampleUpper
                exampleTableUpdate exampleInputUpdate exampleNumeric m
                  exampleWorld
                H1 H2 H3 H4) as H.
  fold step in H.
  destruct (step m (tea.KeyMsg "enter") exampleWorld) as [[m1 cmd1] w1].
  exact H.
Defined.

Lemma Update_enter_without_instance_table_witness :
  let m := exampleModel true "id = 2" in
  let step := Update exampleDecoder exampleUpper exampleTableUpdate
                exampleInputUpdate exampleNumeric in
  instance (sqliteDB withoutInstance) = None
  /\ enterSaves m withoutInstance
  /\ (step m (tea.KeyMsg "enter") withoutInstance).1.2 = None
  /\ table.Rows (table (step m (tea.KeyMsg "enter") withoutInstance).1.1)
     = [ ["2"; "bob"] ]
  /\ instance (sqliteDB (step m (tea.KeyMsg "enter") withoutInstance).2)
     = None.
Proof.
  intros m step.
  assert (H1 : instance (sqliteDB withoutInstance) = None) by reflexivity.
  assert (H2 : enterSaves m withoutInstance).
  { exists {| rs_columns := rs_columns users;
              rs_rows := drop 1 (rs_rows users) |}.
    vm_compute. reflexivity. }
  split; [exact H1|]. split; [exact H2|].
  pose proof (Update_enter_without_instance_table_is_silent exampleDecoder
                exampleUpper exampleTableUpdate exampleInputUpdate
                  exampleNumeric m
                withoutInstance H1 H2) as H.
  fold step in H.
  assert (Er : (FilterContent exampleDecoder exampleUpper m
                  (textinput.Value (textInput m)) withoutInstance).1
               = Ok ([ ["2"; "bob"] ],
                     [ {| table.Title := "ID"; table.Width := 6 |};
                       {| table.Title := "NAME"; table.Width := 30 |} ]))
    by (vm_compute; reflexivity).
  destruct (step m (tea.KeyMsg "enter") withoutInstance) as [[m' cmd] w'].
  cbn [fst snd].
  destruct H as (Hcmd & Hinst & _ & Hshown & _).
  destruct (Hshown eq_refl) as (rows & cols & w1 & Hrun & Hrows & _).
  rewrite Hrun in Er. injection Er as Er _.
  split; [exact Hcmd|]. split; [|exact Hinst].
  simpl. by rewrite Hrows.
Defined.

Lemma Update_enter_without_config_table_witness :
  let m := exampleModel false "" in
  let step := Update exampleDecoder exampleUpper exampleTableUpdate
                exampleInputUpdate exampleNumeric in
  textinput.Focused (textInput m) = false
  /\ items (sqliteDB withoutConfig) = Some []
  /\ config (sqliteDB withoutConfig) = None
  /\ aliasedCell exampleUpper (table.SelectedRow (table m)) (aliases m)
       (table.Columns (table m))
  /\ (exists e,
        (step m (tea.KeyMsg "enter") withoutConfig).1.2
        = Some (tea.Printf (newline +:+ "Error saving to config: "
                            +:+ Error e +:+ newline)))
  /\ instance (sqliteDB (step m (tea.KeyMsg "enter") withoutConfig).2)
     = Some []
  /\ exists t' r,
       items (sqliteDB (step m (tea.KeyMsg "enter") withoutConfig).2)
       = Some t' /\ r ∈ t' /\ it_name r = "users".
Proof.
  intros m step.
  assert (H1 : textinput.Focused (textInput m) = false) by reflexivity.
  assert (H2 : items (sqliteDB withoutConfig) = Some []) by reflexivity.
  assert (H3 : config (sqliteDB withoutConfig) = None) by reflexivity.
  assert (H4 : aliasedCell exampleUpper (table.SelectedRow (table m))
                 (aliases m) (table.Columns (table m))).
  { exists 1%nat, {| table.Title := "NAME"; table.Width := 20 |}, "bob", "nm".
    repeat split. }
  split; [exact H1|]. split; [exact H2|]. split; [exact H3|].
  split; [exact H4|].
  pose proof (Update_enter_without_config_table exampleDecoder exampleUpper
                exampleTableUpdate exampleInputUpdate exampleNumeric m
                  withoutConfig []
                H1 H2 H3) as H.
  cbv zeta in H. fold step in H.
  destruct (step m (tea.KeyMsg "enter") withoutConfig) as [[m' cmd] w'].
  cbn [fst snd].
  destruct H as (_ & Hitem & _ & Hfail & _).
  destruct (Hfail H4) as (Hcmd & Hinst & _).
  split; [exact Hcmd|]. split; [by rewrite Hinst|exact Hitem].
Defined.

Lemma Update_enter_allocates_a_token_witness :
  let m := exampleSession "users" "" "" false "" in
  let step := Update exampleDecoder exampleUpper exampleTableUpdate
                exampleInputUpdate exampleNumeric in
  let w1 := (step m (tea.KeyMsg "enter") exampleWorld).2 in
  let w2 := (step (step m (tea.KeyMsg "enter") exampleWorld).1.1
               (tea.KeyMsg "enter") w1).2 in
  uid m = ""
  /\ instance (sqliteDB exampleWorld) = Some []
  /\ enterSaves m exampleWorld
  /\ drawn w2 = 32%nat
  /\ exists t2 r1 r2,
       instance (sqliteDB w2) = Some t2
       /\ r1 ∈ t2 /\ r2 ∈ t2
       /\ instanceKey r1 = ("00112233-4455-6677-8899-aabbccddeeff", 1)
       /\ instanceKey r2 = ("10213243-5465-7687-98a9-bacbdcedfe0f", 1).
Proof.
  intros m step w1 w2.
  assert (H1 : uid m = "") by reflexivity.
  assert (H2 : instance (sqliteDB exampleWorld) = Some []) by reflexivity.
  assert (H3 : enterSaves m exampleWorld) by (split; by eexists).
  split; [exact H1|]. split; [exact H2|]. split; [exact H3|].
  pose proof (Update_enter_allocates_a_token_each_time exampleDecoder
                exampleUpper exampleTableUpdate exampleInputUpdate
                  exampleNumeric m
                exampleWorld [] H1 H2 H3) as H.
  fold step in H. subst w2 w1.
  destruct (step m (tea.KeyMsg "enter") exampleWorld) as [[m1 cmd1] w1].
  cbn [fst snd].
  destruct (step m1 (tea.KeyMsg "enter") w1) as [[m2 cmd2] w2].
  cbv zeta in H. destruct H as (_ & _ & Hdrawn & t2 & Ht2 & Hsecond & Hfirst).
  split; [exact Hdrawn|].
  destruct Hsecond as (r2 & Hr2 & Hk2).
  destruct Hfirst as (r1 & Hr1 & Hk1); [vm_compute; discriminate|].
  exists t2, r1, r2. split; [exact Ht2|]. split; [exact Hr1|].
  split; [exact Hr2|]. split; [exact Hk1|exact Hk2].
Defined.

Lemma Update_filter_success_witness :
  let m := exampleModel true "id = 2" in
  let step := Update exampleDecoder exampleUpper exampleTableUpdate
                exampleInputUpdate exampleNumeric in
  let m' := (step m (tea.KeyMsg "enter") exampleWorld).1.1 in
  let w' := (step m (tea.KeyMsg "enter") exampleWorld).2 in
  textinput.Focused (textInput m) = true
  /\ backend exampleWorld
       (composedQuery (sqlQuery m) (textinput.Value (textInput m)))
     = Ok {| rs_columns := rs_columns users;
             rs_rows := drop 1 (rs_rows users) |}
  /\ table.cursor (table m') = 0
  /\ textInput m' = textInput m
  /\ executed w'
     = ["SELECT * FROM (SELECT id, name FROM users) WHERE id = 2"]
  /\ GetFilterByUID "tok" 1 w' = (Ok "id = 2", w').
Proof.
  intros m step m' w'.
  assert (H1 : textinput.Focused (textInput m) = true) by reflexivity.
  assert (H2 : backend exampleWorld
                 (composedQuery (sqlQuery m) (textinput.Value (textInput m)))
               = Ok {| rs_columns := rs_columns users;
                       rs_rows := drop 1 (rs_rows users) |})
    by (vm_compute; reflexivity).
  split; [exact H1|]. split; [exact H2|].
  pose proof (Update_filter_success_replaces_display exampleDecoder
                exampleUpper exampleTableUpdate exampleInputUpdate
                  exampleNumeric m
                exampleWorld _ H1 H2) as H.
  fold step in H. subst m' w'.
  assert (El : match (FilterContent exampleDecoder exampleUpper m
                        (textinput.Value (textInput m)) exampleWorld).1 with
               | Ok content => length content.1
               | Err _ => 0%nat
               end = 1%nat) by (vm_compute; reflexivity).
  destruct (step m (tea.KeyMsg "enter") exampleWorld) as [[m' cmd] w'].
  destruct H as (rows & cols & w1 & Hrun & _ & _ & Hcur & _ & Hti & _ & _ & _
                 & Hsent & Hread).
  rewrite Hrun in El. cbn [fst snd] in El |- *.
  split; [by rewrite Hcur, El|]. split; [exact Hti|].
  split; [by rewrite Hsent|].
  apply Hread; [discriminate|by eexists].
Defined.

Lemma Update_filter_without_match_witness :
  let m := exampleModel true "id = 7" in
  let w := setBackend emptyBackend exampleWorld in
  let step := Update exampleDecoder exampleUpper exampleTableUpdate
                exampleInputUpdate exampleNumeric in
  textinput.Focused (textInput m) = true
  /\ backend w (composedQuery (sqlQuery m) (textinput.Value (textInput m)))
     = Ok {| rs_columns := rs_columns users; rs_rows := [] |}
  /\ table.cursor (table (step m (tea.KeyMsg "enter") w).1.1) < 0
  /\ table.Rows (table (step m (tea.KeyMsg "enter") w).1.1) = []
  /\ GetHashByUID "tok" 1 (step m (tea.KeyMsg "enter") w).2
     = (Ok emptyDigest, (step m (tea.KeyMsg "enter") w).2).
Proof.
  intros m w step.
  assert (H1 : textinput.Focused (textInput m) = true) by reflexivity.
  assert (H2 : backend w
                 (composedQuery (sqlQuery m) (textinput.Value (textInput m)))
               = Ok {| rs_columns := rs_columns users; rs_rows := [] |})
    by reflexivity.
  split; [exact H1|]. split; [exact H2|].
  pose proof (Update_filter_without_match_unselects exampleDecoder
                exampleUpper exampleTableUpdate exampleInputUpdate
                  exampleNumeric m w _
                H1 H2 (or_introl eq_refl)) as H.
  fold step in H.
  destruct (step m (tea.KeyMsg "enter") w) as [[m' cmd] w'].
  cbn [fst snd].
  destruct H as (Hcur & _ & Hrows & Hhash).
  split; [exact Hcur|]. split; [by apply Hrows|].
  apply Hhash; [discriminate|by eexists].
Defined.

Lemma FilterContent_columns_witness :
  let m := exampleModel true "" in
  GetQueryConfig exampleDecoder (sqlName m) exampleWorld
  = (Ok ({["nm" := 30; "ID" := 6]}, {["NAME" := "nm"]}, 10), exampleWorld)
  /\ backend exampleWorld (composedQuery (sqlQuery m) " WHERE id = 2 ")
     = Ok {| rs_columns := rs_columns users;
             rs_rows := drop 1 (rs_rows users) |}
  /\ view m <> "c"
  /\ exists rows w',
       FilterContent exampleDecoder exampleUpper m " WHERE id = 2 "
         exampleWorld
       = (Ok (rows, [ {| table.Title := "ID"; table.Width := 6 |};
                      {| table.Title := "NAME"; table.Width := 30 |} ]), w').
Proof.
  intros m.
  assert (H1 : GetQueryConfig exampleDecoder (sqlName m) exampleWorld
               = (Ok ({["nm" := 30; "ID" := 6]}, {["NAME" := "nm"]}, 10),
                  exampleWorld)) by reflexivity.
  assert (H2 : backend exampleWorld
                 (composedQuery (sqlQuery m) " WHERE id = 2 ")
               = Ok {| rs_columns := rs_columns users;
                       rs_rows := drop 1 (rs_rows users) |})
    by (vm_compute; reflexivity).
  assert (H3 : view m <> "c") by discriminate.
  split; [exact H1|]. split; [exact H2|]. split; [exact H3|].
  destruct (FilterContent_columns exampleDecoder exampleUpper m
              " WHERE id = 2 " exampleWorld _ _ _ _ H1 H2 H3)
    as (rows & w' & Hrun & _).
  exists rows, w'. rewrite Hrun. reflexivity.
Defined.

Lemma FilterContent_config_error_witness :
  let m := exampleSession "broken" "tok" "" true "" in
  GetQueryConfig exampleDecoder (sqlName m) exampleWorld
  = (Err (ErrorString "unexpected end of JSON input"), exampleWorld)
  /\ backend exampleWorld (composedQuery (sqlQuery m) "") = Ok users
  /\ view m <> "c"
  /\ exists rows cols w',
       FilterContent exampleDecoder exampleUpper m "" exampleWorld
       = (Ok (rows, cols), w')
       /\ length rows = 2%nat
       /\ map table.Title cols = ["ID"; "NAME"]
       /\ Forall (fun col => table.Width col = 20) cols.
Proof.
  intros m.
  assert (H1 : GetQueryConfig exampleDecoder (sqlName m) exampleWorld
               = (Err (ErrorString "unexpected end of JSON input"),
                  exampleWorld)) by reflexivity.
  assert (H2 : backend exampleWorld (composedQuery (sqlQuery m) "")
               = Ok users) by reflexivity.
  assert (H3 : view m <> "c") by discriminate.
  split; [exact H1|]. split; [exact H2|]. split; [exact H3|].
  destruct (FilterContent_ignores_config_error exampleDecoder exampleUpper m
              "" exampleWorld _ _ H1 H2 H3)
    as (rows & cols & w' & Hrun & Hlen & Htitles & Hwidths).
  exists rows, cols, w'. split; [exact Hrun|]. split; [exact Hlen|].
  split; [exact Htitles|exact Hwidths].
Defined.

Lemma FilterContent_pivot_witness :
  let m := exampleSession "users" "tok" "c" true "" in
  backend exampleWorld (composedQuery (sqlQuery m) "") = Ok users
  /\ view m = "c"
  /\ exists rows cols w',
       FilterContent exampleDecoder exampleUpper m "" exampleWorld
       = (Ok (rows, cols), w')
       /\ map table.Title cols = ["column"; "val"]
       /\ length rows = 2%nat
       /\ rows !! 1%nat = Some ["NAME"; "alice"].
Proof.
  intros m.
  assert (H1 : backend exampleWorld (composedQuery (sqlQuery m) "")
               = Ok users) by reflexivity.
  assert (H2 : view m = "c") by reflexivity.
  split; [exact H1|]. split; [exact H2|].
  destruct (FilterContent_pivot_of_backend exampleDecoder exampleUpper m ""
              exampleWorld _ H1 H2)
    as (rows & cols & w' & Hrun & _ & Hfirst).
  destruct (Hfirst _ _ eq_refl) as (Htitles & Hlen & Hcell).
  exists rows, cols, w'. split; [exact Hrun|]. split; [exact Htitles|].
  split; [exact Hlen|]. exact (Hcell 1%nat "name" eq_refl).
Defined.

Lemma Update_enter_in_pivot_view_witness :
  textinput.Focused (textInput pivotModel) = false
  /\ is_Some (items (sqliteDB exampleWorld))
  /\ config (sqliteDB exampleWorld) = Some []
  /\ map table.Title (table.Columns (table pivotModel)) = ["column"; "val"]
  /\ aliases pivotModel !! "COLUMN" = None
  /\ aliases pivotModel !! "VAL" = None
  /\ config (sqliteDB
       (Update exampleDecoder exampleUpper exampleTableUpdate
          exampleInputUpdate exampleNumeric pivotModel (tea.KeyMsg "enter")
            exampleWorld).2)
     = Some [].
Proof.
  assert (H1 : textinput.Focused (textInput pivotModel) = false)
    by reflexivity.
  assert (H2 : is_Some (items (sqliteDB exampleWorld))) by (by eexists).
  assert (H3 : config (sqliteDB exampleWorld) = Some []) by reflexivity.
  assert (H4 : map table.Title (table.Columns (table pivotModel))
               = ["column"; "val"]) by reflexivity.
  assert (H5 : aliases pivotModel !! "COLUMN" = None) by reflexivity.
  assert (H6 : aliases pivotModel !! "VAL" = None) by reflexivity.
  split; [exact H1|]. split; [exact H2|]. split; [exact H3|].
  split; [exact H4|]. split; [exact H5|]. split; [exact H6|].
  pose proof (Update_enter_in_pivot_view_saves_no_column exampleDecoder
                exampleUpper exampleTableUpdate exampleInputUpdate
                  exampleNumeric pivotModel
                exampleWorld [] H1 H2 H3 H4 H5 H6) as H.
  destruct (Update exampleDecoder exampleUpper exampleTableUpdate
              exampleInputUpdate exampleNumeric pivotModel (tea.KeyMsg "enter")
                exampleWorld)
    as [[m' cmd] w'].
  by destruct H as (H & _).
Defined.

Lemma Update_enter_keeps_other_sessions_witness :
  let m := exampleSession "users" "other" "" false "" in
  let kept := {| c_id_item := 1; c_uid := "tok"; c_var := SqlText "nm";
                 c_val := "bob" |} in
  let w := withConfig [kept] startWorld in
  textinput.Focused (textInput m) = false
  /\ uid m <> ""
  /\ is_Some (items (sqliteDB w))
  /\ config (sqliteDB w) = Some [kept]
  /\ instance (sqliteDB w) = instance startStore
  /\ exists stored' saved',
       config (sqliteDB
         (Update exampleDecoder exampleUpper exampleTableUpdate
            exampleInputUpdate exampleNumeric m (tea.KeyMsg "enter") w).2) =
              Some stored'
       /\ instance (sqliteDB
            (Update exampleDecoder exampleUpper exampleTableUpdate
               exampleInputUpdate exampleNumeric m (tea.KeyMsg "enter") w).2) =
                 Some saved'
       /\ kept ∈ stored'
       /\ {| i_uid := "tok"; i_id_query := 1; i_hash := bobDigest;
             i_filter := "id = 2" |} ∈ saved'.
Proof.
  intros m kept w.
  assert (H1 : textinput.Focused (textInput m) = false) by reflexivity.
  assert (H2 : uid m <> "") by discriminate.
  assert (H3 : is_Some (items (sqliteDB w))) by (by eexists).
  assert (H4 : config (sqliteDB w) = Some [kept]) by reflexivity.
  assert (H5 : instance (sqliteDB w) = instance startStore) by reflexivity.
  split; [exact H1|]. split; [exact H2|]. split; [exact H3|].
  split; [exact H4|]. split; [exact H5|].
  pose proof (Update_enter_keeps_other_sessions exampleDecoder exampleUpper
                exampleTableUpdate exampleInputUpdate exampleNumeric m w _ _ H1
                  H2 H3 H4 H5)
    as H.
  destruct (Update exampleDecoder exampleUpper exampleTableUpdate
              exampleInputUpdate exampleNumeric m (tea.KeyMsg "enter") w) as
                [[m' cmd] w'].
  destruct H as (idItem & stored' & saved' & _ & Hc & Hi & Hstored & Hsaved).
  exists stored', saved'. cbn [fst snd].
  split; [exact Hc|]. split; [exact Hi|]. split.
  - apply Hstored; [left|]. right. discriminate.
  - apply Hsaved; [left|]. left. discriminate.
Defined.

Lemma Update_quits_witness :
  (Update exampleDecoder exampleUpper exampleTableUpdate exampleInputUpdate
    exampleNumeric
     (exampleModel true "id = 2") (tea.KeyMsg "ctrl+c") exampleWorld).1.2
  = Some tea.Quit
  /\ (tea.KeyMsg "ctrl+c" = tea.KeyMsg "ctrl+c"
      \/ exists ti,
           (exampleInputUpdate ti (tea.KeyMsg "ctrl+c")).2 = Some tea.Quit).
Proof.
  assert (H : (Update exampleDecoder exampleUpper exampleTableUpdate
                 exampleInputUpdate exampleNumeric (exampleModel true "id = 2")
                 (tea.KeyMsg "ctrl+c") exampleWorld).1.2 = Some tea.Quit)
    by reflexivity.
  split; [exact H|].
  exact (Update_quits_on_ctrl_c_only exampleDecoder exampleUpper
           exampleTableUpdate exampleInputUpdate exampleNumeric _ _ _ H).
Defined.

Lemma substitute_order_witness :
  (colon ∉ chars "_max") /\ (colon ∉ chars "1") /\ (colon ∉ chars "9")
  /\ substitute ":id_max" [("id", "1"); ("id_max", "9")] = "1_max"
  /\ substitute ":id_max" [("id_max", "9"); ("id", "1")] = "9".
Proof.
  assert (H1 : colon ∉ chars "_max").
  { intros H%list_elem_of_In. vm_compute in H. intuition discriminate. }
  assert (H2 : colon ∉ chars "1").
  { intros H%list_elem_of_In. vm_compute in H. intuition discriminate. }
  assert (H3 : colon ∉ chars "9").
  { intros H%list_elem_of_In. vm_compute in H. intuition discriminate. }
  split; [exact H1|]. split; [exact H2|]. split; [exact H3|].
  exact (substitute_depends_on_order "id" "_max" "1" "9" H1 H2 H3).
Defined.

(** ** Startup at the examples *)

Lemma main_starts_on_a_row_witness :
  exists m h',
    main exampleDecoder exampleUpper exampleNumeric exampleSetValue
      (exampleFlags "" "tok")
      exampleHost = (Ok m, h')
    /\ table.Rows (table m) <> []
    /\ table.SelectedRow (table m) ∈ table.Rows (table m)
    /\ GetQueryID "users" (world h') = (Ok (idQuery m), world h')
    /\ uid m = "tok".
Proof.
  destruct (main exampleDecoder exampleUpper exampleNumeric exampleSetValue
              (exampleFlags "" "tok") exampleHost) as [[m|e] h'] eqn:E;
    [|vm_compute in E; discriminate].
  exists m, h'. split; [reflexivity|].
  destruct (main_starts_on_a_row exampleDecoder exampleUpper exampleNumeric
    exampleSetValue
              _ _ _ _ E)
    as (Hrows & _ & Hsel & _ & _ & Hsql & Huid & _ & _ & _ & Hq & _).
  split; [exact Hrows|]. split; [exact Hsel|].
  split; [by rewrite Hsql in Hq|exact Huid].
Defined.

Lemma main_connects_witness :
  (forall t, dbs exampleHost = Some t -> uniqueKeys d_id t)
  /\ exists m h',
       main exampleDecoder exampleUpper exampleNumeric exampleSetValue
         (exampleFlags "" "tok") exampleHost = (Ok m, h')
       /\ databases exampleHost "sqlite" "file:users.db"
          = Ok (backend (world h'))
       /\ idDB m = 1.
Proof.
  assert (H1 : forall t, dbs exampleHost = Some t -> uniqueKeys d_id t).
  { intros t [= <-]. unfold uniqueKeys. simpl.
    apply NoDup_cons. split; [|apply NoDup_singleton].
    intros H%list_elem_of_singleton. discriminate. }
  split; [exact H1|].
  destruct (main exampleDecoder exampleUpper exampleNumeric exampleSetValue
              (exampleFlags "" "tok") exampleHost) as [[m|e] h'] eqn:E;
    [|vm_compute in E; discriminate].
  exists m, h'. split; [reflexivity|].
  destruct (main_connects_named_database exampleDecoder exampleUpper
    exampleNumeric
              exampleSetValue _ _ _ _ H1 E)
    as (t & r & cs & answers & [= <-] & Hr & Hname & Hcs & Hopen & Hb & Hid).
  apply elem_of_cons in Hr as [->|Hr];
    [|apply list_elem_of_singleton in Hr; subst r; discriminate].
  injection Hcs as <-. rewrite Hb. split; [exact Hopen|exact Hid].
Defined.

Lemma main_filter_and_display_witness :
  exists m h',
    main exampleDecoder exampleUpper exampleNumeric exampleSetValue
      (exampleFlags "" "tok")
      exampleHost = (Ok m, h')
    /\ startFilter (exampleFlags "" "tok") (idQuery m) (world h') = "id = 2"
    /\ textInput m = exampleSetValue "id = 2" textinput.New
    /\ table.Rows (table m) = [ ["2"; "bob"] ].
Proof.
  assert (Ef : match (main exampleDecoder exampleUpper exampleNumeric
    exampleSetValue
                        (exampleFlags "" "tok") exampleHost).1 with
               | Ok m => initialFilter m = "id = 2"
                         /\ table.Rows (table m) = [ ["2"; "bob"] ]
               | Err _ => False
               end) by (vm_compute; split; reflexivity).
  destruct (main exampleDecoder exampleUpper exampleNumeric exampleSetValue
              (exampleFlags "" "tok") exampleHost) as [[m|e] h'] eqn:E;
    [|destruct Ef].
  destruct Ef as [Ef Erows]. cbn [fst] in Ef, Erows.
  exists m, h'. split; [reflexivity|].
  destruct (main_filter_and_display exampleDecoder exampleUpper exampleNumeric
              exampleSetValue _ _ _ _ E) as (Hf & Hti & _).
  split; [rewrite <- Hf; exact Ef|]. split; [|exact Erows].
  rewrite Hti, Ef. reflexivity.
Defined.

Lemma empty_filter_after_startup_witness :
  let f := {| f_item := "users"; f_sql := "plain"; f_db := "main";
              f_filter := ""; f_args := ""; f_uid := "" |} in
  exists m h',
    main exampleDecoder exampleUpper exampleNumeric exampleSetValue f
      exampleHost
    = (Ok m, h')
    /\ initialFilter m = ""
    /\ backend (world h') (sqlQuery m) = Ok users
    /\ (forall name, name ∈ rs_columns users ->
          isASCII name = true /\ aliases m !! ToUpper exampleUpper name = None)
    /\ FilterContent exampleDecoder exampleUpper m "" (world h')
       = (Ok (table.Rows (table m), table.Columns (table m)),
          logQuery (sqlQuery m) (world h')).
Proof.
  intros f.
  assert (Ef : match main exampleDecoder exampleUpper exampleNumeric
    exampleSetValue f
                       exampleHost with
               | (Ok m, h') =>
                   initialFilter m = ""
                   /\ backend (world h') (sqlQuery m) = Ok users
                   /\ aliases m = ∅
               | (Err _, _) => False
               end) by (vm_compute; repeat split).
  destruct (main exampleDecoder exampleUpper exampleNumeric exampleSetValue f
    exampleHost)
    as [[m|e] h'] eqn:E; [|destruct Ef].
  destruct Ef as (H1 & H2 & Ea).
  assert (H3 : forall name, name ∈ rs_columns users ->
                 isASCII name = true
                 /\ aliases m !! ToUpper exampleUpper name = None).
  { intros name Hname. rewrite Ea, lookup_empty. split; [|done].
    apply elem_of_cons in Hname as [->|Hname]; [done|].
    apply list_elem_of_singleton in Hname. by subst name. }
  exists m, h'. split; [reflexivity|]. split; [exact H1|].
  split; [exact H2|]. split; [exact H3|].
  exact (empty_filter_after_startup_without_aliases exampleDecoder
           exampleUpper exampleNumeric exampleSetValue f exampleHost h' m users
             E H1 H2 H3).
Defined.

Lemma session_restored_witness :
  let m0 := exampleModel false "id = 2" in
  let w1 := (Update exampleDecoder exampleUpper exampleTableUpdate
               exampleInputUpdate exampleNumeric m0 (tea.KeyMsg "enter")
                 exampleWorld).2 in
  let h := setWorld w1 exampleHost in
  textinput.Focused (textInput m0) = false
  /\ uid m0 <> ""
  /\ is_Some (items (sqliteDB exampleWorld))
  /\ is_Some (config (sqliteDB exampleWorld))
  /\ is_Some (instance (sqliteDB exampleWorld))
  /\ sqliteDB (world h) = sqliteDB w1
  /\ exists m h',
       main exampleDecoder exampleUpper exampleNumeric exampleSetValue
         (exampleFlags "" "tok") h = (Ok m, h')
       /\ idQuery m = idQuery m0
       /\ initialFilter m = "id = 2"
       /\ table.SelectedRow (table m0) ∈ table.Rows (table m)
       /\ rowDigest (table.SelectedRow (table m))
          = rowDigest (table.SelectedRow (table m0)).
Proof.
  intros m0 w1 h.
  assert (H1 : textinput.Focused (textInput m0) = false) by reflexivity.
  assert (H2 : uid m0 <> "") by discriminate.
  assert (H3 : is_Some (items (sqliteDB exampleWorld))) by (by eexists).
  assert (H4 : is_Some (config (sqliteDB exampleWorld))) by (by eexists).
  assert (H5 : is_Some (instance (sqliteDB exampleWorld))) by (by eexists).
  assert (H6 : sqliteDB (world h) = sqliteDB w1) by reflexivity.
  split; [exact H1|]. split; [exact H2|]. split; [exact H3|].
  split; [exact H4|]. split; [exact H5|]. split; [exact H6|].
  assert (Ef : match main exampleDecoder exampleUpper exampleNumeric
    exampleSetValue
                       (exampleFlags "" "tok") h with
               | (Ok m, _) =>
                   idQuery m = idQuery m0
                   /\ table.SelectedRow (table m0) ∈ table.Rows (table m)
               | (Err _, _) => False
               end) by (vm_compute; split; [reflexivity|left]).
  destruct (main exampleDecoder exampleUpper exampleNumeric exampleSetValue
              (exampleFlags "" "tok") h) as [[m|e] h'] eqn:E; [|destruct Ef].
  destruct Ef as [Hq Hin].
  exists m, h'. split; [reflexivity|]. split; [exact Hq|].
  pose proof (session_restored_at_startup exampleDecoder exampleUpper
                exampleTableUpdate exampleInputUpdate exampleNumeric
                  exampleSetValue m0
                exampleWorld (exampleFlags "" "tok") h h' m H1 H2 H3 H4 H5)
    as H.
  subst h w1.
  destruct (Update exampleDecoder exampleUpper exampleTableUpdate
              exampleInputUpdate exampleNumeric m0 (tea.KeyMsg "enter")
                exampleWorld)
    as [[m1 cmd1] w1].
  destruct (H eq_refl eq_refl eq_refl E Hq) as (Hf & Hfound & _).
  split; [exact Hf|]. split; [exact Hin|].
  destruct (Hfound Hin) as [Hd _]. exact Hd.
Defined.

